(** * Price-index engine: Cavallo and Tmall indices, merge and persistence

    A shallow embedding of [analysis/price_index_python.py],
    [storage/localdatasave.py] and the insert path of
    [storage/clickhouse_connector.py].

    Conventions.
    - Python floats are modelled as real numbers ([R]); NaN, infinities and
      binary rounding error are outside the model.
    - A Python [dict] is an association list in insertion order without
      repeated keys ([PyDict]).
    - Code inside [try: ... except] runs in the error monad [M]; the
      [except] clause is the place where an [Err] is turned into a value.
    - Every SQL text of [PriceIndexCalculator] is one field of [Connector];
      [db_connector] gives them their meaning over in-memory tables.
    - Functions of the Python library ([strftime], [strptime],
      [pd.to_datetime], the ClickHouse driver) are the fields of [Runtime]. *)

From Stdlib Require Import List String Ascii Bool Arith ZArith Lia.
From Stdlib Require Import Reals Lra Permutation OrdersEx RelationClasses Sorted.
From Stdlib Require DecimalString DecimalNat.
Import ListNotations.

Set Implicit Arguments.

(** * Part I: the model *)

(** ** Exceptions and the error monad *)

Inductive exn : Type :=
| ValueError (msg : string)
| AttributeError (msg : string)
| TypeError (msg : string)
| DriverError (msg : string).

Inductive M (A : Type) : Type :=
| Ok (a : A)
| Err (e : exn).

Arguments Ok {A} a.
Arguments Err {A} e.

Definition bind {A B} (m : M A) (k : A -> M B) : M B :=
  match m with
  | Ok a => k a
  | Err e => Err e
  end.

Notation "x <- m ;; k" := (bind m (fun x => k))
  (at level 61, m at next level, right associativity).

(** Python truthiness of a list or dict: [if not xs]. *)
Definition is_empty {A} (l : list A) : bool :=
  match l with [] => true | _ :: _ => false end.

(** ** Keys with a boolean equality *)

Class Eqb (K : Type) := eqb : K -> K -> bool.

Class EqbOk (K : Type) {E : Eqb K} :=
  eqb_spec : forall x y : K, reflect (x = y) (eqb x y).

Arguments EqbOk K {E}.

#[export] Instance string_Eqb : Eqb string := String.eqb.
#[export] Instance nat_Eqb : Eqb nat := Nat.eqb.

(** [k in l] *)
Definition mem {K} `{Eqb K} (k : K) (l : list K) : bool :=
  existsb (eqb k) l.

(** ** Python dictionaries: insertion-ordered association lists *)

Module PyDict.
Section Dict.
Context {K V : Type} `{Eqb K}.

Definition t := list (K * V).

(** [d.get(k)] *)
Fixpoint get (k : K) (d : t) : option V :=
  match d with
  | [] => None
  | (k', v) :: d' => if eqb k k' then Some v else get k d'
  end.

(** [d.get(k, dflt)] *)
Definition get_default (k : K) (dflt : V) (d : t) : V :=
  match get k d with Some v => v | None => dflt end.

(** [k in d] *)
Definition contains (k : K) (d : t) : bool :=
  match get k d with Some _ => true | None => false end.

(** [d[k] = v]: an existing key keeps its position, a new key goes last. *)
Fixpoint set (k : K) (v : V) (d : t) : t :=
  match d with
  | [] => [(k, v)]
  | (k', v') :: d' =>
      if eqb k k' then (k', v) :: d' else (k', v') :: set k v d'
  end.

(** [d[k][field] = x]: the object stored under [k] is mutated in place. *)
Fixpoint update (k : K) (f : V -> V) (d : t) : t :=
  match d with
  | [] => []
  | (k', v') :: d' =>
      if eqb k k' then (k', f v') :: d' else (k', v') :: update k f d'
  end.

(** [list(d.keys())] *)
Definition keys (d : t) : list K := map fst d.

Definition set_pair (d : t) (kv : K * V) : t := set (fst kv) (snd kv) d.

(** [dict(pairs)] *)
Definition of_list (pairs : list (K * V)) : t := fold_left set_pair pairs [].

End Dict.
End PyDict.

(** ** Dates *)

Record date : Type := mkDate { year : nat; month : nat; day : nat }.

Definition date_eqb (a b : date) : bool :=
  (year a =? year b) && (month a =? month b) && (day a =? day b).

#[export] Instance date_Eqb : Eqb date := date_eqb.

(** Chronological order, as [ORDER BY date] and pandas' sorted group keys
    use it. *)
Definition date_ltb (a b : date) : bool :=
  (year a <? year b)
  || ((year a =? year b)
      && ((month a <? month b) || ((month a =? month b) && (day a <? day b)))).

Fixpoint insert_date (d : date) (l : list date) : list date :=
  match l with
  | [] => [d]
  | x :: l' =>
      if date_eqb d x then l
      else if date_ltb d x then d :: l
      else x :: insert_date d l'
  end.

(** The distinct dates of a column in ascending order. *)
Definition sorted_distinct (l : list date) : list date :=
  fold_right insert_date [] l.

(** ** Arithmetic on floats (as reals) *)

Open Scope R_scope.

(** [x > y] *)
Definition Rgtb (x y : R) : bool := if Rlt_dec y x then true else false.

Definition Rsum (l : list R) : R := fold_right Rplus 0 l.

(** [Series.mean()] *)
Definition mean (l : list R) : R := Rsum l / INR (List.length l).

(** Round half to even, to an integer. *)
Definition round_half_even (x : R) : Z :=
  let n := Int_part x in
  let f := frac_part x in
  if Rlt_dec f (1 / 2) then n
  else if Rlt_dec (1 / 2) f then (n + 1)%Z
  else if Z.even n then n else (n + 1)%Z.

(** [round(x, ndigits)] and [Series.round(ndigits)] *)
Definition py_round (x : R) (ndigits : nat) : R :=
  IZR (round_half_even (x * 10 ^ ndigits)) / 10 ^ ndigits.

Close Scope R_scope.

(** ** Records exchanged between the engines and the savers *)

(** One dict of an engine's result list:
    [{'date': ..., 'cavallo_index' | 'tmall_index': ..., 'base_date': ...}].
    [idx_value = None] is a dict without the index key. *)
Record IndexRecord : Type := mkIndexRecord {
  idx_date : string;
  idx_value : option R;
  idx_base_date : string
}.

(** [v] is [x] rounded to four decimals, half to even: [v] is [n / 10000]
    for an integer [n] nearest to [10000 x], the even one when [10000 x]
    lies halfway between two integers. *)
Definition rounded_to_4 (x v : R) : Prop :=
  exists n : Z,
    v = (IZR n / 10 ^ 4)%R
    /\ (Rabs (IZR n - x * 10 ^ 4) <= 1 / 2)%R
    /\ ((Rabs (IZR n - x * 10 ^ 4) = 1 / 2)%R -> Z.even n = true).

(** One value of [combined]: [{'date', 'base_date'}] plus the index keys set
    so far. *)
Record CombinedRow : Type := mkCombinedRow {
  c_date : string;
  c_base_date : string;
  c_cavallo_index : option R;
  c_tmall_index : option R
}.

(** One tuple of [data] in [save_indices]; [None] is Python's [None]. *)
Definition index_tuple : Type := (date * option R * option R * date)%type.

Definition tup_date (tup : index_tuple) : date := fst (fst (fst tup)).
Definition tup_cavallo_index (tup : index_tuple) : option R :=
  snd (fst (fst tup)).
Definition tup_tmall_index (tup : index_tuple) : option R := snd (fst tup).
Definition tup_base_date (tup : index_tuple) : date := snd tup.

(** One dict of [records] in [save_indices_to_local_file]. *)
Record CsvRecord : Type := mkCsvRecord {
  csv_date : string;
  csv_cavallo_index : R;
  csv_tmall_index : R;
  csv_base_date : string
}.

(** ** Library functions *)

Class Runtime : Type := {
  (** [d.strftime('%Y-%m-%d')] *)
  strftime : date -> string;
  (** [datetime.strptime(s, '%Y-%m-%d').date()] *)
  strptime : string -> M date;
  (** [pd.to_datetime(s).date()] *)
  to_datetime : string -> M date;
  (** [client.execute("INSERT INTO <table> VALUES", batch)] *)
  client_insert : string -> list index_tuple -> M unit
}.

(** ** The query interface of [ClickHouseConnector.execute_query] *)

Record Connector : Type := {
  (** [SELECT min(date) FROM daily_prices]; one column per row *)
  q_min_date : M (list (option date));
  (** [SELECT DISTINCT date FROM daily_prices ORDER BY date] *)
  q_all_dates : M (list date);
  (** [SELECT product_id, price FROM daily_prices WHERE date = %(date)s] *)
  q_base_prices : option date -> M (list (string * R));
  (** [SELECT date, product_id, price FROM daily_prices
       WHERE product_id IN %(product_ids)s] *)
  q_prices_in : list string -> M (list (date * string * R));
  (** [SELECT category_id, weight FROM categories] *)
  q_category_weights : M (list (nat * R));
  (** [SELECT category_id, avg(price) FROM daily_prices
       WHERE date = %(date)s GROUP BY category_id] *)
  q_category_averages : option date -> M (list (nat * R))
}.

(** ** Batching: [range(0, len(xs), n)] and [xs[i:i + n]] *)

Fixpoint range_from (fuel start stop step : nat) : list nat :=
  match fuel with
  | O => []
  | S fuel' =>
      if start <? stop then start :: range_from fuel' (start + step) stop step
      else []
  end.

(** [range(0, stop, step)] for [step >= 1]: at most [stop] iterations. *)
Definition py_range (stop step : nat) : list nat :=
  range_from stop 0 stop step.

(** [xs[i:j]] *)
Definition slice {A} (xs : list A) (i j : nat) : list A :=
  firstn (j - i) (skipn i xs).

Definition batches {A} (n : nat) (xs : list A) : list (list A) :=
  map (fun i => slice xs i (i + n)) (py_range (List.length xs) n).

Definition batch_size : nat := 1000.

(** ** [PriceIndexCalculator]: the private query helpers *)

Section Calculator.
Context `{Runtime}.
Variable ch : Connector.

(** [_determine_base_date]: a truthy [specified_date] is parsed; otherwise
    the first column of the first row of the min-date query, or Python's
    [None] when the query has no row. *)
Definition _determine_base_date (specified_date : option string)
  : M (option date) :=
  match specified_date with
  | Some (String c s) => d <- to_datetime (String c s) ;; Ok (Some d)
  | Some EmptyString | None =>
      result <- q_min_date ch ;;
      match result with
      | row :: _ => Ok row
      | [] => Ok None
      end
  end.

(** [_get_all_dates] *)
Definition _get_all_dates : M (list date) :=
  result <- q_all_dates ch ;; Ok result.

(** [_get_base_prices]: [dict(result) if result else {}] *)
Definition _get_base_prices (base_date : option date)
  : M (PyDict.t (K:=string) (V:=R)) :=
  result <- q_base_prices ch base_date ;; Ok (PyDict.of_list result).

(** [_get_category_weights] *)
Definition _get_category_weights : M (PyDict.t (K:=nat) (V:=R)) :=
  result <- q_category_weights ch ;; Ok (PyDict.of_list result).

(** [_get_category_averages] *)
Definition _get_category_averages (d : option date)
  : M (PyDict.t (K:=nat) (V:=R)) :=
  result <- q_category_averages ch d ;; Ok (PyDict.of_list result).

(** [base_date.strftime('%Y-%m-%d')]: [None] has no such attribute. *)
Definition strftime_obj (base_date : option date) : M string :=
  match base_date with
  | Some d => Ok (strftime d)
  | None => Err (AttributeError "'NoneType' object has no attribute 'strftime'")
  end.

(** ** [calculate_cavallo_index] *)

(** Lines 31-42: one query per batch, results appended in batch order. *)
Fixpoint fetch_price_rows (bs : list (list string))
  : M (list (date * string * R)) :=
  match bs with
  | [] => Ok []
  | batch :: bs' =>
      rows <- q_prices_in ch batch ;;
      rest <- fetch_price_rows bs' ;;
      Ok (rows ++ rest)
  end.

(** A row of [df] after the merge: date, product_id, price, base_price. *)
Definition joined_row : Type := (date * string * R * R)%type.

Definition jr_date (r : joined_row) : date := fst (fst (fst r)).
Definition jr_price (r : joined_row) : R := snd (fst r).
Definition jr_base_price (r : joined_row) : R := snd r.

(** [df.merge(base_df, on='product_id', how='inner')] *)
Definition merge_on_product_id (df : list (date * string * R))
  (base_df : list (string * R)) : list joined_row :=
  flat_map (fun r =>
              map (fun b => (r, snd b))
                  (filter (fun b => eqb (fst b) (snd (fst r))) base_df))
           df.

(** [df[(df['price'] > 0) & (df['base_price'] > 0)]] *)
Definition positive_rows (df : list joined_row) : list joined_row :=
  filter (fun r => Rgtb (jr_price r) 0 && Rgtb (jr_base_price r) 0) df.

(** [df['log_ratio'] = np.log(df['price'] / df['base_price'])] *)
Definition log_ratio (r : joined_row) : R :=
  ln (jr_price r / jr_base_price r).

(** [df.groupby('date')['log_ratio'].mean().reset_index()]: one row per
    distinct date, keys ascending. *)
Definition groupby_date_mean (df : list joined_row) : list (date * R) :=
  map (fun d =>
         (d, mean (map log_ratio (filter (fun r => eqb (jr_date r) d) df))))
      (sorted_distinct (map jr_date df)).

(** The body of the [try] block. *)
Definition cavallo_try (base_date : option string) : M (list IndexRecord) :=
  base_date <- _determine_base_date base_date ;;
  base_prices <- _get_base_prices base_date ;;
  if is_empty base_prices then
    Err (ValueError "No base period prices found")
  else
    let base_df := base_prices in
    let all_pids := PyDict.keys base_prices in
    all_price_rows <- fetch_price_rows (batches batch_size all_pids) ;;
    if is_empty all_price_rows then Err (ValueError "No price data found")
    else
      let df := positive_rows (merge_on_product_id all_price_rows base_df) in
      let grouped := groupby_date_mean df in
      base_date_str <- strftime_obj base_date ;;
      Ok (map (fun g =>
                 {| idx_date := strftime (fst g);
                    idx_value := Some (py_round (exp (snd g) * 100) 4);
                    idx_base_date := base_date_str |})
              grouped).

(** [except Exception: log; return []] *)
Definition calculate_cavallo_index (base_date : option string)
  : list IndexRecord :=
  match cavallo_try base_date with
  | Ok results => results
  | Err _ => []
  end.

(** ** [calculate_tmall_index] *)

(** Lines 103-111: the pair [(weighted_sum, total_weight)] after the loop
    over [current_avg.items()]. *)
Definition accumulate_weights
  (category_weights base_avg current_avg : PyDict.t (K:=nat) (V:=R))
  : R * R :=
  fold_left
    (fun acc item =>
       match PyDict.get (fst item) base_avg with
       | Some b =>
           if Rgtb b 0 then
             let weight := PyDict.get_default (fst item) 0%R category_weights in
             let ratio := (snd item / b)%R in
             (fst acc + ratio * weight, snd acc + weight)%R
           else acc
       | None => acc
       end)
    current_avg (0%R, 0%R).

(** Line 113 *)
Definition tmall_index_value (sums : R * R) : R :=
  if Rgtb (snd sums) 0 then (fst sums / snd sums * 100)%R else 0%R.

(** Lines 97-118: the loop over [dates]. *)
Fixpoint tmall_loop (category_weights base_avg : PyDict.t (K:=nat) (V:=R))
  (base_date : option date) (dates : list date) : M (list IndexRecord) :=
  match dates with
  | [] => Ok []
  | d :: dates' =>
      current_avg <- _get_category_averages (Some d) ;;
      if is_empty current_avg then
        tmall_loop category_weights base_avg base_date dates'
      else
        let index :=
          tmall_index_value
            (accumulate_weights category_weights base_avg current_avg) in
        base_date_str <- strftime_obj base_date ;;
        rest <- tmall_loop category_weights base_avg base_date dates' ;;
        Ok ({| idx_date := strftime d;
               idx_value := Some (py_round index 4);
               idx_base_date := base_date_str |} :: rest)
  end.

(** The body of the [try] block. *)
Definition tmall_try (base_date : option string) : M (list IndexRecord) :=
  base_date <- _determine_base_date base_date ;;
  category_weights <- _get_category_weights ;;
  if is_empty category_weights then
    Err (ValueError "No category weights found")
  else
    base_avg <- _get_category_averages base_date ;;
    if is_empty base_avg then
      Err (ValueError "No base period category averages")
    else
      dates <- _get_all_dates ;;
      tmall_loop category_weights base_avg base_date dates.

(** [except Exception: log; return []] *)
Definition calculate_tmall_index (base_date : option string)
  : list IndexRecord :=
  match tmall_try base_date with
  | Ok results => results
  | Err _ => []
  end.

End Calculator.

(** ** Merging the two result lists *)

(** Lines 131-135 of [save_indices], 10-14 of [save_indices_to_local_file]:
    one iteration of the loop over [cavallo_indices]. *)
Definition add_cavallo (combined : PyDict.t (K:=string) (V:=CombinedRow))
  (idx : IndexRecord) : PyDict.t (K:=string) (V:=CombinedRow) :=
  let date := idx_date idx in
  let combined :=
    if negb (PyDict.contains date combined) then
      PyDict.set date
        {| c_date := date; c_base_date := idx_base_date idx;
           c_cavallo_index := None; c_tmall_index := None |}
        combined
    else combined in
  PyDict.update date
    (fun row =>
       {| c_date := c_date row; c_base_date := c_base_date row;
          c_cavallo_index :=
            Some (match idx_value idx with Some v => v | None => 0%R end);
          c_tmall_index := c_tmall_index row |})
    combined.

(** Lines 137-141 of [save_indices], 16-20 of [save_indices_to_local_file]:
    one iteration of the loop over [tmall_indices]. *)
Definition add_tmall (combined : PyDict.t (K:=string) (V:=CombinedRow))
  (idx : IndexRecord) : PyDict.t (K:=string) (V:=CombinedRow) :=
  let date := idx_date idx in
  let combined :=
    if negb (PyDict.contains date combined) then
      PyDict.set date
        {| c_date := date; c_base_date := idx_base_date idx;
           c_cavallo_index := None; c_tmall_index := None |}
        combined
    else combined in
  PyDict.update date
    (fun row =>
       {| c_date := c_date row; c_base_date := c_base_date row;
          c_cavallo_index := c_cavallo_index row;
          c_tmall_index :=
            Some (match idx_value idx with Some v => v | None => 0%R end) |})
    combined.

(** The dict [combined] after both loops. *)
Definition combine (cavallo_indices tmall_indices : list IndexRecord)
  : PyDict.t (K:=string) (V:=CombinedRow) :=
  fold_left add_tmall tmall_indices (fold_left add_cavallo cavallo_indices []).

(** The keys of a dict that starts with the keys [seen] and then receives
    the keys [l] in order. *)
Fixpoint first_seen (seen l : list string) : list string :=
  match l with
  | [] => seen
  | x :: l' => first_seen (if mem x seen then seen else seen ++ [x]) l'
  end.

(** What [combined] records once the dates [dc] of Cavallo records and the
    dates [dt] of Tmall records have been processed. *)
Definition merge_inv (dc dt : list string)
  (combined : PyDict.t (K:=string) (V:=CombinedRow)) : Prop :=
  (forall k, In k dc \/ In k dt -> PyDict.get k combined <> None)
  /\ (forall k row, PyDict.get k combined = Some row ->
        c_date row = k
        /\ (c_cavallo_index row = None <-> ~ In k dc)
        /\ (c_tmall_index row = None <-> ~ In k dt)).

(** ** [ClickHouseConnector.insert_data] *)

(** The sink is the sequence of INSERT statements executed so far, each with
    its table and its batch of rows. *)
Definition Sink : Type := list (string * list index_tuple).

(** The rows a table holds: those of the inserts issued to it. *)
Definition stored (table : string) (s : Sink) : list index_tuple :=
  flat_map snd (filter (fun st => String.eqb (fst st) table) s).

Definition insert_batch_size : nat := 50000.

Section Persistence.
Context `{Runtime}.

(** Lines 122-127. The three [_prepare_*_data] converters belong to the
    other tables; on a tuple of [data] each of them reaches [int(row[0])]
    or [float(row[3])] with a date and raises [TypeError]. *)
Definition prepare_data (table : string) (data : list index_tuple)
  : M (list index_tuple) :=
  if String.eqb table "categories" then
    Err (TypeError "int() argument must be a string or a real number")
  else if String.eqb table "products" then
    Err (TypeError "float() argument must be a string or a real number")
  else if String.eqb table "daily_prices" then
    Err (TypeError "float() argument must be a string or a real number")
  else Ok data.

(** Lines 135-141: one [client.execute] per batch; the first failure is
    re-raised and the remaining batches are not sent. *)
Fixpoint insert_batches (table : string) (bs : list (list index_tuple))
  (s : Sink) : M unit * Sink :=
  match bs with
  | [] => (Ok tt, s)
  | batch :: bs' =>
      match client_insert table batch with
      | Ok _ => insert_batches table bs' (s ++ [(table, batch)])
      | Err e => (Err e, s)
      end
  end.

Definition insert_data (table : string) (data : list index_tuple) (s : Sink)
  : M unit * Sink :=
  if is_empty data then (Ok tt, s)
  else
    match prepare_data table data with
    | Ok data' => insert_batches table (batches insert_batch_size data') s
    | Err e => (Err e, s)
    end.

(** ** [save_indices] *)

(** Lines 146-151: the tuple built from one value of [combined]. *)
Definition index_tuple_of (values : CombinedRow) : M index_tuple :=
  d <- strptime (c_date values) ;;
  bd <- strptime (c_base_date values) ;;
  Ok (d,
      match c_cavallo_index values with Some v => Some v | None => None end,
      match c_tmall_index values with Some v => Some v | None => None end,
      bd).

(** Lines 144-151: the list [data]. *)
Fixpoint indices_data (items : list (string * CombinedRow))
  : M (list index_tuple) :=
  match items with
  | [] => Ok []
  | (_, values) :: items' =>
      tup <- index_tuple_of values ;;
      rest <- indices_data items' ;;
      Ok (tup :: rest)
  end.

(** [save_indices]: the exception of a failed step is re-raised to the
    caller. *)
Definition save_indices (cavallo_indices tmall_indices : list IndexRecord)
  (s : Sink) : M unit * Sink :=
  let combined := combine cavallo_indices tmall_indices in
  match indices_data combined with
  | Ok data =>
      if negb (is_empty data) then insert_data "price_indices" data s
      else (Ok tt, s)
  | Err e => (Err e, s)
  end.

End Persistence.

(** ** [save_indices_to_local_file] *)

(** Lines 25-30: the dict appended to [records] for one value of
    [combined]. *)
Definition csv_record_of (item : string * CombinedRow) : CsvRecord :=
  let vals := snd item in
  {| csv_date := c_date vals;
     csv_cavallo_index :=
       match c_cavallo_index vals with Some v => v | None => 0%R end;
     csv_tmall_index :=
       match c_tmall_index vals with Some v => v | None => 0%R end;
     csv_base_date := c_base_date vals |}.

(** Lines 8-30: the list [records]; the data frame built from it is written
    to [filepath] as the rows of the CSV file. *)
Definition save_indices_to_local_file
  (cavallo_indices tmall_indices : list IndexRecord) : list CsvRecord :=
  let combined := combine cavallo_indices tmall_indices in
  map csv_record_of combined.

(** ** The tables behind the queries *)

(** A row of [daily_prices]. *)
Record PriceFact : Type := mkPriceFact {
  pf_date : date;
  pf_product_id : string;
  pf_category_id : nat;
  pf_price : R
}.

(** [daily_prices] and the [(category_id, weight)] columns of
    [categories]. *)
Record Database : Type := mkDatabase {
  daily_prices : list PriceFact;
  categories : list (nat * R)
}.

(** [WHERE date = %(date)s]: no row equals a null parameter. *)
Definition on_date (d : option date) (f : PriceFact) : bool :=
  match d with
  | Some d' => date_eqb (pf_date f) d'
  | None => false
  end.

Fixpoint min_date (d : date) (l : list date) : date :=
  match l with
  | [] => d
  | x :: l' => min_date (if date_ltb x d then x else d) l'
  end.

(** The value ClickHouse gives a [Date] aggregate over no rows. *)
Definition epoch : date := mkDate 1970 1 1.

Definition sql_min_date (db : Database) : list (option date) :=
  match map pf_date (daily_prices db) with
  | [] => [Some epoch]
  | d :: l => [Some (min_date d l)]
  end.

Definition sql_all_dates (db : Database) : list date :=
  sorted_distinct (map pf_date (daily_prices db)).

Definition sql_base_prices (db : Database) (d : option date)
  : list (string * R) :=
  map (fun f => (pf_product_id f, pf_price f))
      (filter (on_date d) (daily_prices db)).

Definition sql_prices_in (db : Database) (product_ids : list string)
  : list (date * string * R) :=
  map (fun f => (pf_date f, pf_product_id f, pf_price f))
      (filter (fun f => mem (pf_product_id f) product_ids) (daily_prices db)).

(** The distinct values of a column, in order of first occurrence. *)
Fixpoint distinct {K} `{Eqb K} (l : list K) : list K :=
  match l with
  | [] => []
  | x :: l' => x :: filter (fun y => negb (eqb y x)) (distinct l')
  end.

Definition sql_category_averages (db : Database) (d : option date)
  : list (nat * R) :=
  let rows := filter (on_date d) (daily_prices db) in
  map (fun c =>
         (c, mean (map pf_price
                       (filter (fun f => pf_category_id f =? c) rows))))
      (distinct (map pf_category_id rows)).

(** A connector over in-memory tables; its queries never fail. *)
Definition db_connector (db : Database) : Connector :=
  {| q_min_date := Ok (sql_min_date db);
     q_all_dates := Ok (sql_all_dates db);
     q_base_prices := fun d => Ok (sql_base_prices db d);
     q_prices_in := fun ids => Ok (sql_prices_in db ids);
     q_category_weights := Ok (categories db);
     q_category_averages := fun d => Ok (sql_category_averages db d) |}.

(** The specification's reading of step 2 of the Cavallo engine: the price
    rows of one unrestricted join of [daily_prices] with the base-period
    product set. *)
Definition prices_single_join (db : Database) (product_ids : list string)
  : list (date * string * R) :=
  flat_map (fun f =>
              map (fun _ => (pf_date f, pf_product_id f, pf_price f))
                  (filter (fun p => String.eqb p (pf_product_id f))
                          product_ids))
           (daily_prices db).

(** ** A runtime for worked examples *)

Definition digit (n : nat) : ascii := ascii_of_nat (48 + n mod 10).

Definition pad2 (n : nat) : string :=
  String (digit (n / 10)) (String (digit n) EmptyString).

Definition pad4 (n : nat) : string :=
  String (digit (n / 1000)) (String (digit (n / 100)) (pad2 n)).

(** ['%Y-%m-%d'] with a four-digit year. *)
Definition strftime_ymd (d : date) : string :=
  (pad4 (year d) ++ "-" ++ pad2 (month d) ++ "-" ++ pad2 (day d))%string.

Definition digit_val (c : ascii) : option nat :=
  let n := nat_of_ascii c in
  if (48 <=? n) && (n <=? 57) then Some (n - 48) else None.

Fixpoint number (s : list ascii) (acc : nat) : option nat :=
  match s with
  | [] => Some acc
  | c :: s' =>
      match digit_val c with
      | Some n => number s' (10 * acc + n)
      | None => None
      end
  end.

Definition days_in_month (y m : nat) : nat :=
  match m with
  | 2 => if ((y mod 4 =? 0) && negb (y mod 100 =? 0)) || (y mod 400 =? 0)
         then 29 else 28
  | 4 | 6 | 9 | 11 => 30
  | _ => 31
  end.

(** ['%Y-%m-%d'] on zero-padded input [YYYY-MM-DD]; anything else is a
    [ValueError]. *)
Definition strptime_ymd (s : string) : M date :=
  match list_ascii_of_string s with
  | [y1; y2; y3; y4; "-"%char; m1; m2; "-"%char; d1; d2] =>
      match number [y1; y2; y3; y4] 0, number [m1; m2] 0, number [d1; d2] 0 with
      | Some y, Some m, Some d =>
          if (1 <=? y) && (1 <=? m) && (m <=? 12) && (1 <=? d)
             && (d <=? days_in_month y m)
          then Ok (mkDate y m d)
          else Err (ValueError "day is out of range for month")
      | _, _, _ => Err (ValueError "time data does not match format")
      end
  | _ => Err (ValueError "time data does not match format")
  end.

(** A driver that accepts every insert. *)
Definition example_runtime : Runtime :=
  {| strftime := strftime_ymd;
     strptime := strptime_ymd;
     to_datetime := strptime_ymd;
     client_insert := fun _ _ => Ok tt |}.

(** Lexicographic order on date strings; on ['%Y-%m-%d'] strings with a
    four-digit year it is the chronological order. *)
Definition date_str_ltb (a b : string) : bool :=
  match String_as_OT.compare a b with Lt => true | _ => false end.

(** Strictly ascending by date. *)
Fixpoint ascending (l : list string) : bool :=
  match l with
  | [] => true
  | a :: l' =>
      match l' with
      | [] => true
      | b :: _ => date_str_ltb a b && ascending l'
      end
  end.

(** ** Notions used to state further properties of the engines *)

(** Strictly earlier, in the order [date_ltb] decides. *)
Definition date_lt (a b : date) : Prop := date_ltb a b = true.

Definition Rprod (l : list R) : R := fold_right Rmult 1%R l.

(** The facts of the products that have a price on [bd]: the product set
    the Cavallo engine restricts itself to. *)
Definition restrict_to_base (db : Database) (bd : option date) : Database :=
  {| daily_prices :=
       filter (fun f =>
                 mem (pf_product_id f)
                     (PyDict.keys (PyDict.of_list (sql_base_prices db bd))))
              (daily_prices db);
     categories := categories db |}.

(** Whether an item of [current_avg] enters the sums of the Tmall loop: its
    category has a positive base average and a declared weight. *)
Definition contributes
  (category_weights base_avg : PyDict.t (K:=nat) (V:=R)) (item : nat * R)
  : bool :=
  match PyDict.get (fst item) base_avg with
  | Some b => Rgtb b 0 && PyDict.contains (fst item) category_weights
  | None => false
  end.

(** ** Notions used to state further properties of the merge *)

(** [idx.get(key, 0.0)] on an engine record. *)
Definition value_or_zero (idx : IndexRecord) : R :=
  match idx_value idx with Some v => v | None => 0%R end.

(** The first record of [l] for the date [k]. *)
Definition first_for (k : string) (l : list IndexRecord) : option IndexRecord :=
  find (fun idx => String.eqb (idx_date idx) k) l.

(** The last record of [l] for the date [k]. *)
Definition last_for (k : string) (l : list IndexRecord) : option IndexRecord :=
  first_for k (rev l).

(** What [combined] holds once the Cavallo records [pc] and then the Tmall
    records [pt] have been processed. *)
Definition merge_values_inv (pc pt : list IndexRecord)
  (combined : PyDict.t (K:=string) (V:=CombinedRow)) : Prop :=
  (forall k, PyDict.get k combined = None -> first_for k (pc ++ pt) = None)
  /\ (forall k row, PyDict.get k combined = Some row ->
        c_cavallo_index row = option_map value_or_zero (last_for k pc)
        /\ c_tmall_index row = option_map value_or_zero (last_for k pt)
        /\ option_map idx_base_date (first_for k (pc ++ pt))
           = Some (c_base_date row)).

(** The fields of a CSV record that come from the Cavallo side. *)
Definition cavallo_part (r : CsvRecord) : string * R * string :=
  (csv_date r, csv_cavallo_index r, csv_base_date r).

(** The merged row for the date [k], read off the two input lists: the last
    index of each engine for [k] (0.0 when there is none or it lacks the
    key) and the base date of the first record for [k]. *)
Definition row_for (cav tm : list IndexRecord) (k : string) : CsvRecord :=
  {| csv_date := k;
     csv_cavallo_index :=
       match last_for k cav with Some idx => value_or_zero idx | None => 0%R end;
     csv_tmall_index :=
       match last_for k tm with Some idx => value_or_zero idx | None => 0%R end;
     csv_base_date :=
       match first_for k (cav ++ tm) with
       | Some idx => idx_base_date idx
       | None => EmptyString
       end |}.

(** ** [_get_current_prices] *)

(** [result.update(other)] *)
Definition dict_update {K V : Type} `{Eqb K}
  (result other : PyDict.t (K:=K) (V:=V)) : PyDict.t (K:=K) (V:=V) :=
  fold_left PyDict.set_pair other result.

Section CurrentPrices.

(** [SELECT product_id, price FROM daily_prices
     WHERE date = %(date)s AND product_id IN %(product_ids)s] *)
Variable q_current_prices :
  option date -> list string -> M (list (string * R)).

(** Lines 185-194: one query per batch, each result merged into [result]. *)
Fixpoint current_prices_loop (d : option date) (bs : list (list string))
  (result : PyDict.t (K:=string) (V:=R)) : M (PyDict.t (K:=string) (V:=R)) :=
  match bs with
  | [] => Ok result
  | batch_ids :: bs' =>
      rows <- q_current_prices d batch_ids ;;
      current_prices_loop d bs' (dict_update result (PyDict.of_list rows))
  end.

(** [range(0, len(product_ids), 0)] raises. *)
Definition _get_current_prices (d : option date) (product_ids : list string)
  (batch_size : nat) : M (PyDict.t (K:=string) (V:=R)) :=
  if batch_size =? 0 then Err (ValueError "range() arg 3 must not be zero")
  else current_prices_loop d (batches batch_size product_ids) [].

End CurrentPrices.

Definition sql_current_prices (db : Database) (d : option date)
  (product_ids : list string) : list (string * R) :=
  map (fun f => (pf_product_id f, pf_price f))
      (filter (fun f => on_date d f && mem (pf_product_id f) product_ids)
              (daily_prices db)).

(** The query over the tables; it never fails. *)
Definition db_current_prices (db : Database) (d : option date)
  (product_ids : list string) : M (list (string * R)) :=
  Ok (sql_current_prices db d product_ids).

(** The daily price [p] of the product [pid] on the date [d]. *)
Definition priced (db : Database) (d : date) (pid : string) (p : R) : Prop :=
  exists f, In f (daily_prices db) /\ pf_date f = d
            /\ pf_product_id f = pid /\ pf_price f = p.

(** ** [ProgressTracker] of [main.py] *)

Module ProgressTracker.

Record t : Type := mkTracker { total : nat; count : nat }.

(** [ProgressTracker(total)] *)
Definition init (total : nat) : t := {| total := total; count := 0 |}.

(** What a call leaves behind: the tracker and the progress lines logged,
    each with the count and the total it formats, or the
    [ZeroDivisionError] of [self.count / self.total]. *)
Inductive outcome : Type :=
| Updated (tracker : t) (lines : list (nat * nat))
| ZeroDivisionError.

(** [update(increment)] *)
Definition update (self : t) (increment : nat) : outcome :=
  let count' := count self + increment in
  let self' := {| total := total self; count := count' |} in
  if (count' mod 10 =? 0) || (count' =? total self) then
    if total self =? 0 then ZeroDivisionError
    else Updated self' [(count', total self)]
  else Updated self' [].

(** The calls of a loop, one [update] per element of [increments]. *)
Fixpoint updates (self : t) (increments : list nat) : outcome :=
  match increments with
  | [] => Updated self []
  | increment :: rest =>
      match update self increment with
      | Updated self' lines =>
          match updates self' rest with
          | Updated self'' lines' => Updated self'' (lines ++ lines')
          | ZeroDivisionError => ZeroDivisionError
          end
      | ZeroDivisionError => ZeroDivisionError
      end
  end.

(** Lines 82-88 of [main]: one [update()] per uploaded price file. *)
Definition upload_progress (price_files : nat) : outcome :=
  updates (init price_files) (repeat 1 price_files).

(** Lines 107-115 of [main]: one [update(batch_size)] per imported batch,
    when every insert succeeds. *)
Definition import_progress (total_prices batch_size : nat) : outcome :=
  updates (init total_prices)
          (map (fun _ => batch_size) (py_range total_prices batch_size)).

End ProgressTracker.

(** [batch_size] of the price import in [main]. *)
Definition price_import_batch_size : nat := 100000.

(** The counts at which [update] logs. *)
Definition logs_at (total count : nat) : bool :=
  (count mod 10 =? 0) || (count =? total).

(** ** [DataCleaner._read_csv_with_encoding_detection] *)

Module DataCleaner.

(** What [pd.read_csv(file_path, encoding=encoding)] does: a data frame, one
    of the two exceptions the loop catches, or any other exception. *)
Inductive read_outcome (DF : Type) : Type :=
| Frame (df : DF)
| UnicodeDecodeError
| ParserError
| OtherError (e : exn).

Arguments Frame {DF} df.
Arguments UnicodeDecodeError {DF}.
Arguments ParserError {DF}.
Arguments OtherError {DF} e.

Section ReadCsv.
Variable DF : Type.
(** [df.empty] and [len(df.columns)] *)
Variable df_empty : DF -> bool.
Variable df_columns : DF -> nat.
Variable read_csv : string -> read_outcome DF.

Definition encodings : list string :=
  ["gbk"; "utf-8"; "gb18030"; "utf-8-sig"; "iso-8859-1"]%string.

(** Lines 19-21: [detected] is chardet's encoding and confidence. *)
Definition candidate_encodings (detected : string * R) : list string :=
  if Rgtb (snd detected) (9 / 10) then fst detected :: encodings
  else encodings.

(** Line 26 *)
Definition acceptable (df : DF) : bool :=
  negb (df_empty df) && (1 <? df_columns df).

(** Whether the loop goes on to the next encoding. *)
Definition skipped (encoding : string) : bool :=
  match read_csv encoding with
  | Frame df => negb (acceptable df)
  | UnicodeDecodeError | ParserError => true
  | OtherError _ => false
  end.

(** Lines 23-31; the message of the [ValueError] in the source names the
    file. *)
Fixpoint try_encodings (encs : list string) : M DF :=
  match encs with
  | [] => Err (ValueError "cannot read file")
  | encoding :: encs' =>
      match read_csv encoding with
      | Frame df => if acceptable df then Ok df else try_encodings encs'
      | UnicodeDecodeError | ParserError => try_encodings encs'
      | OtherError e => Err e
      end
  end.

Definition _read_csv_with_encoding_detection (detected : string * R) : M DF :=
  try_encodings (candidate_encodings detected).

End ReadCsv.

End DataCleaner.

(** ** Data of the worked examples *)

(** A connector whose every query returns no row. *)
Definition no_rows_connector : Connector :=
  {| q_min_date := Ok [];
     q_all_dates := Ok [];
     q_base_prices := fun _ => Ok [];
     q_prices_in := fun _ => Ok [];
     q_category_weights := Ok [];
     q_category_averages := fun _ => Ok [] |}.

Definition jan1 : date := mkDate 2024 1 1.
Definition jan2 : date := mkDate 2024 1 2.

(** Engine records: Cavallo and Tmall records for 1 and 2 January. *)
Definition cavallo_jan1 : IndexRecord :=
  mkIndexRecord "2024-01-01" (Some 100%R) "2024-01-01".
Definition cavallo_jan2 : IndexRecord :=
  mkIndexRecord "2024-01-02" (Some 120%R) "2024-01-01".
Definition tmall_jan1 : IndexRecord :=
  mkIndexRecord "2024-01-01" (Some 100%R) "2024-01-01".
Definition tmall_jan2 : IndexRecord :=
  mkIndexRecord "2024-01-02" (Some 105%R) "2024-01-01".

(** One product priced 10 on the base date; its category has weight 0. *)
Definition zero_weight_db : Database :=
  {| daily_prices := [mkPriceFact jan1 "P1" 1 10%R];
     categories := [(1, 0%R)] |}.

(** The same product and no row in [categories]. *)
Definition no_weights_db : Database :=
  {| daily_prices := [mkPriceFact jan1 "P1" 1 10%R];
     categories := [] |}.

(** The same product with a category of weight 1. *)
Definition unit_weight_db : Database :=
  {| daily_prices := [mkPriceFact jan1 "P1" 1 10%R];
     categories := [(1, 1%R)] |}.

(** Two products in two categories, priced on two days; the categories
    have weights 1 and 3. *)
Definition two_day_db : Database :=
  {| daily_prices :=
       [mkPriceFact jan1 "P1" 1 10%R; mkPriceFact jan1 "P2" 2 20%R;
        mkPriceFact jan2 "P1" 1 12%R; mkPriceFact jan2 "P2" 2 20%R];
     categories := [(1, 1%R); (2, 3%R)] |}.

(** One product priced 10 on the base date and 12 the day after. *)
Definition single_product_db : Database :=
  {| daily_prices :=
       [mkPriceFact jan1 "P1" 1 10%R; mkPriceFact jan2 "P1" 1 12%R];
     categories := [(1, 1%R)] |}.

(** Two joined rows of 2 January: price relatives 12/10 and 30/20. *)
Definition two_joined_rows : list joined_row :=
  [(jan2, "P1"%string, 12%R, 10%R); (jan2, "P2"%string, 30%R, 20%R)].

(** [two_day_db] with a third product that first appears on 2 January. *)
Definition late_product_db : Database :=
  {| daily_prices :=
       daily_prices two_day_db ++ [mkPriceFact jan2 "P3" 1 99%R];
     categories := categories two_day_db |}.

(** The product ids [P0], [P1], ..., [P(n-1)]. *)
Definition numbered_id (n : nat) : string :=
  String "P" (DecimalString.NilEmpty.string_of_uint (Nat.to_uint n)).

Definition numbered_ids (n : nat) : list string := map numbered_id (seq 0 n).

(** Facts of the first and of the last of 1001 numbered products. *)
Definition numbered_db : Database :=
  {| daily_prices :=
       [mkPriceFact jan1 (numbered_id 0) 1 10%R;
        mkPriceFact jan2 (numbered_id 1000) 1 12%R];
     categories := [(1, 1%R)] |}.

(** The weights, base averages and current averages of the specification's
    Tmall example. *)
Definition example_weights : PyDict.t (K:=nat) (V:=R) := [(1, 1%R); (2, 3%R)].
Definition example_base_avg : PyDict.t (K:=nat) (V:=R) :=
  [(1, 10%R); (2, 20%R)].
Definition example_current_avg : PyDict.t (K:=nat) (V:=R) :=
  [(1, 12%R); (2, 20%R)].

(** A connector whose weights query raises. *)
Definition failing_weights_connector : Connector :=
  {| q_min_date := Ok [Some jan1];
     q_all_dates := Ok [jan1];
     q_base_prices := fun _ => Ok [];
     q_prices_in := fun _ => Ok [];
     q_category_weights := Err (DriverError "connection refused");
     q_category_averages := fun _ => Ok [] |}.

(** Whether a tuple holds [None] in one of its index columns. *)
Definition has_null (tup : index_tuple) : bool :=
  match tup_cavallo_index tup, tup_tmall_index tup with
  | Some _, Some _ => false
  | _, _ => true
  end.

(** A driver that holds the index columns of [price_indices] to the type
    [initialize_tables] declares for them, [Float64] without [Nullable]: a
    batch with a [None] is rejected. *)
Definition non_nullable_runtime : Runtime :=
  {| strftime := strftime_ymd;
     strptime := strptime_ymd;
     to_datetime := strptime_ymd;
     client_insert := fun _ batch =>
       if existsb has_null batch then Err (TypeError "a float is required")
       else Ok tt |}.



(** A record whose date has month 13. *)
Definition bad_date_record : IndexRecord :=
  mkIndexRecord "2024-13-01" (Some 100%R) "2024-01-01".

(** An explicit base date on which [two_day_db] has no fact. *)
Definition jan3 : date := mkDate 2024 1 3.

(** A file that decodes as gbk into a frame of one column and as utf-8 into
    a frame of three; frames are given by their number of columns. *)
Definition example_read_csv (encoding : string)
  : DataCleaner.read_outcome nat :=
  if String.eqb encoding "gbk" then DataCleaner.Frame 1
  else if String.eqb encoding "utf-8" then DataCleaner.Frame 3
  else DataCleaner.UnicodeDecodeError.

(** * Part II: properties *)

(** ** Boolean equality *)

#[export] Instance string_EqbOk : EqbOk string := String.eqb_spec.
#[export] Instance nat_EqbOk : EqbOk nat := Nat.eqb_spec.

Lemma date_eqb_spec (a b : date) : reflect (a = b) (date_eqb a b).
Proof.
  destruct a as [y m d], b as [y' m' d']. unfold date_eqb. simpl.
  destruct (Nat.eqb_spec y y'), (Nat.eqb_spec m m'), (Nat.eqb_spec d d');
    simpl; constructor; congruence.
Qed.

#[export] Instance date_EqbOk : EqbOk date := date_eqb_spec.

Section EqbFacts.
Context {K : Type} {KE : Eqb K} {KO : EqbOk K}.

Lemma eqb_refl (x : K) : eqb x x = true.
Proof. destruct (eqb_spec x x); congruence. Qed.

Lemma eqb_neq (x y : K) : x <> y -> eqb x y = false.
Proof. destruct (eqb_spec x y); congruence. Qed.

Lemma eqb_eq (x y : K) : eqb x y = true <-> x = y.
Proof. destruct (eqb_spec x y); split; congruence. Qed.

Lemma mem_In (k : K) l : mem k l = true <-> In k l.
Proof.
  unfold mem. rewrite existsb_exists. split.
  - intros [x [Hin Hx]]. apply eqb_eq in Hx. congruence.
  - intros Hin. exists k. split; [assumption | apply eqb_refl].
Qed.

Lemma mem_not_In (k : K) l : mem k l = false <-> ~ In k l.
Proof. rewrite <- mem_In. destruct (mem k l); split; congruence. Qed.

End EqbFacts.

(** ** Dictionaries *)

Module PyDictFacts.
Import PyDict.
Section Facts.
Context {K V : Type} {KE : Eqb K} {KO : EqbOk K}.
Implicit Types (d : PyDict.t (K:=K) (V:=V)) (k : K) (v : V)
  (pairs : list (K * V)).

Lemma get_None k d : get k d = None <-> ~ In k (keys d).
Proof.
  induction d as [|[k' v'] d IH]; simpl.
  - tauto.
  - destruct (eqb_spec k k') as [->|Hne].
    + split; [discriminate | intros Hn; exfalso; apply Hn; now left].
    + rewrite IH. split; intros Hn; [intros [E|E]; [congruence | tauto] | tauto].
Qed.

Lemma get_Some_In k v d : get k d = Some v -> In (k, v) d.
Proof.
  induction d as [|[k' v'] d IH]; simpl; [discriminate|].
  destruct (eqb_spec k k') as [->|Hne].
  - intros [= ->]. now left.
  - intros Hg. right. now apply IH.
Qed.

Lemma In_get k v d : NoDup (keys d) -> In (k, v) d -> get k d = Some v.
Proof.
  induction d as [|[k' v'] d IH]; simpl; [tauto|].
  intros Hnd [E|Hin].
  - injection E as -> ->. now rewrite eqb_refl.
  - inversion Hnd as [|? ? Hni Hnd']; subst.
    destruct (eqb_spec k k') as [->|Hne].
    + exfalso. apply Hni. change k' with (fst (k', v)). now apply in_map.
    + now apply IH.
Qed.

Lemma contains_In k d : contains k d = true <-> In k (keys d).
Proof.
  unfold contains. destruct (get k d) eqn:Hg.
  - split; [|reflexivity]. intros _. apply get_Some_In in Hg.
    change k with (fst (k, v)). now apply in_map.
  - apply get_None in Hg. split; [discriminate | tauto].
Qed.

Lemma keys_set k v d :
  keys (set k v d) = if contains k d then keys d else keys d ++ [k].
Proof.
  unfold contains. induction d as [|[k' v'] d IH]; simpl; [reflexivity|].
  destruct (eqb_spec k k') as [->|Hne]; simpl; [reflexivity|].
  rewrite IH. destruct (get k d); reflexivity.
Qed.

Lemma keys_update k (f : V -> V) d : keys (update k f d) = keys d.
Proof.
  induction d as [|[k' v'] d IH]; simpl; [reflexivity|].
  destruct (eqb k k'); simpl; [reflexivity | now rewrite IH].
Qed.

Lemma get_set_same k v d : get k (set k v d) = Some v.
Proof.
  induction d as [|[k' v'] d IH]; simpl.
  - now rewrite eqb_refl.
  - destruct (eqb_spec k k') as [->|Hne]; simpl.
    + now rewrite eqb_refl.
    + now rewrite (eqb_neq Hne).
Qed.

Lemma get_set_other k k' v d : k <> k' -> get k (set k' v d) = get k d.
Proof.
  intros Hne. induction d as [|[k0 v0] d IH]; simpl.
  - now rewrite (eqb_neq Hne).
  - destruct (eqb_spec k' k0) as [->|Hne']; simpl.
    + now rewrite (eqb_neq Hne).
    + now rewrite IH.
Qed.

Lemma get_update_same k (f : V -> V) d :
  get k (update k f d) = option_map f (get k d).
Proof.
  induction d as [|[k' v'] d IH]; simpl; [reflexivity|].
  destruct (eqb_spec k k') as [->|Hne]; simpl.
  - now rewrite eqb_refl.
  - now rewrite (eqb_neq Hne).
Qed.

Lemma get_update_other k k' (f : V -> V) d :
  k <> k' -> get k (update k' f d) = get k d.
Proof.
  intros Hne. induction d as [|[k0 v0] d IH]; simpl; [reflexivity|].
  destruct (eqb_spec k' k0) as [->|Hne']; simpl.
  - now rewrite (eqb_neq Hne).
  - now rewrite IH.
Qed.

Lemma NoDup_keys_set k v d : NoDup (keys d) -> NoDup (keys (set k v d)).
Proof.
  intros Hnd. rewrite keys_set.
  destruct (contains k d) eqn:Hc; [assumption|].
  assert (Hni : ~ In k (keys d)).
  { rewrite <- contains_In. congruence. }
  apply NoDup_app; [assumption | repeat constructor; simpl; tauto |].
  intros x Hx [<-|[]]. contradiction.
Qed.

Lemma In_set k v k' v' d :
  In (k, v) (set k' v' d) -> (k = k' /\ v = v') \/ In (k, v) d.
Proof.
  induction d as [|[k0 v0] d IH]; simpl.
  - intros [[= <- <-]|[]]. now left.
  - destruct (eqb_spec k' k0) as [->|Hne]; simpl.
    + intros [[= <- <-]|Hin]; [now left | right; now right].
    + intros [E|Hin]; [right; now left|].
      destruct (IH Hin) as [?|?]; [now left | right; now right].
Qed.

Lemma fold_set_NoDup pairs d :
  NoDup (keys d) -> NoDup (keys (fold_left set_pair pairs d)).
Proof.
  revert d. induction pairs as [|kv pairs IH]; simpl; intros d Hd; [assumption|].
  apply IH. now apply NoDup_keys_set.
Qed.

Lemma fold_set_keys x pairs d :
  In x (keys (fold_left set_pair pairs d))
  <-> In x (map fst pairs) \/ In x (keys d).
Proof.
  revert d. induction pairs as [|kv pairs IH]; simpl; intros d; [tauto|].
  rewrite IH. unfold set_pair. rewrite keys_set.
  destruct (contains (fst kv) d) eqn:Hc.
  - apply contains_In in Hc. intuition congruence.
  - rewrite in_app_iff. simpl. intuition congruence.
Qed.

Lemma fold_set_In k v pairs d :
  In (k, v) (fold_left set_pair pairs d) -> In (k, v) pairs \/ In (k, v) d.
Proof.
  revert d. induction pairs as [|[k' v'] pairs IH]; simpl; intros d; [tauto|].
  intros Hin. destruct (IH _ Hin) as [Hp|Hd]; [tauto|].
  unfold set_pair in Hd. simpl in Hd.
  destruct (In_set _ _ _ _ _ Hd) as [[-> ->]|Hd']; tauto.
Qed.

Lemma NoDup_keys_of_list pairs : NoDup (keys (of_list pairs)).
Proof. apply fold_set_NoDup. constructor. Qed.

Lemma In_keys_of_list x pairs :
  In x (keys (of_list pairs)) <-> In x (map fst pairs).
Proof.
  unfold of_list. rewrite fold_set_keys. simpl. tauto.
Qed.

Lemma In_of_list k v pairs : In (k, v) (of_list pairs) -> In (k, v) pairs.
Proof.
  intros Hin. destruct (fold_set_In _ _ _ _ Hin) as [Hp|[]]. exact Hp.
Qed.

Lemma is_empty_of_list pairs : is_empty (of_list pairs) = is_empty pairs.
Proof.
  destruct pairs as [|[k v] pairs]; [reflexivity|]. simpl.
  destruct (of_list ((k, v) :: pairs)) eqn:E; [|reflexivity].
  exfalso.
  assert (Hin : In k (keys (of_list ((k, v) :: pairs)))).
  { apply In_keys_of_list. now left. }
  rewrite E in Hin. exact Hin.
Qed.

End Facts.
End PyDictFacts.

(** ** Order of first occurrence *)

Section Distinct.
Context {K : Type} {KE : Eqb K} {KO : EqbOk K}.

Lemma In_distinct (x : K) l : In x (distinct l) <-> In x l.
Proof.
  induction l as [|y l IH]; simpl; [tauto|].
  rewrite filter_In, IH. destruct (eqb_spec x y) as [->|Hne]; simpl.
  - intuition congruence.
  - intuition congruence.
Qed.

Lemma NoDup_filter (f : K -> bool) l : NoDup l -> NoDup (filter f l).
Proof.
  induction 1 as [|x l Hni Hnd IH]; simpl; [constructor|].
  destruct (f x); [|assumption].
  constructor; [|assumption]. rewrite filter_In. tauto.
Qed.

Lemma NoDup_distinct (l : list K) : NoDup (distinct l).
Proof.
  induction l as [|y l IH]; simpl; constructor.
  - rewrite filter_In. rewrite eqb_refl. simpl. intros [_ ?]. discriminate.
  - now apply NoDup_filter.
Qed.

Lemma filter_all (f : K -> bool) l :
  (forall x, In x l -> f x = true) -> filter f l = l.
Proof.
  induction l as [|y l IH]; simpl; intros Hall; [reflexivity|].
  rewrite Hall by now left. f_equal. apply IH. intros x Hx. apply Hall. now right.
Qed.

Lemma distinct_NoDup (l : list K) : NoDup l -> distinct l = l.
Proof.
  induction 1 as [|x l Hni Hnd IH]; simpl; [reflexivity|].
  rewrite IH. f_equal. apply filter_all. intros y Hy.
  destruct (eqb_spec y x) as [->|Hne]; [contradiction | reflexivity].
Qed.

End Distinct.

Lemma filter_twice {A} (f g : A -> bool) l :
  filter f (filter g l) = filter (fun x => g x && f x) l.
Proof.
  induction l as [|y l IH]; simpl; [reflexivity|].
  destruct (g y); simpl; [destruct (f y); now rewrite IH | exact IH].
Qed.

Lemma first_seen_filter l seen :
  first_seen seen l
  = seen ++ filter (fun x => negb (mem x seen)) (distinct l).
Proof.
  revert seen. induction l as [|x l IH]; intros seen; simpl.
  - now rewrite app_nil_r.
  - rewrite IH. destruct (mem x seen) eqn:Hm; simpl.
    + f_equal. rewrite filter_twice. apply filter_ext. intros y.
      destruct (eqb_spec y x) as [->|Hne]; simpl; [now rewrite Hm | reflexivity].
    + rewrite <- app_assoc. simpl. do 2 f_equal.
      rewrite filter_twice. apply filter_ext. intros y.
      unfold mem. rewrite existsb_app. simpl. rewrite orb_false_r.
      now rewrite negb_orb, andb_comm.
Qed.

Lemma first_seen_distinct l : first_seen [] l = distinct l.
Proof.
  rewrite first_seen_filter. simpl. apply filter_all. reflexivity.
Qed.

Lemma first_seen_app l l' seen :
  first_seen seen (l ++ l') = first_seen (first_seen seen l) l'.
Proof.
  revert seen. induction l as [|x l IH]; intros seen; simpl; [reflexivity|].
  apply IH.
Qed.

(** ** The merge *)

Section MergeFacts.
Import PyDict PyDictFacts.
Implicit Types (combined : PyDict.t (K:=string) (V:=CombinedRow)).

Lemma keys_add_cavallo combined idx :
  keys (add_cavallo combined idx)
  = if mem (idx_date idx) (keys combined) then keys combined
    else keys combined ++ [idx_date idx].
Proof.
  unfold add_cavallo. rewrite keys_update.
  destruct (contains (idx_date idx) combined) eqn:Hc; simpl.
  - apply contains_In in Hc. apply mem_In in Hc. now rewrite Hc.
  - rewrite keys_set, Hc.
    assert (Hm : mem (idx_date idx) (keys combined) = false).
    { apply mem_not_In. rewrite <- contains_In. congruence. }
    now rewrite Hm.
Qed.

Lemma keys_add_tmall combined idx :
  keys (add_tmall combined idx)
  = if mem (idx_date idx) (keys combined) then keys combined
    else keys combined ++ [idx_date idx].
Proof.
  unfold add_tmall. rewrite keys_update.
  destruct (contains (idx_date idx) combined) eqn:Hc; simpl.
  - apply contains_In in Hc. apply mem_In in Hc. now rewrite Hc.
  - rewrite keys_set, Hc.
    assert (Hm : mem (idx_date idx) (keys combined) = false).
    { apply mem_not_In. rewrite <- contains_In. congruence. }
    now rewrite Hm.
Qed.

Lemma keys_fold_cavallo l combined :
  keys (fold_left add_cavallo l combined)
  = first_seen (keys combined) (map idx_date l).
Proof.
  revert combined. induction l as [|idx l IH]; intros combined; simpl.
  - reflexivity.
  - now rewrite IH, keys_add_cavallo.
Qed.

Lemma keys_fold_tmall l combined :
  keys (fold_left add_tmall l combined)
  = first_seen (keys combined) (map idx_date l).
Proof.
  revert combined. induction l as [|idx l IH]; intros combined; simpl.
  - reflexivity.
  - now rewrite IH, keys_add_tmall.
Qed.

Lemma keys_combine cav tm :
  keys (combine cav tm) = distinct (map idx_date cav ++ map idx_date tm).
Proof.
  unfold combine. rewrite keys_fold_tmall, keys_fold_cavallo.
  now rewrite <- first_seen_app, first_seen_distinct.
Qed.

End MergeFacts.

Section MergeInvariant.
Import PyDict PyDictFacts.
Implicit Types (combined : PyDict.t (K:=string) (V:=CombinedRow)).

Lemma get_add_cavallo_other combined idx k :
  k <> idx_date idx -> get k (add_cavallo combined idx) = get k combined.
Proof.
  intros Hne. unfold add_cavallo. rewrite get_update_other by assumption.
  destruct (contains (idx_date idx) combined); simpl; [reflexivity|].
  now apply get_set_other.
Qed.

Lemma get_add_tmall_other combined idx k :
  k <> idx_date idx -> get k (add_tmall combined idx) = get k combined.
Proof.
  intros Hne. unfold add_tmall. rewrite get_update_other by assumption.
  destruct (contains (idx_date idx) combined); simpl; [reflexivity|].
  now apply get_set_other.
Qed.

Lemma get_add_cavallo_same combined idx :
  exists row,
    get (idx_date idx) (add_cavallo combined idx) = Some row
    /\ c_cavallo_index row
       = Some (match idx_value idx with Some v => v | None => 0%R end)
    /\ match get (idx_date idx) combined with
       | Some old => c_date row = c_date old
                     /\ c_tmall_index row = c_tmall_index old
       | None => c_date row = idx_date idx /\ c_tmall_index row = None
       end.
Proof.
  unfold add_cavallo. rewrite get_update_same. unfold contains.
  destruct (get (idx_date idx) combined) as [old|] eqn:Hg; simpl.
  - rewrite Hg. simpl. eexists. split; [reflexivity|]. simpl. tauto.
  - rewrite get_set_same. simpl. eexists. split; [reflexivity|]. simpl. tauto.
Qed.

Lemma get_add_tmall_same combined idx :
  exists row,
    get (idx_date idx) (add_tmall combined idx) = Some row
    /\ c_tmall_index row
       = Some (match idx_value idx with Some v => v | None => 0%R end)
    /\ match get (idx_date idx) combined with
       | Some old => c_date row = c_date old
                     /\ c_cavallo_index row = c_cavallo_index old
       | None => c_date row = idx_date idx /\ c_cavallo_index row = None
       end.
Proof.
  unfold add_tmall. rewrite get_update_same. unfold contains.
  destruct (get (idx_date idx) combined) as [old|] eqn:Hg; simpl.
  - rewrite Hg. simpl. eexists. split; [reflexivity|]. simpl. tauto.
  - rewrite get_set_same. simpl. eexists. split; [reflexivity|]. simpl. tauto.
Qed.

Lemma merge_inv_empty : merge_inv [] [] [].
Proof. split; simpl; [tauto | discriminate]. Qed.

Lemma merge_inv_add_cavallo dc dt combined idx :
  merge_inv dc dt combined ->
  merge_inv (dc ++ [idx_date idx]) dt (add_cavallo combined idx).
Proof.
  intros [Hdom Hrows].
  destruct (get_add_cavallo_same combined idx) as [new [Hnew [Hcav Hold]]].
  split.
  - intros k Hk. destruct (String.eqb_spec k (idx_date idx)) as [->|Hne].
    + congruence.
    + rewrite get_add_cavallo_other by assumption. apply Hdom.
      rewrite in_app_iff in Hk. simpl in Hk. intuition congruence.
  - intros k row Hg. destruct (String.eqb_spec k (idx_date idx)) as [->|Hne].
    + rewrite Hnew in Hg. injection Hg as <-.
      destruct (get (idx_date idx) combined) as [old|] eqn:Ho.
      * destruct Hold as [Hd Ht]. destruct (Hrows _ _ Ho) as [Hd' [_ Ht']].
        rewrite Hd, Ht, Hcav, in_app_iff. simpl.
        repeat split; try tauto; try congruence; try apply Ht'.
      * destruct Hold as [Hd Ht]. rewrite Hd, Ht, Hcav, in_app_iff. simpl.
        repeat split; try tauto; try congruence.
        intros _ Hin. apply (Hdom (idx_date idx)); tauto.
    + rewrite get_add_cavallo_other in Hg by assumption.
      destruct (Hrows _ _ Hg) as [Hd [Hc Ht]].
      rewrite in_app_iff. simpl. intuition congruence.
Qed.

Lemma merge_inv_add_tmall dc dt combined idx :
  merge_inv dc dt combined ->
  merge_inv dc (dt ++ [idx_date idx]) (add_tmall combined idx).
Proof.
  intros [Hdom Hrows].
  destruct (get_add_tmall_same combined idx) as [new [Hnew [Htm Hold]]].
  split.
  - intros k Hk. destruct (String.eqb_spec k (idx_date idx)) as [->|Hne].
    + congruence.
    + rewrite get_add_tmall_other by assumption. apply Hdom.
      rewrite in_app_iff in Hk. simpl in Hk. intuition congruence.
  - intros k row Hg. destruct (String.eqb_spec k (idx_date idx)) as [->|Hne].
    + rewrite Hnew in Hg. injection Hg as <-.
      destruct (get (idx_date idx) combined) as [old|] eqn:Ho.
      * destruct Hold as [Hd Hc]. destruct (Hrows _ _ Ho) as [Hd' [Hc' _]].
        rewrite Hd, Hc, Htm, in_app_iff. simpl.
        repeat split; try tauto; try congruence; try apply Hc'.
      * destruct Hold as [Hd Hc]. rewrite Hd, Hc, Htm, in_app_iff. simpl.
        repeat split; try tauto; try congruence.
        intros _ Hin. apply (Hdom (idx_date idx)); tauto.
    + rewrite get_add_tmall_other in Hg by assumption.
      destruct (Hrows _ _ Hg) as [Hd [Hc Ht]].
      rewrite in_app_iff. simpl. intuition congruence.
Qed.

Lemma merge_inv_fold_cavallo l dc dt combined :
  merge_inv dc dt combined ->
  merge_inv (dc ++ map idx_date l) dt (fold_left add_cavallo l combined).
Proof.
  revert dc combined. induction l as [|idx l IH]; intros dc combined Hinv; simpl.
  - now rewrite app_nil_r.
  - replace (dc ++ idx_date idx :: map idx_date l)
      with ((dc ++ [idx_date idx]) ++ map idx_date l)
      by now rewrite <- app_assoc.
    apply IH. now apply merge_inv_add_cavallo.
Qed.

Lemma merge_inv_fold_tmall l dc dt combined :
  merge_inv dc dt combined ->
  merge_inv dc (dt ++ map idx_date l) (fold_left add_tmall l combined).
Proof.
  revert dt combined. induction l as [|idx l IH]; intros dt combined Hinv; simpl.
  - now rewrite app_nil_r.
  - replace (dt ++ idx_date idx :: map idx_date l)
      with ((dt ++ [idx_date idx]) ++ map idx_date l)
      by now rewrite <- app_assoc.
    apply IH. now apply merge_inv_add_tmall.
Qed.

Lemma merge_inv_combine cav tm :
  merge_inv (map idx_date cav) (map idx_date tm) (combine cav tm).
Proof.
  unfold combine.
  apply (merge_inv_fold_tmall tm (dc:=map idx_date cav) (dt:=[])).
  apply (merge_inv_fold_cavallo cav (dc:=[]) (dt:=[])).
  exact merge_inv_empty.
Qed.

Lemma NoDup_keys_combine cav tm : NoDup (keys (combine cav tm)).
Proof. rewrite keys_combine. apply NoDup_distinct. Qed.

(** Every item of [combined] obeys the invariant. *)
Lemma combine_item cav tm k row :
  In (k, row) (combine cav tm) ->
  c_date row = k
  /\ (c_cavallo_index row = None <-> ~ In k (map idx_date cav))
  /\ (c_tmall_index row = None <-> ~ In k (map idx_date tm)).
Proof.
  intros Hin. apply (proj2 (merge_inv_combine cav tm)).
  apply In_get; [apply NoDup_keys_combine | assumption].
Qed.

End MergeInvariant.

(** ** Batching *)

Section Batches.
Context {A : Type}.

Lemma concat_range_from (n : nat) (xs : list A) :
  0 < n ->
  forall fuel i, List.length xs <= i + fuel ->
    List.concat (map (fun i => slice xs i (i + n))
                (range_from fuel i (List.length xs) n))
    = skipn i xs.
Proof.
  intros Hn. induction fuel as [|fuel IH]; intros i Hlen; simpl.
  - symmetry. apply skipn_all2. lia.
  - destruct (Nat.ltb_spec i (List.length xs)) as [Hlt|Hge]; simpl.
    + rewrite IH by lia. unfold slice.
      replace (i + n - i) with n by lia.
      replace (i + n) with (n + i) by lia.
      rewrite <- skipn_skipn. apply firstn_skipn.
    + symmetry. apply skipn_all2. lia.
Qed.

Lemma concat_batches (n : nat) (xs : list A) :
  0 < n -> List.concat (batches n xs) = xs.
Proof.
  intros Hn. unfold batches, py_range.
  rewrite concat_range_from by (assumption || lia). reflexivity.
Qed.

Lemma In_batches (n : nat) (xs : list A) x :
  0 < n -> (In x xs <-> exists b, In b (batches n xs) /\ In x b).
Proof.
  intros Hn. rewrite <- (concat_batches xs Hn) at 1.
  rewrite in_concat. reflexivity.
Qed.

End Batches.

(** ** Persistence *)

Section PersistenceFacts.
Context `{Runtime}.

Lemma stored_app table s s' :
  stored table (s ++ s') = (stored table s ++ stored table s')%list.
Proof. unfold stored. now rewrite filter_app, flat_map_app. Qed.

Lemma insert_batches_ok table bs s s' :
  insert_batches table bs s = (Ok tt, s') ->
  stored table s' = (stored table s ++ List.concat bs)%list.
Proof.
  revert s. induction bs as [|b bs IH]; simpl; intros s Hrun.
  - injection Hrun as <-. now rewrite app_nil_r.
  - destruct (client_insert table b); [|discriminate].
    rewrite (IH _ Hrun), stored_app, <- app_assoc. f_equal.
    unfold stored. simpl. rewrite String.eqb_refl. simpl.
    now rewrite app_nil_r.
Qed.

Lemma prepare_data_price_indices data :
  prepare_data "price_indices" data = Ok data.
Proof. reflexivity. Qed.

Lemma insert_data_price_indices_ok data s s' :
  insert_data "price_indices" data s = (Ok tt, s') ->
  stored "price_indices" s' = (stored "price_indices" s ++ data)%list.
Proof.
  unfold insert_data. rewrite prepare_data_price_indices.
  destruct (is_empty data) eqn:He.
  - destruct data; [|discriminate]. intros [= <-]. now rewrite app_nil_r.
  - intros Hrun. apply insert_batches_ok in Hrun. rewrite Hrun. f_equal.
    apply concat_batches. apply Nat.ltb_lt. vm_compute. reflexivity.
Qed.

Lemma save_indices_ok cav tm s s' :
  save_indices cav tm s = (Ok tt, s') ->
  exists data,
    indices_data (combine cav tm) = Ok data
    /\ stored "price_indices" s' = (stored "price_indices" s ++ data)%list.
Proof.
  unfold save_indices. destruct (indices_data (combine cav tm)) as [data|e];
    [|discriminate].
  intros Hrun. exists data. split; [reflexivity|].
  destruct (negb (is_empty data)) eqn:He.
  - now apply insert_data_price_indices_ok.
  - destruct data; [|discriminate]. injection Hrun as <-.
    now rewrite app_nil_r.
Qed.

Lemma indices_data_Forall2 items data :
  indices_data items = Ok data ->
  Forall2 (fun item tup => index_tuple_of (snd item) = Ok tup) items data.
Proof.
  revert data. induction items as [|[k values] items IH]; simpl; intros data.
  - intros [= <-]. constructor.
  - destruct (index_tuple_of values) as [tup|e] eqn:Ht; simpl; [|discriminate].
    destruct (indices_data items) as [rest|e]; simpl; [|discriminate].
    intros [= <-]. constructor; [exact Ht | now apply IH].
Qed.

Lemma index_tuple_of_fields values tup :
  index_tuple_of values = Ok tup ->
  strptime (c_date values) = Ok (tup_date tup)
  /\ strptime (c_base_date values) = Ok (tup_base_date tup)
  /\ tup_cavallo_index tup = c_cavallo_index values
  /\ tup_tmall_index tup = c_tmall_index values.
Proof.
  unfold index_tuple_of.
  destruct (strptime (c_date values)) as [d|e]; simpl; [|discriminate].
  destruct (strptime (c_base_date values)) as [bd|e]; simpl; [|discriminate].
  intros [= <-]. unfold tup_date, tup_base_date, tup_cavallo_index,
    tup_tmall_index. simpl.
  destruct (c_cavallo_index values), (c_tmall_index values); auto.
Qed.

End PersistenceFacts.

(** ** Ascending date strings *)

Lemma date_str_ltb_lt a b : date_str_ltb a b = true <-> String_as_OT.lt a b.
Proof.
  unfold date_str_ltb, String_as_OT.lt.
  destruct (String_as_OT.compare a b); split; congruence.
Qed.

Lemma ascending_head x l :
  ascending (x :: l) = true -> Forall (String_as_OT.lt x) l.
Proof.
  revert x. induction l as [|y l IH]; intros x Hasc; [constructor|].
  change (date_str_ltb x y && ascending (y :: l) = true) in Hasc.
  apply andb_true_iff in Hasc. destruct Hasc as [Hxy Hrest].
  apply date_str_ltb_lt in Hxy. constructor; [assumption|].
  apply IH in Hrest. eapply Forall_impl; [|exact Hrest].
  intros z Hyz. now transitivity y.
Qed.

Lemma ascending_tail x l : ascending (x :: l) = true -> ascending l = true.
Proof.
  destruct l as [|y l]; [reflexivity|].
  intros Hasc. change (date_str_ltb x y && ascending (y :: l) = true) in Hasc.
  now apply andb_true_iff in Hasc.
Qed.

Lemma ascending_NoDup l : ascending l = true -> NoDup l.
Proof.
  induction l as [|x l IH]; intros Hasc; constructor.
  - intros Hin. pose proof (ascending_head _ _ Hasc) as Hall.
    rewrite Forall_forall in Hall. apply Hall in Hin.
    exact (irreflexivity Hin).
  - apply IH. eapply ascending_tail. exact Hasc.
Qed.

Lemma first_seen_subset seen l :
  (forall x, In x l -> In x seen) -> first_seen seen l = seen.
Proof.
  induction l as [|x l IH]; simpl; intros Hsub; [reflexivity|].
  assert (Hm : mem x seen = true) by (apply mem_In; apply Hsub; now left).
  rewrite Hm. apply IH. intros y Hy. apply Hsub. now right.
Qed.

Lemma distinct_app_subset (l l' : list string) :
  NoDup l -> (forall x, In x l' -> In x l) -> distinct (l ++ l') = l.
Proof.
  intros Hnd Hsub.
  rewrite <- first_seen_distinct, first_seen_app, first_seen_distinct.
  rewrite (distinct_NoDup Hnd). now apply first_seen_subset.
Qed.

(** ** Claims about the merge *)

Section MergeClaims.
Context `{Runtime}.
Import PyDict PyDictFacts.

Lemma csv_dates_keys cav tm :
  map csv_date (save_indices_to_local_file cav tm) = keys (combine cav tm).
Proof.
  unfold save_indices_to_local_file, keys. rewrite map_map.
  apply map_ext_in. intros [k row] Hin. simpl.
  now destruct (combine_item _ _ _ _ Hin) as [-> _].
Qed.

Lemma data_follows_items cav tm items data :
  (forall item, In item items -> In item (combine cav tm)) ->
  Forall2 (fun item tup => index_tuple_of (snd item) = Ok tup) items data ->
  Forall2 (fun r tup =>
             strptime (csv_date r) = Ok (tup_date tup)
             /\ (tup_cavallo_index tup = None
                 <-> ~ In (csv_date r) (map idx_date cav))
             /\ (tup_tmall_index tup = None
                 <-> ~ In (csv_date r) (map idx_date tm)))
          (map csv_record_of items) data.
Proof.
  intros Hitems Hdata. induction Hdata as [|[k row] tup items data Htup _ IH];
    simpl; constructor.
  - destruct (combine_item cav tm k row) as [Hd [Hc Ht]].
    { apply Hitems. now left. }
    destruct (index_tuple_of_fields _ Htup) as [Hp [_ [Hc' Ht']]].
    simpl in *. rewrite Hc', Ht', Hd in *. auto.
  - apply IH. intros item Hin. apply Hitems. now right.
Qed.

Lemma data_follows_records cav tm data :
  indices_data (combine cav tm) = Ok data ->
  Forall2 (fun r tup =>
             strptime (csv_date r) = Ok (tup_date tup)
             /\ (tup_cavallo_index tup = None
                 <-> ~ In (csv_date r) (map idx_date cav))
             /\ (tup_tmall_index tup = None
                 <-> ~ In (csv_date r) (map idx_date tm)))
          (save_indices_to_local_file cav tm) data.
Proof.
  intros Hdata. apply indices_data_Forall2 in Hdata.
  apply (data_follows_items cav tm); auto.
Qed.

Lemma records_defaults cav tm :
  Forall (fun r =>
            (~ In (csv_date r) (map idx_date cav) -> csv_cavallo_index r = 0%R)
            /\ (~ In (csv_date r) (map idx_date tm) -> csv_tmall_index r = 0%R))
         (save_indices_to_local_file cav tm).
Proof.
  apply Forall_forall. intros r Hr.
  unfold save_indices_to_local_file in Hr. apply in_map_iff in Hr.
  destruct Hr as [[k row] [<- Hin]]. simpl.
  destruct (combine_item _ _ _ _ Hin) as [Hd [Hc Ht]]. rewrite Hd.
  split; intros Hni.
  - apply Hc in Hni. now rewrite Hni.
  - apply Ht in Hni. now rewrite Hni.
Qed.

End MergeClaims.

(** What the two savers build from the same inputs.  The merge has one row
    per distinct date seen by either engine.  In the rows
    [save_indices_to_local_file] writes, an index field that no input record
    set for the row's date is 0.0.  In the tuples of a [save_indices] run
    that succeeds, taken in the same order, such a field is Python's
    [None]; a field is [None] only when no record of that engine has the
    row's date. *)
Theorem merge_rows_and_defaults `{Runtime} (cav tm : list IndexRecord) :
  let dc := map idx_date cav in
  let dt := map idx_date tm in
  let records := save_indices_to_local_file cav tm in
  NoDup (map csv_date records)
  /\ (forall d, In d (map csv_date records) <-> In d dc \/ In d dt)
  /\ Forall (fun r =>
               (~ In (csv_date r) dc -> csv_cavallo_index r = 0%R)
               /\ (~ In (csv_date r) dt -> csv_tmall_index r = 0%R))
            records
  /\ (forall s s',
        save_indices cav tm s = (Ok tt, s') ->
        exists data,
          stored "price_indices" s' = (stored "price_indices" s ++ data)%list
          /\ Forall2 (fun r tup =>
                        strptime (csv_date r) = Ok (tup_date tup)
                        /\ (tup_cavallo_index tup = None
                            <-> ~ In (csv_date r) dc)
                        /\ (tup_tmall_index tup = None
                            <-> ~ In (csv_date r) dt))
                     records data).
Proof.
  intros dc dt records. subst dc dt records.
  rewrite csv_dates_keys, keys_combine.
  split; [apply NoDup_distinct|].
  split; [intros d; now rewrite In_distinct, in_app_iff|].
  split; [apply records_defaults|].
  intros s s' Hrun. destruct (save_indices_ok _ _ _ Hrun) as [data [Hd Hs]].
  exists data. split; [exact Hs | now apply data_follows_records].
Qed.

(** C1 (code bug). On a Tmall record for 1 January and no Cavallo record,
    [save_indices_to_local_file] writes the Cavallo index 0.0, as the claim
    says, but [save_indices] builds the tuple with Python's [None] in that
    place; a driver that holds the columns of [price_indices] to their
    declared type, [Float64] without [Nullable], rejects the tuple, the
    exception is re-raised and nothing is stored. *)
Theorem save_indices_passes_null :
  save_indices_to_local_file [] [tmall_jan1]
  = [{| csv_date := "2024-01-01"; csv_cavallo_index := 0%R;
        csv_tmall_index := 100%R; csv_base_date := "2024-01-01" |}]
  /\ indices_data (H:=non_nullable_runtime) (combine [] [tmall_jan1])
     = Ok [(jan1, None, Some 100%R, jan1)]
  /\ save_indices (H:=non_nullable_runtime) [] [tmall_jan1] []
     = (Err (TypeError "a float is required"), []).
Proof. repeat split. Qed.

(** C7 (amended). The merged rows are emitted in order of first occurrence
    of their dates, the Cavallo records being read before the Tmall
    records; no sorting takes place.  The order is ascending by date when
    the Cavallo dates are ascending and every Tmall date is among them. *)
Theorem merge_order_first_seen `{Runtime} (cav tm : list IndexRecord) :
  let dates := distinct (map idx_date cav ++ map idx_date tm) in
  map csv_date (save_indices_to_local_file cav tm) = dates
  /\ (forall s s',
        save_indices cav tm s = (Ok tt, s') ->
        exists data,
          stored "price_indices" s' = (stored "price_indices" s ++ data)%list
          /\ Forall2 (fun k tup => strptime k = Ok (tup_date tup)) dates data)
  /\ (ascending (map idx_date cav) = true ->
      (forall d, In d (map idx_date tm) -> In d (map idx_date cav)) ->
      ascending (map csv_date (save_indices_to_local_file cav tm)) = true).
Proof.
  intros dates. subst dates.
  pose proof (csv_dates_keys cav tm) as Hk. rewrite keys_combine in Hk.
  split; [exact Hk|]. split.
  - intros s s' Hrun. destruct (save_indices_ok _ _ _ Hrun) as [data [Hd Hs]].
    exists data. split; [exact Hs|].
    rewrite <- Hk. apply data_follows_records in Hd.
    clear -Hd. induction Hd as [|r tup rs data [Hp _] _ IH]; simpl;
      constructor; assumption.
  - intros Hasc Hsub. rewrite Hk.
    rewrite distinct_app_subset; auto using ascending_NoDup.
Qed.

(** Cavallo records for 1 and 2 January, a Tmall record for 2 January. *)
Lemma merge_order_first_seen_witness :
  ascending (map csv_date
               (save_indices_to_local_file [cavallo_jan1; cavallo_jan2]
                                           [tmall_jan2]))
  = true.
Proof.
  apply (proj2 (proj2
           (merge_order_first_seen (H:=example_runtime)
              [cavallo_jan1; cavallo_jan2] [tmall_jan2]))).
  - reflexivity.
  - simpl. intros d [<-|[]]. right. now left.
Defined.

(** C7, as stated, fails: the Tmall input holds 1 January, which the
    Cavallo input lacks, and the row for it comes after 2 January, in the
    CSV rows and in the inserted tuples alike. *)
Lemma merge_order_counterexample :
  map csv_date (save_indices_to_local_file [cavallo_jan2]
                                           [tmall_jan1; tmall_jan2])
  = ["2024-01-02"%string; "2024-01-01"%string]
  /\ ascending
       (map csv_date (save_indices_to_local_file [cavallo_jan2]
                                                 [tmall_jan1; tmall_jan2]))
     = false
  /\ map tup_date
       (stored "price_indices"
          (snd (save_indices (H:=example_runtime) [cavallo_jan2]
                  [tmall_jan1; tmall_jan2] [])))
     = [jan2; jan1]
  /\ date_ltb jan2 jan1 = false.
Proof. repeat split. Qed.

(** C10. When both record lists are empty, [combined] and [data] are empty,
    [save_indices] issues no insert and the sink, with the stored index
    table, is unchanged; [insert_data] itself returns at once on an empty
    list. *)
Theorem save_indices_empty_no_insert `{Runtime} (s : Sink) :
  combine [] [] = []
  /\ indices_data (combine [] []) = Ok []
  /\ save_indices [] [] s = (Ok tt, s)
  /\ stored "price_indices" (snd (save_indices [] [] s))
     = stored "price_indices" s
  /\ insert_data "price_indices" [] s = (Ok tt, s).
Proof. repeat split. Qed.

(** ** Rounding *)

Lemma py_round_decimal (x : R) (ndigits : nat) :
  exists n : Z, (py_round x ndigits * 10 ^ ndigits)%R = IZR n.
Proof.
  exists (round_half_even (x * 10 ^ ndigits)). unfold py_round.
  field. apply pow_nonzero. lra.
Qed.

Lemma round_half_even_nearest (x : R) :
  (Rabs (IZR (round_half_even x) - x) <= 1 / 2)%R
  /\ ((Rabs (IZR (round_half_even x) - x) = 1 / 2)%R ->
      Z.even (round_half_even x) = true).
Proof.
  unfold round_half_even.
  destruct (base_fp x) as [Hf0 Hf1].
  assert (Hx : x = (IZR (Int_part x) + frac_part x)%R)
    by (unfold frac_part; lra).
  set (n := Int_part x) in *. set (f := frac_part x) in *.
  destruct (Rlt_dec f (1 / 2)) as [Hlt|Hge].
  - replace (IZR n - x)%R with (- f)%R by lra.
    rewrite Rabs_Ropp, Rabs_right by lra. split; lra.
  - destruct (Rlt_dec (1 / 2) f) as [Hgt|Hle].
    + rewrite plus_IZR. replace (IZR n + 1 - x)%R with (1 - f)%R by lra.
      rewrite Rabs_right by lra. split; lra.
    + destruct (Z.even n) eqn:He.
      * replace (IZR n - x)%R with (- f)%R by lra.
        rewrite Rabs_Ropp, Rabs_right by lra.
        split; [lra | intros _; exact He].
      * rewrite plus_IZR. replace (IZR n + 1 - x)%R with (1 - f)%R by lra.
        rewrite Rabs_right by lra. split; [lra|]. intros _.
        now rewrite Z.add_1_r, Z.even_succ, <- Z.negb_even, He.
Qed.

Lemma py_round_rounded_to_4 (x : R) : rounded_to_4 x (py_round x 4).
Proof.
  exists (round_half_even (x * 10 ^ 4)).
  split; [reflexivity | apply round_half_even_nearest].
Qed.

Lemma round_half_even_tie (n : Z) :
  round_half_even (IZR n + 1 / 2) = if Z.even n then n else (n + 1)%Z.
Proof.
  assert (Hi : Int_part (IZR n + 1 / 2) = n).
  { symmetry. apply Int_part_spec. lra. }
  unfold round_half_even, frac_part. rewrite Hi.
  destruct (Rlt_dec _ _) as [Hlt|_]; [lra|].
  destruct (Rlt_dec _ _) as [Hgt|_]; [lra|]. reflexivity.
Qed.

(** 1.23455 and 1.23445 both lie halfway between two multiples of 0.0001;
    each goes to the neighbour whose last digit is even. *)
Lemma py_round_ties :
  py_round (123455 / 100000) 4 = (12346 / 10000)%R
  /\ py_round (123445 / 100000) 4 = (12344 / 10000)%R.
Proof.
  unfold py_round. split.
  - replace (123455 / 100000 * 10 ^ 4)%R with (IZR 12345 + 1 / 2)%R
      by (simpl; lra).
    rewrite round_half_even_tie. simpl. lra.
  - replace (123445 / 100000 * 10 ^ 4)%R with (IZR 12344 + 1 / 2)%R
      by (simpl; lra).
    rewrite round_half_even_tie. simpl. lra.
Qed.

Lemma Rabs_le_bounds (a b : R) : (Rabs a <= b -> - b <= a <= b)%R.
Proof.
  intros Hab. pose proof (Rle_abs a) as H1. pose proof (Rle_abs (- a)) as H2.
  rewrite Rabs_Ropp in H2. lra.
Qed.

(** [rounded_to_4] determines the rounded value. *)
Lemma rounded_to_4_unique (x v w : R) :
  rounded_to_4 x v -> rounded_to_4 x w -> v = w.
Proof.
  intros [n [-> [Hn Hn']]] [k [-> [Hk Hk']]].
  enough (n = k) by now subst.
  set (y := (x * 10 ^ 4)%R) in *.
  assert (Hn1 := @Rabs_le_bounds _ _ Hn).
  assert (Hk1 := @Rabs_le_bounds _ _ Hk).
  assert (Hd : (-1 <= n - k <= 1)%Z).
  { split; apply le_IZR; rewrite minus_IZR; lra. }
  assert (Hcase : (n - k = -1 \/ n = k \/ n - k = 1)%Z) by lia.
  destruct Hcase as [Hc|[Hc|Hc]]; [|exact Hc|].
  - assert (Hr : (IZR n - IZR k = -1)%R) by (rewrite <- minus_IZR, Hc; reflexivity).
    assert (En : Z.even n = true).
    { apply Hn'. rewrite Rabs_left1 by lra. lra. }
    assert (Ek : Z.even k = true).
    { apply Hk'. rewrite Rabs_right by lra. lra. }
    replace k with (Z.succ n) in Ek by lia.
    rewrite Z.even_succ, <- Z.negb_even, En in Ek. discriminate.
  - assert (Hr : (IZR n - IZR k = 1)%R) by (rewrite <- minus_IZR, Hc; reflexivity).
    assert (En : Z.even n = true).
    { apply Hn'. rewrite Rabs_right by lra. lra. }
    assert (Ek : Z.even k = true).
    { apply Hk'. rewrite Rabs_left1 by lra. lra. }
    replace n with (Z.succ k) in En by lia.
    rewrite Z.even_succ, <- Z.negb_even, Ek in En. discriminate.
Qed.

Lemma round_half_even_IZR (z : Z) : round_half_even (IZR z) = z.
Proof.
  unfold round_half_even.
  assert (Hi : Int_part (IZR z) = z).
  { symmetry. apply Int_part_spec. lra. }
  assert (Hf : frac_part (IZR z) = 0%R).
  { unfold frac_part. rewrite Hi. lra. }
  rewrite Hi, Hf. destruct (Rlt_dec 0 (1 / 2)); [reflexivity | lra].
Qed.

Lemma py_round_IZR (z : Z) : py_round (IZR z) 4 = IZR z.
Proof.
  unfold py_round.
  replace (IZR z * 10 ^ 4)%R with (IZR (z * 10000)).
  - rewrite round_half_even_IZR, mult_IZR. simpl. field.
  - rewrite mult_IZR. simpl. lra.
Qed.

Lemma py_round_100 : py_round 100 4 = 100%R.
Proof.
  unfold py_round.
  replace (100 * 10 ^ 4)%R with (IZR 1000000) by (simpl; lra).
  rewrite round_half_even_IZR. simpl. lra.
Qed.

Lemma py_round_0 : py_round 0 4 = 0%R.
Proof.
  unfold py_round.
  replace (0 * 10 ^ 4)%R with (IZR 0) by (simpl; lra).
  rewrite round_half_even_IZR. simpl. lra.
Qed.

(** ** The engines over any connector *)

Section EngineFacts.
Context `{Runtime}.
Variable ch : Connector.

Lemma fetch_price_rows_err bs batch e :
  In batch bs -> q_prices_in ch batch = Err e ->
  exists e', fetch_price_rows ch bs = Err e'.
Proof.
  induction bs as [|b bs IH]; simpl; [tauto|].
  intros [->|Hin] Herr.
  - rewrite Herr. simpl. eauto.
  - destruct (q_prices_in ch b); simpl; [|eauto].
    destruct (IH Hin Herr) as [e' ->]. simpl. eauto.
Qed.

Lemma cavallo_no_base_date sd :
  _determine_base_date ch sd = Ok None -> calculate_cavallo_index ch sd = [].
Proof.
  intros Hd. unfold calculate_cavallo_index, cavallo_try. rewrite Hd. simpl.
  destruct (_get_base_prices ch None) as [bp|e]; simpl; [|reflexivity].
  destruct (is_empty bp); [reflexivity|].
  destruct (fetch_price_rows ch _) as [rows|e]; simpl; [|reflexivity].
  destruct (is_empty rows); reflexivity.
Qed.

Lemma tmall_loop_no_base_date W B dates :
  tmall_loop ch W B None dates = Ok []
  \/ exists e, tmall_loop ch W B None dates = Err e.
Proof.
  induction dates as [|d dates IH]; simpl; [now left|].
  destruct (_get_category_averages ch (Some d)) as [avg|e]; simpl; [|eauto].
  destruct (is_empty avg); [exact IH | eauto].
Qed.

Lemma tmall_no_base_date sd :
  _determine_base_date ch sd = Ok None -> calculate_tmall_index ch sd = [].
Proof.
  intros Hd. unfold calculate_tmall_index, tmall_try. rewrite Hd. simpl.
  destruct (_get_category_weights ch) as [W|e]; simpl; [|reflexivity].
  destruct (is_empty W); [reflexivity|].
  destruct (_get_category_averages ch None) as [B|e]; simpl; [|reflexivity].
  destruct (is_empty B); [reflexivity|].
  destruct (_get_all_dates ch) as [dates|e]; simpl; [|reflexivity].
  destruct (tmall_loop_no_base_date W B dates) as [->|[e ->]]; reflexivity.
Qed.

Lemma tmall_loop_values W B bd dates results :
  tmall_loop ch W B (Some bd) dates = Ok results ->
  Forall (fun r =>
            exists d A v,
              In d dates
              /\ _get_category_averages ch (Some d) = Ok A
              /\ is_empty A = false
              /\ r = {| idx_date := strftime d;
                        idx_value := Some v;
                        idx_base_date := strftime bd |}
              /\ rounded_to_4 (tmall_index_value (accumulate_weights W B A)) v)
         results.
Proof.
  revert results. induction dates as [|d dates IH]; simpl; intros results.
  - intros [= <-]. constructor.
  - destruct (_get_category_averages ch (Some d)) as [avg|e] eqn:Havg; simpl;
      [|discriminate].
    destruct (is_empty avg) eqn:Hempty.
    + intros Hl. eapply Forall_impl; [|exact (IH _ Hl)].
      intros r [d' [A [v [Hin Hrest]]]]. exists d', A, v. now split; [right|].
    + destruct (tmall_loop ch W B (Some bd) dates) as [rest|e]; simpl;
        [|discriminate].
      intros [= <-]. constructor.
      * exists d, avg, (py_round (tmall_index_value (accumulate_weights W B avg)) 4).
        repeat split; try assumption; try reflexivity.
        -- now left.
        -- apply py_round_rounded_to_4.
      * eapply Forall_impl; [|exact (IH _ eq_refl)].
        intros r [d' [A [v [Hin Hrest]]]]. exists d', A, v.
        now split; [right|].
Qed.

End EngineFacts.

(** ** Claims about failure handling and rounding *)

(** C4. When the base-price set is empty, when no price row comes back, or
    when resolving the base date, the base-price query or the price query
    of any batch raises, [calculate_cavallo_index] returns the empty list.
    Its result type is a plain list: no exception leaves the engine. *)
Theorem cavallo_fail_soft `{Runtime} (ch : Connector) (sd : option string) :
  (exists e, _determine_base_date ch sd = Err e)
  \/ (exists bd,
        _determine_base_date ch sd = Ok bd
        /\ ((exists e, q_base_prices ch bd = Err e)
            \/ q_base_prices ch bd = Ok []
            \/ (exists rows batch e,
                  q_base_prices ch bd = Ok rows
                  /\ In batch (batches batch_size
                                 (PyDict.keys (PyDict.of_list rows)))
                  /\ q_prices_in ch batch = Err e)
            \/ (exists rows,
                  q_base_prices ch bd = Ok rows
                  /\ fetch_price_rows ch
                       (batches batch_size (PyDict.keys (PyDict.of_list rows)))
                     = Ok []))) ->
  calculate_cavallo_index ch sd = [].
Proof.
  unfold calculate_cavallo_index, cavallo_try.
  intros [[e He]|[bd [Hd Hcase]]].
  - now rewrite He.
  - rewrite Hd. simpl. unfold _get_base_prices.
    destruct Hcase
      as [[e He]|[Hempty|[[rows [batch [e [Hr [Hin He]]]]]|[rows [Hr Hf]]]]].
    + now rewrite He.
    + now rewrite Hempty.
    + rewrite Hr. simpl. destruct (is_empty _); [reflexivity|].
      destruct (fetch_price_rows_err ch _ _ Hin He) as [e' ->]. reflexivity.
    + rewrite Hr. simpl. destruct (is_empty _); [reflexivity|].
      rewrite Hf. reflexivity.
Qed.

(** A connector without rows: the base-price set is empty. *)
Lemma cavallo_fail_soft_witness :
  calculate_cavallo_index (H:=example_runtime) no_rows_connector None = [].
Proof.
  apply (cavallo_fail_soft (H:=example_runtime)).
  right. exists None. split; [reflexivity|]. right. left. reflexivity.
Defined.

(** C5 (amended). When no explicit base date is supplied and the min-date
    query yields no row, [_determine_base_date] returns Python's [None]
    instead of raising; both engines then end with an empty result. *)
Theorem determine_base_date_no_rows `{Runtime} (ch : Connector)
  (sd : option string) :
  sd = None \/ sd = Some EmptyString ->
  q_min_date ch = Ok [] ->
  _determine_base_date ch sd = Ok None
  /\ calculate_cavallo_index ch sd = []
  /\ calculate_tmall_index ch sd = [].
Proof.
  intros Hsd Hq.
  assert (Hd : _determine_base_date ch sd = Ok None).
  { destruct Hsd as [->| ->]; simpl; now rewrite Hq. }
  repeat split;
    [exact Hd | now apply cavallo_no_base_date | now apply tmall_no_base_date].
Qed.

Lemma determine_base_date_no_rows_witness :
  _determine_base_date (H:=example_runtime) no_rows_connector None = Ok None
  /\ calculate_cavallo_index (H:=example_runtime) no_rows_connector None = []
  /\ calculate_tmall_index (H:=example_runtime) no_rows_connector None = [].
Proof.
  apply (determine_base_date_no_rows (H:=example_runtime));
    [now left | reflexivity].
Defined.

(** C5, as stated, fails: on a min-date query without rows the resolver
    returns a value, [None], and raises nothing. *)
Lemma determine_base_date_counterexample :
  q_min_date no_rows_connector = Ok []
  /\ _determine_base_date (H:=example_runtime) no_rows_connector None
     = Ok None
  /\ ~ exists e,
         _determine_base_date (H:=example_runtime) no_rows_connector None
         = Err e.
Proof.
  repeat split. intros [e He]. discriminate He.
Qed.

(** C9. Every record either engine emits carries the value computed for
    its date rounded to four decimal digits: for a Cavallo record, 100
    times the exponential of the mean log ratio of the date's group; for a
    Tmall record, the weighted index of the date's category averages.  The
    emitted value is [n / 10000] for an integer [n] nearest to 10000 times
    that value, the even one on a tie, so it has at most four decimal
    digits and differs from the unrounded value by at most 0.00005. *)
Theorem index_values_rounded `{Runtime} (ch : Connector)
  (sd : option string) :
  Forall (fun r =>
            exists bd base rows d m v,
              _determine_base_date ch sd = Ok (Some bd)
              /\ _get_base_prices ch (Some bd) = Ok base
              /\ fetch_price_rows ch (batches batch_size (PyDict.keys base))
                 = Ok rows
              /\ In (d, m)
                    (groupby_date_mean
                       (positive_rows (merge_on_product_id rows base)))
              /\ r = {| idx_date := strftime d;
                        idx_value := Some v;
                        idx_base_date := strftime bd |}
              /\ rounded_to_4 (exp m * 100) v)
         (calculate_cavallo_index ch sd)
  /\ Forall (fun r =>
               exists bd W B dates d A v,
                 _determine_base_date ch sd = Ok (Some bd)
                 /\ _get_category_weights ch = Ok W
                 /\ _get_category_averages ch (Some bd) = Ok B
                 /\ _get_all_dates ch = Ok dates
                 /\ In d dates
                 /\ _get_category_averages ch (Some d) = Ok A
                 /\ is_empty A = false
                 /\ r = {| idx_date := strftime d;
                           idx_value := Some v;
                           idx_base_date := strftime bd |}
                 /\ rounded_to_4
                      (tmall_index_value (accumulate_weights W B A)) v)
            (calculate_tmall_index ch sd).
Proof.
  split.
  - destruct (_determine_base_date ch sd) as [[bd|]|e] eqn:Hd.
    + unfold calculate_cavallo_index, cavallo_try. rewrite Hd. cbn [bind].
      destruct (_get_base_prices ch (Some bd)) as [bp|e] eqn:Hbp; cbn [bind];
        [|constructor].
      destruct (is_empty bp); [constructor|].
      destruct (fetch_price_rows ch _) as [rows|e] eqn:Hrows; cbn [bind];
        [|constructor].
      destruct (is_empty rows); [constructor|].
      cbn [strftime_obj bind].
      apply Forall_forall. intros r Hr. apply in_map_iff in Hr.
      destruct Hr as [[d m] [<- Hg]].
      exists bd, bp, rows, d, m, (py_round (exp m * 100) 4).
      repeat split; try assumption; try reflexivity.
      apply py_round_rounded_to_4.
    + rewrite (cavallo_no_base_date ch sd Hd). constructor.
    + unfold calculate_cavallo_index, cavallo_try. rewrite Hd. constructor.
  - destruct (_determine_base_date ch sd) as [[bd|]|e] eqn:Hd.
    + unfold calculate_tmall_index, tmall_try. rewrite Hd. cbn [bind].
      destruct (_get_category_weights ch) as [W|e] eqn:HW; cbn [bind];
        [|constructor].
      destruct (is_empty W); [constructor|].
      destruct (_get_category_averages ch (Some bd)) as [B|e] eqn:HB;
        cbn [bind]; [|constructor].
      destruct (is_empty B); [constructor|].
      destruct (_get_all_dates ch) as [dates|e] eqn:Hdates; cbn [bind];
        [|constructor].
      destruct (tmall_loop ch W B (Some bd) dates) as [results|e] eqn:Hl;
        [|constructor].
      eapply Forall_impl; [|exact (tmall_loop_values ch W B bd dates Hl)].
      intros r [d [A [v [Hin [HA [Hne [Hr Hv]]]]]]].
      exists bd, W, B, dates, d, A, v. repeat split; assumption.
    + rewrite (tmall_no_base_date ch sd Hd). constructor.
    + unfold calculate_tmall_index, tmall_try. rewrite Hd. constructor.
Qed.

(** ** The batched price queries *)

Lemma NoDup_app_disjoint {A} (l l' : list A) :
  NoDup (l ++ l') -> forall x, In x l -> ~ In x l'.
Proof.
  induction l as [|y l IH]; simpl; intros Hnd x; [tauto|].
  inversion Hnd as [|? ? Hni Hnd']; subst. intros [->|Hin] Hin'.
  - apply Hni. apply in_or_app. now right.
  - exact (IH Hnd' x Hin Hin').
Qed.

Section BatchedQueries.
Variable db : Database.

Lemma fetch_price_rows_db bs :
  fetch_price_rows (db_connector db) bs = Ok (flat_map (sql_prices_in db) bs).
Proof.
  induction bs as [|b bs IH]; simpl; [reflexivity|]. now rewrite IH.
Qed.

Lemma filter_mem_app (b c : list string) (facts : list PriceFact) :
  (forall x, In x b -> ~ In x c) ->
  Permutation
    (filter (fun f => mem (pf_product_id f) (b ++ c)) facts)
    (filter (fun f => mem (pf_product_id f) b) facts
     ++ filter (fun f => mem (pf_product_id f) c) facts).
Proof.
  intros Hdisj. induction facts as [|f facts IH]; simpl; [constructor|].
  unfold mem at 1. rewrite existsb_app. fold (mem (pf_product_id f) b).
  fold (mem (pf_product_id f) c).
  destruct (mem (pf_product_id f) b) eqn:Hb; simpl.
  - assert (Hc : mem (pf_product_id f) c = false).
    { apply mem_not_In. apply Hdisj. now apply mem_In. }
    rewrite Hc. now constructor.
  - destruct (mem (pf_product_id f) c); [|exact IH].
    now apply Permutation_cons_app.
Qed.

Lemma batched_rows_perm (bs : list (list string)) :
  NoDup (List.concat bs) ->
  Permutation (flat_map (sql_prices_in db) bs)
              (sql_prices_in db (List.concat bs)).
Proof.
  induction bs as [|b bs IH]; simpl; intros Hnd.
  - unfold sql_prices_in.
    induction (daily_prices db) as [|f facts IH]; simpl; auto.
  - transitivity (sql_prices_in db b ++ sql_prices_in db (List.concat bs)).
    + apply Permutation_app_head. apply IH.
      now apply NoDup_app_remove_l in Hnd.
    + symmetry. unfold sql_prices_in. rewrite <- map_app.
      apply Permutation_map. apply filter_mem_app.
      exact (NoDup_app_disjoint _ _ Hnd).
Qed.

Lemma filter_eqb_NoDup (x : string) (l : list string) :
  NoDup l ->
  filter (fun p => String.eqb p x) l = if mem x l then [x] else [].
Proof.
  induction 1 as [|y l Hni Hnd IH]; simpl; [reflexivity|].
  change (eqb x y) with (String.eqb x y).
  rewrite (String.eqb_sym y x).
  destruct (String.eqb_spec x y) as [->|Hne]; simpl.
  - rewrite IH. apply mem_not_In in Hni. now rewrite Hni.
  - exact IH.
Qed.

Lemma single_join_prices_in (product_ids : list string) :
  NoDup product_ids ->
  prices_single_join db product_ids = sql_prices_in db product_ids.
Proof.
  intros Hnd. unfold prices_single_join, sql_prices_in.
  induction (daily_prices db) as [|f facts IH]; simpl; [reflexivity|].
  rewrite IH, (filter_eqb_NoDup _ Hnd).
  destruct (mem (pf_product_id f) product_ids); reflexivity.
Qed.

End BatchedQueries.

(** C8. For every duplicate-free list of product ids, and so for the keys
    of the base-price dict, and for every positive batch size, the engine's
    [batch_size] of 1000 among them, the batched price queries succeed on
    the tables and their concatenation is a permutation of the rows of the
    single join: the same multiset of (date, product_id, price) rows. *)
Theorem batched_prices_same_rows (db : Database) (n : nat)
  (product_ids : list string) :
  0 < n ->
  NoDup product_ids ->
  exists rows,
    fetch_price_rows (db_connector db) (batches n product_ids) = Ok rows
    /\ Permutation rows (prices_single_join db product_ids).
Proof.
  intros Hn Hnd. exists (flat_map (sql_prices_in db) (batches n product_ids)).
  split; [apply fetch_price_rows_db|].
  assert (Hc : List.concat (batches n product_ids) = product_ids)
    by now apply concat_batches.
  rewrite single_join_prices_in by assumption.
  rewrite <- Hc at 2. apply batched_rows_perm. now rewrite Hc.
Qed.

(** The product ids the engine batches are the keys of the base-price
    dict. *)
Corollary base_price_keys_same_rows (db : Database) (bd : option date) :
  let all_pids := PyDict.keys (PyDict.of_list (sql_base_prices db bd)) in
  exists rows,
    fetch_price_rows (db_connector db) (batches batch_size all_pids) = Ok rows
    /\ Permutation rows (prices_single_join db all_pids).
Proof.
  intros all_pids.
  assert (Hc : List.concat (batches batch_size all_pids) = all_pids).
  { apply concat_batches. unfold batch_size. lia. }
  exists (flat_map (sql_prices_in db) (batches batch_size all_pids)).
  split; [apply fetch_price_rows_db|].
  rewrite single_join_prices_in by apply PyDictFacts.NoDup_keys_of_list.
  rewrite <- Hc at 2. apply batched_rows_perm. rewrite Hc.
  apply PyDictFacts.NoDup_keys_of_list.
Qed.

Lemma numbered_id_inj (a b : nat) : numbered_id a = numbered_id b -> a = b.
Proof.
  unfold numbered_id. intros [= E].
  apply (f_equal DecimalString.NilEmpty.uint_of_string) in E.
  rewrite !DecimalString.NilEmpty.usu in E. injection E as E.
  apply (f_equal Nat.of_uint) in E.
  now rewrite !DecimalNat.Unsigned.of_to in E.
Qed.

Lemma NoDup_numbered_ids (n : nat) : NoDup (numbered_ids n).
Proof.
  unfold numbered_ids. apply Finite.Injective_map_NoDup.
  - intros a b. apply numbered_id_inj.
  - apply seq_NoDup.
Qed.

Lemma numbered_ids_batches :
  batches batch_size (numbered_ids 1001)
  = [numbered_ids 1000; [numbered_id 1000]].
Proof. vm_compute. reflexivity. Qed.

(** Three products queried in batches of two; and 1001 products queried in
    the engine's batches of 1000, where the second batch holds the last
    product alone and a fact of that product is among the rows. *)
Lemma batched_prices_same_rows_witness :
  (batches 2 ["P1"%string; "P2"%string; "P3"%string]
   = [["P1"%string; "P2"%string]; ["P3"%string]]
   /\ exists rows,
        fetch_price_rows (db_connector late_product_db)
          (batches 2 ["P1"%string; "P2"%string; "P3"%string])
        = Ok rows
        /\ Permutation rows
             (prices_single_join late_product_db
                ["P1"%string; "P2"%string; "P3"%string]))
  /\ (batches batch_size (numbered_ids 1001)
      = [numbered_ids 1000; [numbered_id 1000]]
      /\ exists rows,
           fetch_price_rows (db_connector numbered_db)
             (batches batch_size (numbered_ids 1001))
           = Ok rows
           /\ Permutation rows
                (prices_single_join numbered_db (numbered_ids 1001))).
Proof.
  split; (split; [|apply batched_prices_same_rows]).
  - reflexivity.
  - lia.
  - repeat constructor; simpl; intuition discriminate.
  - exact numbered_ids_batches.
  - unfold batch_size. lia.
  - apply NoDup_numbered_ids.
Defined.

(** ** Sorted distinct dates, sums and tests on reals *)

Lemma In_insert_date (x d : date) l : In x (insert_date d l) <-> x = d \/ In x l.
Proof.
  induction l as [|y l IH]; simpl; [intuition congruence|].
  destruct (date_eqb_spec d y) as [->|Hne]; simpl; [intuition congruence|].
  destruct (date_ltb d y); simpl; [intuition congruence|].
  rewrite IH. intuition congruence.
Qed.

Lemma In_sorted_distinct (x : date) l : In x (sorted_distinct l) <-> In x l.
Proof.
  induction l as [|y l IH]; simpl; [tauto|].
  rewrite In_insert_date, IH. intuition congruence.
Qed.

Lemma Rgtb_spec (x y : R) : reflect (y < x)%R (Rgtb x y).
Proof. unfold Rgtb. destruct (Rlt_dec y x); now constructor. Qed.

Lemma Rgtb_true (x y : R) : (y < x)%R -> Rgtb x y = true.
Proof. intros Hlt. destruct (Rgtb_spec x y); [reflexivity | contradiction]. Qed.

Lemma Rgtb_false (x y : R) : (x <= y)%R -> Rgtb x y = false.
Proof. intros Hle. destruct (Rgtb_spec x y); [lra | reflexivity]. Qed.

Lemma mean_zero (l : list R) : (forall x, In x l -> x = 0%R) -> mean l = 0%R.
Proof.
  intros Hall. unfold mean.
  assert (Hs : Rsum l = 0%R).
  { induction l as [|y l IH]; simpl; [reflexivity|].
    rewrite (Hall y) by now left. rewrite IH; [lra|].
    intros x Hx. apply Hall. now right. }
  rewrite Hs. unfold Rdiv. apply Rmult_0_l.
Qed.

Lemma NoDup_map_inj {A B} (g : A -> B) (l : list A) a b :
  NoDup (map g l) -> In a l -> In b l -> g a = g b -> a = b.
Proof.
  induction l as [|y l IH]; simpl; [tauto|].
  intros Hnd Ha Hb Hg. inversion Hnd as [|? ? Hni Hnd']; subst.
  destruct Ha as [->|Ha], Hb as [->|Hb]; auto.
  - exfalso. apply Hni. rewrite Hg. now apply in_map.
  - exfalso. apply Hni. rewrite <- Hg. now apply in_map.
Qed.

(** ** The Cavallo engine over the tables *)

Section CavalloOnTables.
Context `{Runtime}.
Variable db : Database.
Variable bd : date.

Hypothesis one_price_per_day :
  NoDup (map (fun f => (pf_date f, pf_product_id f)) (daily_prices db)).

Let base_prices : PyDict.t (K:=string) (V:=R) :=
  PyDict.of_list (sql_base_prices db (Some bd)).

Let all_price_rows : list (date * string * R) :=
  flat_map (sql_prices_in db) (batches batch_size (PyDict.keys base_prices)).

Lemma base_price_fact pid bp :
  In (pid, bp) base_prices ->
  exists f, In f (daily_prices db) /\ pf_date f = bd
            /\ pf_product_id f = pid /\ pf_price f = bp.
Proof.
  intros Hin. apply PyDictFacts.In_of_list in Hin.
  unfold sql_base_prices in Hin. apply in_map_iff in Hin.
  destruct Hin as [f [[= <- <-] Hf]]. apply filter_In in Hf.
  destruct Hf as [Hf Hd]. simpl in Hd.
  exists f. repeat split; try assumption.
  now destruct (date_eqb_spec (pf_date f) bd).
Qed.

Lemma price_row_fact d pid p :
  In (d, pid, p) all_price_rows ->
  exists f, In f (daily_prices db) /\ pf_date f = d
            /\ pf_product_id f = pid /\ pf_price f = p.
Proof.
  intros Hin. apply in_flat_map in Hin. destruct Hin as [b [_ Hin]].
  unfold sql_prices_in in Hin. apply in_map_iff in Hin.
  destruct Hin as [f [[= <- <- <-] Hf]]. apply filter_In in Hf.
  exists f. tauto.
Qed.

(** On the base date a joined row carries the same price twice. *)
Lemma joined_row_at_base r :
  In r (merge_on_product_id all_price_rows base_prices) ->
  jr_date r = bd -> jr_price r = jr_base_price r.
Proof.
  intros Hin Hd. unfold merge_on_product_id in Hin.
  apply in_flat_map in Hin. destruct Hin as [[[d pid] p] [Hrow Hin]].
  apply in_map_iff in Hin. destruct Hin as [[pid' bp] [<- Hb]].
  apply filter_In in Hb. destruct Hb as [Hb Heq]. simpl in Heq.
  apply eqb_eq in Heq. subst pid'.
  unfold jr_date in Hd. unfold jr_price, jr_base_price. simpl in *. subst d.
  destruct (price_row_fact _ _ _ Hrow) as [f [Hf [Hfd [Hfp Hfv]]]].
  destruct (base_price_fact _ _ Hb) as [f' [Hf' [Hfd' [Hfp' Hfv']]]].
  assert (Heq : f = f').
  { apply (NoDup_map_inj _ _ _ _ one_price_per_day Hf Hf'). congruence. }
  congruence.
Qed.

(** A fact of the base date yields a joined row. *)
Lemma base_fact_joined f :
  In f (daily_prices db) -> pf_date f = bd ->
  In (pf_date f, pf_product_id f, pf_price f, pf_price f)
     (merge_on_product_id all_price_rows base_prices).
Proof.
  intros Hf Hd.
  assert (Hkey : In (pf_product_id f) (PyDict.keys base_prices)).
  { apply PyDictFacts.In_keys_of_list. unfold sql_base_prices.
    rewrite map_map. simpl. apply in_map_iff. exists f. split; [reflexivity|].
    apply filter_In. split; [assumption|]. simpl. rewrite Hd.
    apply (eqb_refl (K:=date)). }
  assert (Hrow : In (pf_date f, pf_product_id f, pf_price f) all_price_rows).
  { apply (In_batches (n:=batch_size)) in Hkey; [|unfold batch_size; lia].
    destruct Hkey as [b [Hb Hin]]. apply in_flat_map. exists b.
    split; [assumption|]. unfold sql_prices_in. apply in_map_iff.
    exists f. split; [reflexivity|]. apply filter_In. split; [assumption|].
    now apply mem_In. }
  destruct (PyDict.get (pf_product_id f) base_prices) as [bp|] eqn:Hg.
  - apply PyDictFacts.get_Some_In in Hg.
    assert (Hjoin : In (pf_date f, pf_product_id f, pf_price f, bp)
                       (merge_on_product_id all_price_rows base_prices)).
    { unfold merge_on_product_id. apply in_flat_map.
      exists (pf_date f, pf_product_id f, pf_price f). split; [assumption|].
      apply in_map_iff. exists (pf_product_id f, bp). split; [reflexivity|].
      apply filter_In. split; [assumption|]. simpl.
      apply (eqb_refl (K:=string)). }
    pose proof (joined_row_at_base _ Hjoin Hd) as Hp.
    unfold jr_price, jr_base_price in Hp. simpl in Hp.
    rewrite <- Hp in Hjoin. exact Hjoin.
  - apply PyDictFacts.get_None in Hg. contradiction.
Qed.

Lemma cavallo_try_on_tables sd :
  _determine_base_date (db_connector db) sd = Ok (Some bd) ->
  is_empty base_prices = false ->
  is_empty all_price_rows = false ->
  cavallo_try (db_connector db) sd
  = Ok (map (fun g =>
               {| idx_date := strftime (fst g);
                  idx_value := Some (py_round (exp (snd g) * 100) 4);
                  idx_base_date := strftime bd |})
            (groupby_date_mean
               (positive_rows
                  (merge_on_product_id all_price_rows base_prices)))).
Proof.
  intros Hd Hb Hr. unfold cavallo_try. rewrite Hd. simpl.
  fold base_prices. rewrite Hb. rewrite fetch_price_rows_db.
  simpl. fold all_price_rows. rewrite Hr. reflexivity.
Qed.

Lemma cavallo_base_record sd f :
  _determine_base_date (db_connector db) sd = Ok (Some bd) ->
  In f (daily_prices db) -> pf_date f = bd -> (0 < pf_price f)%R ->
  In {| idx_date := strftime bd;
        idx_value := Some 100%R;
        idx_base_date := strftime bd |}
     (calculate_cavallo_index (db_connector db) sd).
Proof.
  intros Hdet Hf Hd Hpos.
  pose proof (base_fact_joined _ Hf Hd) as Hjoin.
  assert (Hb : is_empty base_prices = false).
  { destruct base_prices eqn:E; [|reflexivity].
    unfold merge_on_product_id in Hjoin. apply in_flat_map in Hjoin.
    destruct Hjoin as [r [_ Hin]]. destruct Hin. }
  assert (Hr : is_empty all_price_rows = false).
  { destruct all_price_rows; [destruct Hjoin | reflexivity]. }
  unfold calculate_cavallo_index.
  rewrite (cavallo_try_on_tables _ Hdet Hb Hr).
  set (df := positive_rows (merge_on_product_id all_price_rows base_prices)).
  assert (Hdf : In (pf_date f, pf_product_id f, pf_price f, pf_price f) df).
  { unfold df, positive_rows. apply filter_In. split; [assumption|].
    unfold jr_price, jr_base_price. simpl.
    now rewrite (Rgtb_true Hpos). }
  apply in_map_iff.
  exists (bd, mean (map log_ratio
                        (filter (fun r => eqb (jr_date r) bd) df))).
  split.
  - simpl. rewrite mean_zero.
    + rewrite exp_0, Rmult_1_l, py_round_100. reflexivity.
    + intros x Hx. apply in_map_iff in Hx. destruct Hx as [r [<- Hr']].
      apply filter_In in Hr'. destruct Hr' as [Hr' Hrd].
      apply eqb_eq in Hrd. unfold df, positive_rows in Hr'.
      apply filter_In in Hr'. destruct Hr' as [Hr' Hp].
      apply andb_true_iff in Hp. destruct Hp as [Hp _].
      destruct (Rgtb_spec (jr_price r) 0) as [Hp'|]; [|discriminate].
      unfold log_ratio. rewrite <- (joined_row_at_base _ Hr' Hrd).
      unfold Rdiv. rewrite Rinv_r by lra. apply ln_1.
  - unfold groupby_date_mean. apply in_map_iff. exists bd.
    split; [reflexivity|]. apply In_sorted_distinct.
    apply in_map_iff. eexists. split; [|exact Hdf]. unfold jr_date. simpl.
    exact Hd.
Qed.

End CavalloOnTables.

(** C2. On every fact table with at most one price row per (date, product)
    pair and a row of positive price dated on the resolved base date,
    [calculate_cavallo_index] emits a record for the base date whose index
    is exactly 100. *)
Theorem cavallo_base_date_is_100 `{Runtime} (db : Database)
  (sd : option string) (bd : date) (f : PriceFact) :
  _determine_base_date (db_connector db) sd = Ok (Some bd) ->
  NoDup (map (fun f => (pf_date f, pf_product_id f)) (daily_prices db)) ->
  In f (daily_prices db) -> pf_date f = bd -> (0 < pf_price f)%R ->
  In {| idx_date := strftime bd;
        idx_value := Some 100%R;
        idx_base_date := strftime bd |}
     (calculate_cavallo_index (db_connector db) sd).
Proof.
  intros Hdet Hone Hf Hd Hpos.
  exact (cavallo_base_record db Hone sd f Hdet Hf Hd Hpos).
Qed.

(** Two products over two days, base date 1 January by the min-date
    query. *)
Lemma cavallo_base_date_is_100_witness :
  In {| idx_date := "2024-01-01"%string;
        idx_value := Some 100%R;
        idx_base_date := "2024-01-01"%string |}
     (calculate_cavallo_index (H:=example_runtime) (db_connector two_day_db)
        None).
Proof.
  apply (cavallo_base_date_is_100 (H:=example_runtime) two_day_db None
           (bd:=jan1) (mkPriceFact jan1 "P1" 1 10%R)).
  - reflexivity.
  - simpl. repeat constructor; simpl; intuition discriminate.
  - simpl. now left.
  - reflexivity.
  - simpl. lra.
Defined.

(** ** The Tmall engine over the tables *)

Lemma tmall_index_value_zero (sums : R * R) :
  snd sums = 0%R -> tmall_index_value sums = 0%R.
Proof.
  intros Hz. unfold tmall_index_value. rewrite Hz.
  now rewrite Rgtb_false by lra.
Qed.

Lemma tmall_index_value_equal (sums : R * R) :
  fst sums = snd sums -> (0 < snd sums)%R -> tmall_index_value sums = 100%R.
Proof.
  intros Heq Hpos. unfold tmall_index_value.
  rewrite (Rgtb_true Hpos), Heq. field. lra.
Qed.

Section Accumulate.
Import PyDict.
Implicit Types (W B A : PyDict.t (K:=nat) (V:=R)).

(** Against the base averages themselves every ratio is 1: the two sums
    grow together. *)
Lemma accumulate_same_fold W B (items : list (nat * R)) (acc : R * R) :
  (forall item, In item items -> get (fst item) B = Some (snd item)) ->
  fst acc = snd acc ->
  let sums :=
    fold_left
      (fun acc item =>
         match get (fst item) B with
         | Some b =>
             if Rgtb b 0 then
               let weight := get_default (fst item) 0%R W in
               let ratio := (snd item / b)%R in
               (fst acc + ratio * weight, snd acc + weight)%R
             else acc
         | None => acc
         end)
      items acc in
  fst sums = snd sums.
Proof.
  revert acc. induction items as [|[c a] items IH]; intros acc Hget Hacc;
    simpl; [exact Hacc|].
  apply IH; [intros item Hin; apply Hget; now right|].
  pose proof (Hget (c, a) (or_introl eq_refl)) as Hg. simpl in Hg.
  rewrite Hg.
  destruct (Rgtb_spec a 0) as [Hpos|_]; [|exact Hacc].
  simpl. rewrite Hacc. field. lra.
Qed.

Lemma accumulate_base W (pairs : list (nat * R)) :
  let B := of_list pairs in
  fst (accumulate_weights W B B) = snd (accumulate_weights W B B).
Proof.
  intros B. unfold accumulate_weights. apply accumulate_same_fold.
  - intros [c a] Hin. simpl. apply PyDictFacts.In_get; [|exact Hin].
    apply PyDictFacts.NoDup_keys_of_list.
  - reflexivity.
Qed.

Lemma accumulate_no_weights B A :
  snd (accumulate_weights [] B A) = 0%R.
Proof.
  unfold accumulate_weights.
  assert (Hgen : forall acc, snd acc = 0%R ->
            snd (fold_left
                   (fun acc item =>
                      match get (fst item) B with
                      | Some b =>
                          if Rgtb b 0 then
                            let weight := get_default (fst item) 0%R [] in
                            let ratio := (snd item / b)%R in
                            (fst acc + ratio * weight, snd acc + weight)%R
                          else acc
                      | None => acc
                      end) A acc) = 0%R).
  { induction A as [|item A IH]; intros acc Hacc; simpl; [exact Hacc|].
    apply IH. destruct (get (fst item) B) as [b|]; [|exact Hacc].
    destruct (Rgtb b 0); [|exact Hacc]. simpl. rewrite Hacc.
    unfold get_default. simpl. lra. }
  now apply Hgen.
Qed.

End Accumulate.

Section TmallOnTables.
Context `{Runtime}.
Variable db : Database.
Variable bd : date.

Let W : PyDict.t (K:=nat) (V:=R) := PyDict.of_list (categories db).
Let B : PyDict.t (K:=nat) (V:=R) :=
  PyDict.of_list (sql_category_averages db (Some bd)).

Lemma tmall_loop_on_tables (dates : list date) :
  tmall_loop (db_connector db) W B (Some bd) dates
  = Ok (flat_map
          (fun d =>
             let A := PyDict.of_list (sql_category_averages db (Some d)) in
             if is_empty A then []
             else [{| idx_date := strftime d;
                      idx_value :=
                        Some (py_round
                                (tmall_index_value (accumulate_weights W B A))
                                4);
                      idx_base_date := strftime bd |}])
          dates).
Proof.
  induction dates as [|d dates IH]; [reflexivity|].
  cbn [tmall_loop flat_map]. unfold _get_category_averages at 1.
  cbn [db_connector q_category_averages bind].
  destruct (is_empty (PyDict.of_list (sql_category_averages db (Some d)))).
  - rewrite IH. reflexivity.
  - cbn [strftime_obj bind]. rewrite IH. reflexivity.
Qed.

Lemma tmall_on_tables sd :
  _determine_base_date (db_connector db) sd = Ok (Some bd) ->
  is_empty W = false -> is_empty B = false ->
  calculate_tmall_index (db_connector db) sd
  = flat_map
      (fun d =>
         let A := PyDict.of_list (sql_category_averages db (Some d)) in
         if is_empty A then []
         else [{| idx_date := strftime d;
                  idx_value :=
                    Some (py_round
                            (tmall_index_value (accumulate_weights W B A)) 4);
                  idx_base_date := strftime bd |}])
      (sql_all_dates db).
Proof.
  intros Hd HW HB. unfold calculate_tmall_index, tmall_try. rewrite Hd.
  cbn [bind]. unfold _get_category_weights, _get_category_averages,
    _get_all_dates.
  cbn [db_connector q_category_weights q_category_averages q_all_dates bind].
  fold W. rewrite HW. fold B. rewrite HB.
  now rewrite tmall_loop_on_tables.
Qed.

(** A date with category averages is one of the dates of the table. *)
Lemma averages_date (d : date) :
  is_empty (PyDict.of_list (sql_category_averages db (Some d))) = false ->
  In d (sql_all_dates db).
Proof.
  rewrite PyDictFacts.is_empty_of_list. unfold sql_category_averages.
  destruct (filter (on_date (Some d)) (daily_prices db)) as [|f rows] eqn:E;
    [discriminate|].
  intros _. assert (Hf : In f (filter (on_date (Some d)) (daily_prices db))).
  { rewrite E. now left. }
  apply filter_In in Hf. destruct Hf as [Hf Hd]. simpl in Hd.
  apply In_sorted_distinct. apply in_map_iff. exists f. split; [|assumption].
  now destruct (date_eqb_spec (pf_date f) d).
Qed.

Lemma tmall_record_for_date sd d :
  _determine_base_date (db_connector db) sd = Ok (Some bd) ->
  is_empty W = false -> is_empty B = false ->
  is_empty (PyDict.of_list (sql_category_averages db (Some d))) = false ->
  In {| idx_date := strftime d;
        idx_value :=
          Some (py_round
                  (tmall_index_value
                     (accumulate_weights W B
                        (PyDict.of_list (sql_category_averages db (Some d)))))
                  4);
        idx_base_date := strftime bd |}
     (calculate_tmall_index (db_connector db) sd).
Proof.
  intros Hd HW HB HA. rewrite (tmall_on_tables _ Hd HW HB).
  apply in_flat_map. exists d. split; [now apply averages_date|].
  cbv zeta. rewrite HA. now left.
Qed.

End TmallOnTables.

(** ** The worked tables *)

Lemma mean_singleton (x : R) : mean [x] = x.
Proof. unfold mean. simpl. field. Qed.

Lemma zero_weight_averages :
  PyDict.of_list (sql_category_averages zero_weight_db (Some jan1))
  = [(1, mean [10%R])].
Proof. reflexivity. Qed.

Lemma zero_weight_total :
  snd (accumulate_weights
         (PyDict.of_list (categories zero_weight_db))
         (PyDict.of_list (sql_category_averages zero_weight_db (Some jan1)))
         (PyDict.of_list (sql_category_averages zero_weight_db (Some jan1))))
  = 0%R.
Proof.
  rewrite zero_weight_averages. unfold accumulate_weights. simpl.
  rewrite mean_singleton. rewrite Rgtb_true by lra. simpl.
  unfold PyDict.get_default. simpl. lra.
Qed.

Lemma unit_weight_total :
  snd (accumulate_weights
         (PyDict.of_list (categories unit_weight_db))
         (PyDict.of_list (sql_category_averages unit_weight_db (Some jan1)))
         (PyDict.of_list (sql_category_averages unit_weight_db (Some jan1))))
  = 1%R.
Proof.
  change (PyDict.of_list (sql_category_averages unit_weight_db (Some jan1)))
    with [(1, mean [10%R])].
  unfold accumulate_weights. simpl.
  rewrite mean_singleton. rewrite Rgtb_true by lra. simpl.
  unfold PyDict.get_default. simpl. lra.
Qed.

(** ** Claims about the Tmall engine *)

(** C3. When the engine has its weights and base averages, a date whose
    category averages are non-empty and whose accumulated [total_weight]
    is 0 gets a record with index exactly 0. *)
Theorem tmall_zero_weight_emits_zero `{Runtime} (db : Database)
  (sd : option string) (bd d : date) :
  let W := PyDict.of_list (categories db) in
  let B := PyDict.of_list (sql_category_averages db (Some bd)) in
  let A := PyDict.of_list (sql_category_averages db (Some d)) in
  _determine_base_date (db_connector db) sd = Ok (Some bd) ->
  is_empty W = false -> is_empty B = false -> is_empty A = false ->
  snd (accumulate_weights W B A) = 0%R ->
  In {| idx_date := strftime d;
        idx_value := Some 0%R;
        idx_base_date := strftime bd |}
     (calculate_tmall_index (db_connector db) sd).
Proof.
  intros W B A Hd HW HB HA Hzero.
  pose proof (tmall_record_for_date db sd d Hd HW HB HA) as Hin.
  fold W B A in Hin.
  now rewrite (tmall_index_value_zero _ Hzero), py_round_0 in Hin.
Qed.

(** One category of weight 0 on the base date. *)
Lemma tmall_zero_weight_emits_zero_witness :
  In {| idx_date := "2024-01-01"%string;
        idx_value := Some 0%R;
        idx_base_date := "2024-01-01"%string |}
     (calculate_tmall_index (H:=example_runtime) (db_connector zero_weight_db)
        None).
Proof.
  apply (tmall_zero_weight_emits_zero (H:=example_runtime) zero_weight_db
           None (bd:=jan1) jan1);
    [reflexivity | reflexivity | reflexivity | reflexivity |].
  exact zero_weight_total.
Defined.

(** C6 (amended). When the weights accumulated on the resolved base date,
    over the categories with a positive base average, have a positive
    total, [calculate_tmall_index] emits a record for the base date whose
    index is exactly 100.  When the weights and the base averages are
    non-empty and that total is not positive, the record for the base date
    has index exactly 0.  When the weights or the base averages are empty,
    no record is emitted. *)
Theorem tmall_base_date_is_100 `{Runtime} (db : Database)
  (sd : option string) (bd : date) :
  let W := PyDict.of_list (categories db) in
  let B := PyDict.of_list (sql_category_averages db (Some bd)) in
  _determine_base_date (db_connector db) sd = Ok (Some bd) ->
  ((0 < snd (accumulate_weights W B B))%R ->
   In {| idx_date := strftime bd;
         idx_value := Some 100%R;
         idx_base_date := strftime bd |}
      (calculate_tmall_index (db_connector db) sd))
  /\ (is_empty W = false -> is_empty B = false ->
      (snd (accumulate_weights W B B) <= 0)%R ->
      In {| idx_date := strftime bd;
            idx_value := Some 0%R;
            idx_base_date := strftime bd |}
         (calculate_tmall_index (db_connector db) sd))
  /\ (is_empty W = true \/ is_empty B = true ->
      calculate_tmall_index (db_connector db) sd = []).
Proof.
  intros W B Hd. split; [|split].
  - intros Hpos.
    assert (HW : is_empty W = false).
    { destruct W eqn:E; [|reflexivity].
      rewrite accumulate_no_weights in Hpos. lra. }
    assert (HB : is_empty B = false).
    { destruct B eqn:E; [|reflexivity]. simpl in Hpos. lra. }
    pose proof (tmall_record_for_date db sd bd Hd HW HB HB) as Hin.
    fold W B in Hin.
    rewrite tmall_index_value_equal, py_round_100 in Hin;
      [exact Hin | apply accumulate_base | exact Hpos].
  - intros HW HB Hle.
    pose proof (tmall_record_for_date db sd bd Hd HW HB HB) as Hin.
    fold W B in Hin. unfold tmall_index_value in Hin.
    now rewrite (Rgtb_false Hle), py_round_0 in Hin.
  - intros Hempty. unfold calculate_tmall_index, tmall_try. rewrite Hd.
    cbn [bind]. unfold _get_category_weights, _get_category_averages.
    cbn [db_connector q_category_weights q_category_averages bind].
    fold W. destruct (is_empty W); [reflexivity|]. fold B.
    destruct Hempty as [HW|HB]; [discriminate|]. now rewrite HB.
Qed.

(** One category on the base date: with weight 1 the index is 100, with
    weight 0 it is 0, and without any row in [categories] there is no
    record. *)
Lemma tmall_base_date_is_100_witness :
  In {| idx_date := "2024-01-01"%string;
        idx_value := Some 100%R;
        idx_base_date := "2024-01-01"%string |}
     (calculate_tmall_index (H:=example_runtime) (db_connector unit_weight_db)
        None)
  /\ In {| idx_date := "2024-01-01"%string;
           idx_value := Some 0%R;
           idx_base_date := "2024-01-01"%string |}
        (calculate_tmall_index (H:=example_runtime)
           (db_connector zero_weight_db) None)
  /\ calculate_tmall_index (H:=example_runtime) (db_connector no_weights_db)
       None
     = [].
Proof.
  split; [|split].
  - apply (proj1 (tmall_base_date_is_100 (H:=example_runtime) unit_weight_db
                    None (bd:=jan1) eq_refl)).
    rewrite unit_weight_total. lra.
  - apply (proj1 (proj2 (tmall_base_date_is_100 (H:=example_runtime)
                           zero_weight_db None (bd:=jan1) eq_refl)));
      [reflexivity | reflexivity |].
    rewrite zero_weight_total. lra.
  - apply (proj2 (proj2 (tmall_base_date_is_100 (H:=example_runtime)
                           no_weights_db None (bd:=jan1) eq_refl))).
    left. reflexivity.
Defined.

(** C6, as stated, fails: the base averages are non-empty and no category
    carries a nonzero weight, so every such category has a positive base
    average; yet the record of the base date has index 0. *)
Lemma tmall_base_date_counterexample :
  _determine_base_date (H:=example_runtime) (db_connector zero_weight_db) None
  = Ok (Some jan1)
  /\ is_empty (PyDict.of_list
                 (sql_category_averages zero_weight_db (Some jan1))) = false
  /\ (forall c w,
        In (c, w) (categories zero_weight_db) -> w <> 0%R ->
        exists a,
          PyDict.get c
            (PyDict.of_list (sql_category_averages zero_weight_db (Some jan1)))
          = Some a
          /\ (0 < a)%R)
  /\ calculate_tmall_index (H:=example_runtime) (db_connector zero_weight_db)
       None
     = [{| idx_date := "2024-01-01"%string;
           idx_value := Some 0%R;
           idx_base_date := "2024-01-01"%string |}]
  /\ ~ In {| idx_date := "2024-01-01"%string;
             idx_value := Some 100%R;
             idx_base_date := "2024-01-01"%string |}
          (calculate_tmall_index (H:=example_runtime)
             (db_connector zero_weight_db) None).
Proof.
  assert (Hres : calculate_tmall_index (H:=example_runtime)
                   (db_connector zero_weight_db) None
                 = [{| idx_date := "2024-01-01"%string;
                       idx_value := Some 0%R;
                       idx_base_date := "2024-01-01"%string |}]).
  { rewrite (tmall_on_tables (H:=example_runtime) zero_weight_db (bd:=jan1));
      try reflexivity.
    change (sql_all_dates zero_weight_db) with [jan1]. cbn [flat_map].
    cbv zeta.
    change (is_empty (PyDict.of_list
                        (sql_category_averages zero_weight_db (Some jan1))))
      with false.
    cbv iota. rewrite (tmall_index_value_zero _ zero_weight_total), py_round_0.
    reflexivity. }
  split; [reflexivity|]. split; [reflexivity|]. split.
  - intros c w [[= <- <-]|[]] Hw. now contradiction Hw.
  - split; [exact Hres|]. rewrite Hres. intros [E|[]].
    injection E as E. lra.
Qed.

(** ** The worked examples of the specification *)

(** One product at 10 on the base date and 12 the next day: Cavallo index
    120.0000. *)
Example cavallo_example :
  calculate_cavallo_index (H:=example_runtime) (db_connector single_product_db)
    None
  = [{| idx_date := "2024-01-01"%string; idx_value := Some 100%R;
        idx_base_date := "2024-01-01"%string |};
     {| idx_date := "2024-01-02"%string; idx_value := Some 120%R;
        idx_base_date := "2024-01-01"%string |}].
Proof.
  unfold calculate_cavallo_index.
  rewrite (cavallo_try_on_tables (H:=example_runtime) single_product_db
             (bd:=jan1)); try reflexivity.
  change (merge_on_product_id _ _)
    with [(jan1, "P1"%string, 10%R, 10%R); (jan2, "P1"%string, 12%R, 10%R)].
  unfold positive_rows. cbn [filter jr_price jr_base_price fst snd].
  rewrite !Rgtb_true by lra. cbn [andb].
  unfold groupby_date_mean.
  change (sorted_distinct _) with [jan1; jan2].
  cbn [map fst snd].
  change (filter (fun r : joined_row => eqb (jr_date r) jan1) _)
    with [(jan1, "P1"%string, 10%R, 10%R)].
  change (filter (fun r : joined_row => eqb (jr_date r) jan2) _)
    with [(jan2, "P1"%string, 12%R, 10%R)].
  cbn [map]. rewrite !mean_singleton.
  unfold log_ratio, jr_price, jr_base_price. cbn [fst snd].
  replace (exp (ln (10 / 10)) * 100)%R with (IZR 100)
    by (rewrite exp_ln by lra; lra).
  replace (exp (ln (12 / 10)) * 100)%R with (IZR 120)
    by (rewrite exp_ln by lra; lra).
  rewrite !py_round_IZR. reflexivity.
Qed.

(** Two categories, weight 1 with averages 10 then 12 and weight 3 with
    averages 20 then 20: Tmall index 105.0000. *)
Example tmall_example :
  calculate_tmall_index (H:=example_runtime) (db_connector two_day_db) None
  = [{| idx_date := "2024-01-01"%string; idx_value := Some 100%R;
        idx_base_date := "2024-01-01"%string |};
     {| idx_date := "2024-01-02"%string; idx_value := Some 105%R;
        idx_base_date := "2024-01-01"%string |}].
Proof.
  rewrite (tmall_on_tables (H:=example_runtime) two_day_db (bd:=jan1));
    try reflexivity.
  change (sql_all_dates two_day_db) with [jan1; jan2].
  cbn [flat_map app]. cbv zeta.
  change (PyDict.of_list (categories two_day_db)) with [(1, 1%R); (2, 3%R)].
  change (PyDict.of_list (sql_category_averages two_day_db (Some jan1)))
    with [(1, mean [10%R]); (2, mean [20%R])].
  change (PyDict.of_list (sql_category_averages two_day_db (Some jan2)))
    with [(1, mean [12%R]); (2, mean [20%R])].
  cbn [is_empty]. rewrite !mean_singleton.
  unfold accumulate_weights, PyDict.get_default.
  cbn [fold_left PyDict.get fst snd eqb nat_Eqb Nat.eqb].
  rewrite !Rgtb_true by lra. cbn [fst snd].
  unfold tmall_index_value. cbn [fst snd].
  rewrite !Rgtb_true by lra.
  replace ((0 + 10 / 10 * 1 + 20 / 20 * 3) / (0 + 1 + 3) * 100)%R
    with (IZR 100) by lra.
  replace ((0 + 12 / 10 * 1 + 20 / 20 * 3) / (0 + 1 + 3) * 100)%R
    with (IZR 105) by lra.
  rewrite !py_round_IZR. reflexivity.
Qed.

(** * Part III: further properties of the code *)

(** ** The order on dates *)

Lemma date_ltb_spec (a b : date) :
  date_ltb a b = true
  <-> year a < year b
      \/ (year a = year b
          /\ (month a < month b \/ (month a = month b /\ day a < day b))).
Proof.
  unfold date_ltb.
  rewrite orb_true_iff, andb_true_iff, orb_true_iff, andb_true_iff.
  rewrite !Nat.ltb_lt, !Nat.eqb_eq. reflexivity.
Qed.

Lemma date_lt_irrefl (a : date) : ~ date_lt a a.
Proof. unfold date_lt. rewrite date_ltb_spec. lia. Qed.

Lemma date_lt_trans (a b c : date) : date_lt a b -> date_lt b c -> date_lt a c.
Proof. unfold date_lt. rewrite !date_ltb_spec. lia. Qed.

Lemma date_lt_total (a b : date) : a <> b -> ~ date_lt a b -> date_lt b a.
Proof.
  unfold date_lt. rewrite !date_ltb_spec. intros Hne Hnlt.
  destruct a as [y m d], b as [y' m' d']. simpl in *.
  assert (Hd : ~ (y = y' /\ m = m' /\ d = d')) by (intros [-> [-> ->]]; auto).
  lia.
Qed.

Lemma insert_date_sorted (d : date) (l : list date) :
  StronglySorted date_lt l -> StronglySorted date_lt (insert_date d l).
Proof.
  induction 1 as [|x l Hs IH Hall]; simpl.
  - repeat constructor.
  - destruct (date_eqb_spec d x) as [->|Hne]; [now constructor|].
    destruct (date_ltb d x) eqn:Hlt.
    + constructor; [now constructor|]. constructor; [exact Hlt|].
      eapply Forall_impl; [|exact Hall]. intros y Hy.
      exact (date_lt_trans Hlt Hy).
    + constructor; [exact IH|]. apply Forall_forall. intros y Hy.
      apply In_insert_date in Hy. destruct Hy as [->|Hy].
      * apply date_lt_total; [assumption | unfold date_lt; congruence].
      * rewrite Forall_forall in Hall. now apply Hall.
Qed.

Lemma sorted_distinct_sorted (l : list date) :
  StronglySorted date_lt (sorted_distinct l).
Proof.
  induction l as [|d l IH]; simpl; [constructor | now apply insert_date_sorted].
Qed.

(** ** Further properties of the Cavallo engine *)

(** X1. Whatever the connector returns, [calculate_cavallo_index] emits its
    records in strictly ascending date order, one per date, and every
    record carries the resolved base date. *)
Theorem cavallo_records_ascending `{Runtime} (ch : Connector)
  (sd : option string) :
  exists dates,
    StronglySorted date_lt dates
    /\ map idx_date (calculate_cavallo_index ch sd) = map strftime dates
    /\ Forall (fun r =>
                 exists bd,
                   _determine_base_date ch sd = Ok (Some bd)
                   /\ idx_base_date r = strftime bd)
              (calculate_cavallo_index ch sd).
Proof.
  unfold calculate_cavallo_index, cavallo_try.
  destruct (_determine_base_date ch sd) as [bd|e]; simpl;
    [|exists []; repeat constructor].
  destruct (_get_base_prices ch bd) as [bp|e]; simpl;
    [|exists []; repeat constructor].
  destruct (is_empty bp); [exists []; repeat constructor|].
  destruct (fetch_price_rows ch _) as [rows|e]; simpl;
    [|exists []; repeat constructor].
  destruct (is_empty rows); [exists []; repeat constructor|].
  destruct bd as [bd|]; simpl; [|exists []; repeat constructor].
  exists (sorted_distinct
            (map jr_date (positive_rows (merge_on_product_id rows bp)))).
  split; [apply sorted_distinct_sorted|]. split.
  - unfold groupby_date_mean. rewrite !map_map. reflexivity.
  - apply Forall_forall. intros r Hr. apply in_map_iff in Hr.
    destruct Hr as [g [<- _]]. exists bd. split; reflexivity.
Qed.

Lemma round_half_even_nonneg (x : R) : (0 <= x)%R -> (0 <= round_half_even x)%Z.
Proof.
  intros Hx. unfold round_half_even.
  assert (Hn : (0 <= Int_part x)%Z).
  { destruct (base_Int_part x) as [_ Hgt].
    assert (Hlt : (-1 < IZR (Int_part x))%R) by lra.
    apply lt_IZR in Hlt. lia. }
  destruct (Rlt_dec (frac_part x) (1 / 2)); [assumption|].
  destruct (Rlt_dec (1 / 2) (frac_part x)); [lia|].
  destruct (Z.even (Int_part x)); lia.
Qed.

Lemma py_round_nonneg (x : R) (ndigits : nat) :
  (0 <= x)%R -> (0 <= py_round x ndigits)%R.
Proof.
  intros Hx. unfold py_round.
  assert (Hp : (0 < 10 ^ ndigits)%R) by (apply pow_lt; lra).
  apply Rmult_le_pos.
  - apply IZR_le. apply round_half_even_nonneg.
    apply Rmult_le_pos; lra.
  - apply Rlt_le. now apply Rinv_0_lt_compat.
Qed.

Lemma cavallo_values_shape `{Runtime} (ch : Connector) (sd : option string) :
  Forall (fun r => exists m, idx_value r = Some (py_round (exp m * 100) 4))
         (calculate_cavallo_index ch sd).
Proof.
  unfold calculate_cavallo_index, cavallo_try.
  destruct (_determine_base_date ch sd) as [bd|e]; simpl; [|constructor].
  destruct (_get_base_prices ch bd) as [bp|e]; simpl; [|constructor].
  destruct (is_empty bp); [constructor|].
  destruct (fetch_price_rows ch _) as [rows|e]; simpl; [|constructor].
  destruct (is_empty rows); [constructor|].
  destruct (strftime_obj bd) as [bds|e]; simpl; [|constructor].
  apply Forall_forall. intros r Hr. apply in_map_iff in Hr.
  destruct Hr as [[d m] [<- _]]. now exists m.
Qed.

(** X2. No Cavallo index value is negative: each is the rounding of a
    positive number. *)
Theorem cavallo_values_nonnegative `{Runtime} (ch : Connector)
  (sd : option string) :
  Forall (fun r => exists v, idx_value r = Some v /\ (0 <= v)%R)
         (calculate_cavallo_index ch sd).
Proof.
  eapply Forall_impl; [|apply cavallo_values_shape].
  intros r [m Hv]. eexists. split; [exact Hv|].
  apply py_round_nonneg. apply Rmult_le_pos; [|lra].
  apply Rlt_le. apply exp_pos.
Qed.

Section CavalloRows.
Variable db : Database.

Lemma price_rows_of_products (pids : list string) (row : date * string * R) :
  In row (flat_map (sql_prices_in db) (batches batch_size pids))
  <-> exists f, In f (daily_prices db)
                /\ row = (pf_date f, pf_product_id f, pf_price f)
                /\ In (pf_product_id f) pids.
Proof.
  rewrite in_flat_map. split.
  - intros [b [Hb Hrow]]. unfold sql_prices_in in Hrow.
    apply in_map_iff in Hrow. destruct Hrow as [f [<- Hf]].
    apply filter_In in Hf. destruct Hf as [Hf Hm]. exists f.
    repeat split; [assumption|]. apply mem_In in Hm.
    apply (In_batches (n:=batch_size)); [unfold batch_size; lia|]. eauto.
  - intros [f [Hf [-> Hin]]].
    apply (In_batches (n:=batch_size)) in Hin; [|unfold batch_size; lia].
    destruct Hin as [b [Hb Hin]]. exists b. split; [assumption|].
    unfold sql_prices_in. apply in_map_iff. exists f. split; [reflexivity|].
    apply filter_In. split; [assumption | now apply mem_In].
Qed.

Lemma In_merge_on_product_id (rows : list (date * string * R))
  (base : list (string * R)) (row : date * string * R) (bp : R) :
  In (row, bp) (merge_on_product_id rows base)
  <-> In row rows /\ In (snd (fst row), bp) base.
Proof.
  unfold merge_on_product_id. rewrite in_flat_map. split.
  - intros [r [Hr Hin]]. apply in_map_iff in Hin.
    destruct Hin as [[pid b] [[= <- <-] Hb]]. apply filter_In in Hb.
    destruct Hb as [Hb Heq]. simpl in Heq. apply eqb_eq in Heq. subst pid.
    now split.
  - intros [Hr Hb]. exists row. split; [assumption|]. apply in_map_iff.
    exists (snd (fst row), bp). split; [reflexivity|]. apply filter_In.
    split; [assumption|]. simpl. apply (eqb_refl (K:=string)).
Qed.

End CavalloRows.

(** X3. On the tables, a date gets a Cavallo record exactly when some fact
    of that date has a positive price and a product whose base price is
    positive; every other date is absent from the result. *)
Theorem cavallo_dates_on_tables `{Runtime} (db : Database)
  (sd : option string) (bd : date) :
  _determine_base_date (db_connector db) sd = Ok (Some bd) ->
  exists dates,
    map idx_date (calculate_cavallo_index (db_connector db) sd)
    = map strftime dates
    /\ forall d,
         In d dates
         <-> exists f bp,
               In f (daily_prices db) /\ pf_date f = d /\ (0 < pf_price f)%R
               /\ PyDict.get (pf_product_id f)
                    (PyDict.of_list (sql_base_prices db (Some bd)))
                  = Some bp
               /\ (0 < bp)%R.
Proof.
  intros Hd. unfold calculate_cavallo_index, cavallo_try. rewrite Hd.
  cbn [bind]. unfold _get_base_prices. cbn [db_connector q_base_prices bind].
  set (base := PyDict.of_list (sql_base_prices db (Some bd))).
  rewrite fetch_price_rows_db.
  set (rows := flat_map (sql_prices_in db)
                 (batches batch_size (PyDict.keys base))).
  assert (Hdf : forall (r : joined_row),
            In r (positive_rows (merge_on_product_id rows base))
            <-> exists f bp,
                  r = (pf_date f, pf_product_id f, pf_price f, bp)
                  /\ In f (daily_prices db) /\ (0 < pf_price f)%R
                  /\ PyDict.get (pf_product_id f) base = Some bp
                  /\ (0 < bp)%R).
  { intros [row bp]. unfold positive_rows. rewrite filter_In.
    rewrite In_merge_on_product_id. unfold rows.
    rewrite price_rows_of_products. unfold jr_price, jr_base_price.
    cbn [fst snd]. rewrite andb_true_iff. split.
    - intros [[[f [Hf [-> Hk]]] Hb] [Hp Hq]]. exists f, bp. cbn [fst snd] in *.
      destruct (Rgtb_spec (pf_price f) 0); [|discriminate].
      destruct (Rgtb_spec bp 0); [|discriminate].
      repeat split; try assumption.
      apply PyDictFacts.In_get; [apply PyDictFacts.NoDup_keys_of_list|].
      assumption.
    - intros [f [bp' [[= -> ->] [Hf [Hp [Hg Hb]]]]]]. cbn [fst snd].
      apply PyDictFacts.get_Some_In in Hg.
      repeat split; try (now apply Rgtb_true); try assumption.
      exists f. repeat split; [assumption|].
      change (pf_product_id f) with (fst (pf_product_id f, bp')).
      now apply in_map. }
  assert (Hnone : forall d,
            is_empty base = true \/ is_empty rows = true ->
            ~ exists f bp,
                In f (daily_prices db) /\ pf_date f = d /\ (0 < pf_price f)%R
                /\ PyDict.get (pf_product_id f) base = Some bp /\ (0 < bp)%R).
  { intros d Hempty [f [bp [Hf [_ [_ [Hg _]]]]]].
    apply PyDictFacts.get_Some_In in Hg.
    assert (Hrow : In (pf_date f, pf_product_id f, pf_price f) rows).
    { apply price_rows_of_products. exists f. repeat split; [assumption|].
      change (pf_product_id f) with (fst (pf_product_id f, bp)).
      now apply in_map. }
    destruct Hempty as [He|He].
    - destruct base; [destruct Hg | discriminate].
    - destruct rows; [destruct Hrow | discriminate]. }
  destruct (is_empty base) eqn:Hb.
  { exists []. split; [reflexivity|]. intros d. split; [intros []|].
    intros Hex. exfalso. apply (Hnone d); auto. }
  cbn [bind]. destruct (is_empty rows) eqn:Hr.
  { exists []. split; [reflexivity|]. intros d. split; [intros []|].
    intros Hex. exfalso. apply (Hnone d); auto. }
  cbn [strftime_obj bind].
  exists (sorted_distinct
            (map jr_date (positive_rows (merge_on_product_id rows base)))).
  split.
  - unfold groupby_date_mean. rewrite !map_map. reflexivity.
  - intros d. rewrite In_sorted_distinct, in_map_iff. split.
    + intros [r [<- Hin]]. apply Hdf in Hin.
      destruct Hin as [f [bp [-> Hrest]]]. exists f, bp. tauto.
    + intros [f [bp [Hf [<- Hrest]]]].
      exists (pf_date f, pf_product_id f, pf_price f, bp).
      split; [reflexivity|]. apply Hdf. exists f, bp. tauto.
Qed.

Lemma cavallo_dates_on_tables_witness :
  exists dates,
    map idx_date
      (calculate_cavallo_index (H:=example_runtime) (db_connector two_day_db)
         None)
    = map strftime_ymd dates
    /\ forall d,
         In d dates
         <-> exists f bp,
               In f (daily_prices two_day_db) /\ pf_date f = d
               /\ (0 < pf_price f)%R
               /\ PyDict.get (pf_product_id f)
                    (PyDict.of_list (sql_base_prices two_day_db (Some jan1)))
                  = Some bp
               /\ (0 < bp)%R.
Proof.
  apply (cavallo_dates_on_tables (H:=example_runtime) two_day_db None
           (bd:=jan1)).
  reflexivity.
Defined.

(** ** The geometric mean *)

Lemma exp_INR_mult (n : nat) (x : R) : (exp x ^ n = exp (INR n * x))%R.
Proof.
  induction n as [|n IH].
  - simpl. now rewrite Rmult_0_l, exp_0.
  - rewrite S_INR. cbn [pow]. rewrite IH, <- exp_plus. f_equal. lra.
Qed.

Lemma exp_Rsum_ln (rs : list R) :
  Forall (fun r => 0 < r)%R rs -> exp (Rsum (map ln rs)) = Rprod rs.
Proof.
  induction 1 as [|r rs Hr _ IH]; simpl.
  - apply exp_0.
  - now rewrite exp_plus, exp_ln, IH.
Qed.

Lemma exp_mean_ln (rs : list R) :
  rs <> [] -> Forall (fun r => 0 < r)%R rs ->
  (exp (mean (map ln rs)) ^ List.length rs = Rprod rs)%R.
Proof.
  intros Hne Hpos. rewrite exp_INR_mult, <- (exp_Rsum_ln Hpos).
  f_equal. unfold mean. rewrite length_map. field.
  apply not_0_INR. destruct rs; [congruence | discriminate].
Qed.

(** X4. The value the Cavallo engine computes for a date is the geometric
    mean of the price relatives of that date: raised to the number of the
    date's surviving rows, the exponential of the mean log ratio is the
    product of [price / base_price] over these rows. *)
Theorem cavallo_geometric_mean (df : list joined_row) (d : date) (m : R) :
  In (d, m) (groupby_date_mean (positive_rows df)) ->
  let group :=
    filter (fun r => eqb (jr_date r) d) (positive_rows df) in
  group <> []
  /\ (exp m ^ List.length group
      = Rprod (map (fun r => jr_price r / jr_base_price r) group))%R.
Proof.
  intros Hin group. unfold groupby_date_mean in Hin.
  apply in_map_iff in Hin. destruct Hin as [d' [[= -> <-] Hd]].
  rewrite In_sorted_distinct in Hd. apply in_map_iff in Hd.
  destruct Hd as [r [Hrd Hr]].
  assert (Hne : group <> []).
  { intros Hnil. assert (Hg : In r group).
    { apply filter_In. split; [assumption|]. now apply eqb_eq. }
    rewrite Hnil in Hg. destruct Hg. }
  split; [exact Hne|]. fold group.
  replace (map log_ratio group)
    with (map ln (map (fun r => jr_price r / jr_base_price r)%R group))
    by (rewrite map_map; reflexivity).
  rewrite <- (length_map (fun r => jr_price r / jr_base_price r)%R group).
  apply exp_mean_ln.
  - intros Hnil. apply map_eq_nil in Hnil. contradiction.
  - apply Forall_forall. intros x Hx. apply in_map_iff in Hx.
    destruct Hx as [r' [<- Hr']]. apply filter_In in Hr'.
    destruct Hr' as [Hr' _]. unfold positive_rows in Hr'.
    apply filter_In in Hr'. destruct Hr' as [_ Hp].
    apply andb_true_iff in Hp. destruct Hp as [Hp Hq].
    destruct (Rgtb_spec (jr_price r') 0); [|discriminate].
    destruct (Rgtb_spec (jr_base_price r') 0); [|discriminate].
    now apply Rdiv_lt_0_compat.
Qed.

Lemma two_joined_rows_positive : positive_rows two_joined_rows = two_joined_rows.
Proof.
  unfold positive_rows, two_joined_rows. cbn [filter jr_price jr_base_price
    fst snd]. rewrite !Rgtb_true by lra. reflexivity.
Qed.

Lemma two_joined_rows_group :
  groupby_date_mean (positive_rows two_joined_rows)
  = [(jan2, mean [ln (12 / 10); ln (30 / 20)])].
Proof. rewrite two_joined_rows_positive. reflexivity. Qed.

(** Two products on 2 January with price relatives 1.2 and 1.5: the group
    has both rows, and the square of the exponential of the mean log ratio
    is their product 1.2 * 1.5. *)
Lemma cavallo_geometric_mean_witness :
  filter (fun r => eqb (jr_date r) jan2) (positive_rows two_joined_rows)
  = two_joined_rows
  /\ (let group :=
        filter (fun r => eqb (jr_date r) jan2)
               (positive_rows two_joined_rows) in
      group <> []
      /\ (exp (mean [ln (12 / 10); ln (30 / 20)]) ^ List.length group
          = Rprod (map (fun r => jr_price r / jr_base_price r) group))%R).
Proof.
  split.
  - rewrite two_joined_rows_positive. reflexivity.
  - apply (cavallo_geometric_mean two_joined_rows jan2).
    rewrite two_joined_rows_group. now left.
Defined.

(** ** Products without a base price *)

Lemma min_date_In (d : date) (l : list date) : In (min_date d l) (d :: l).
Proof.
  revert d. induction l as [|x l IH]; intros d; simpl; [now left|].
  destruct (IH (if date_ltb x d then x else d)) as [Hm|Hm].
  - rewrite <- Hm. destruct (date_ltb x d); auto.
  - right. now right.
Qed.

Lemma min_date_le_head (d : date) (l : list date) :
  ~ date_lt d (min_date d l).
Proof.
  revert d. induction l as [|x l IH]; intros d; simpl.
  - apply date_lt_irrefl.
  - destruct (date_ltb x d) eqn:Hx.
    + intros Hlt. apply (@IH x). exact (date_lt_trans Hx Hlt).
    + apply IH.
Qed.

Lemma min_date_least (d : date) (l : list date) (x : date) :
  In x (d :: l) -> ~ date_lt x (min_date d l).
Proof.
  revert d. induction l as [|y l IH]; intros d; simpl.
  - intros [<-|[]]. apply date_lt_irrefl.
  - intros [Hx|[Hx|Hin]].
    + subst x. destruct (date_ltb y d) eqn:Hy.
      * intros Hlt. apply (@min_date_le_head y l).
        exact (date_lt_trans Hy Hlt).
      * apply min_date_le_head.
    + subst x. destruct (date_ltb y d) eqn:Hyd.
      * apply min_date_le_head.
      * intros Hlt. destruct (date_eqb_spec y d) as [->|Hne].
        -- now apply (@min_date_le_head d l).
        -- apply (@min_date_le_head d l).
           apply date_lt_trans with y; [|exact Hlt].
           apply date_lt_total; [congruence | unfold date_lt; congruence].
    + apply IH. now right.
Qed.

Lemma least_date_unique (l : list date) (m m' : date) :
  In m l -> In m' l ->
  (forall x, In x l -> ~ date_lt x m) ->
  (forall x, In x l -> ~ date_lt x m') -> m = m'.
Proof.
  intros Hm Hm' Hl Hl'. destruct (date_eqb_spec m m') as [|Hne]; [assumption|].
  exfalso. apply (Hl' m Hm). apply date_lt_total; [congruence|]. now apply Hl.
Qed.

Section RestrictToBase.
Context `{Runtime}.
Variable db : Database.
Variable bd : date.

Let K : list string :=
  PyDict.keys (PyDict.of_list (sql_base_prices db (Some bd))).

Lemma base_fact_key (f : PriceFact) :
  In f (daily_prices db) -> pf_date f = bd -> In (pf_product_id f) K.
Proof.
  intros Hf Hd. apply PyDictFacts.In_keys_of_list. unfold sql_base_prices.
  rewrite map_map. apply in_map_iff. exists f. split; [reflexivity|].
  apply filter_In. split; [assumption|]. simpl. rewrite Hd.
  apply (eqb_refl (K:=date)).
Qed.

Lemma restrict_base_prices :
  sql_base_prices (restrict_to_base db (Some bd)) (Some bd)
  = sql_base_prices db (Some bd).
Proof.
  unfold sql_base_prices, restrict_to_base. cbn [daily_prices]. fold K.
  f_equal. rewrite filter_twice. apply filter_ext_in. intros f Hf.
  destruct (on_date (Some bd) f) eqn:Hd; [|apply andb_false_r].
  rewrite andb_true_r. apply mem_In. apply base_fact_key; [assumption|].
  simpl in Hd. now destruct (date_eqb_spec (pf_date f) bd).
Qed.

Lemma restrict_prices_in (batch : list string) :
  (forall p, In p batch -> In p K) ->
  sql_prices_in (restrict_to_base db (Some bd)) batch = sql_prices_in db batch.
Proof.
  intros Hsub. unfold sql_prices_in, restrict_to_base. cbn [daily_prices].
  fold K. f_equal. rewrite filter_twice. apply filter_ext_in. intros f Hf.
  destruct (mem (pf_product_id f) batch) eqn:Hb; [|apply andb_false_r].
  rewrite andb_true_r. apply mem_In. apply Hsub. now apply mem_In.
Qed.

Lemma restrict_min_date :
  sql_min_date db = [Some bd] ->
  sql_min_date (restrict_to_base db (Some bd)) = [Some bd].
Proof.
  unfold sql_min_date, restrict_to_base. cbn [daily_prices]. fold K.
  destruct (daily_prices db) as [|f0 facts] eqn:Hfacts.
  - simpl. auto.
  - cbn [map]. intros [= Hmin].
    set (all := f0 :: facts) in *.
    assert (Hin : In bd (map pf_date all)).
    { rewrite <- Hmin. apply min_date_In. }
    assert (Hleast : forall x, In x (map pf_date all) -> ~ date_lt x bd).
    { intros x Hx. rewrite <- Hmin. now apply min_date_least. }
    set (kept := filter (fun f => mem (pf_product_id f) K) all).
    assert (Hsub : forall x, In x (map pf_date kept) -> In x (map pf_date all)).
    { intros x Hx. apply in_map_iff in Hx. destruct Hx as [f [<- Hf]].
      apply filter_In in Hf. apply in_map. tauto. }
    assert (Hbd : In bd (map pf_date kept)).
    { apply in_map_iff in Hin. destruct Hin as [f [Hd Hf]].
      apply in_map_iff. exists f. split; [assumption|]. apply filter_In.
      split; [assumption|]. apply mem_In. apply base_fact_key; [|assumption].
      now rewrite Hfacts. }
    destruct (map pf_date kept) as [|d l] eqn:Hk; [destruct Hbd|].
    do 2 f_equal. apply (least_date_unique (d :: l)).
    + apply min_date_In.
    + assumption.
    + intros x Hx. now apply min_date_least.
    + intros x Hx. apply Hleast. now apply Hsub.
Qed.

Lemma restrict_determine (sd : option string) :
  _determine_base_date (db_connector db) sd = Ok (Some bd) ->
  _determine_base_date (db_connector (restrict_to_base db (Some bd))) sd
  = Ok (Some bd).
Proof.
  assert (Hq : _determine_base_date (db_connector db) None = Ok (Some bd) ->
               _determine_base_date
                 (db_connector (restrict_to_base db (Some bd))) None
               = Ok (Some bd)).
  { cbn [_determine_base_date db_connector q_min_date bind].
    intros Hd.
    assert (Hm : sql_min_date db = [Some bd]).
    { unfold sql_min_date in *. destruct (map pf_date (daily_prices db));
        now injection Hd as ->. }
    now rewrite (restrict_min_date Hm). }
  destruct sd as [[|c s]|]; auto.
Qed.

Lemma restrict_flat_map (bs : list (list string)) :
  (forall b, In b bs -> forall p, In p b -> In p K) ->
  flat_map (sql_prices_in (restrict_to_base db (Some bd))) bs
  = flat_map (sql_prices_in db) bs.
Proof.
  induction bs as [|b bs IH]; intros Hsub; simpl; [reflexivity|].
  rewrite IH by (intros b' Hb'; apply Hsub; now right).
  rewrite restrict_prices_in by (apply Hsub; now left). reflexivity.
Qed.

Lemma restrict_cavallo (sd : option string) :
  _determine_base_date (db_connector db) sd = Ok (Some bd) ->
  calculate_cavallo_index (db_connector (restrict_to_base db (Some bd))) sd
  = calculate_cavallo_index (db_connector db) sd.
Proof.
  intros Hd. unfold calculate_cavallo_index, cavallo_try.
  rewrite (restrict_determine _ Hd), Hd. cbn [bind].
  unfold _get_base_prices. cbn [db_connector q_base_prices bind].
  rewrite restrict_base_prices, !fetch_price_rows_db.
  rewrite restrict_flat_map; [reflexivity|].
  intros b Hb p Hp. apply (In_batches (n:=batch_size));
    [unfold batch_size; lia | eauto].
Qed.

End RestrictToBase.

(** X5. Facts of products that have no price on the base date do not
    influence the Cavallo index: removing them from [daily_prices] leaves
    the result unchanged. *)
Theorem cavallo_ignores_products_without_base_price `{Runtime}
  (db : Database) (sd : option string) (bd : date) :
  _determine_base_date (db_connector db) sd = Ok (Some bd) ->
  calculate_cavallo_index (db_connector (restrict_to_base db (Some bd))) sd
  = calculate_cavallo_index (db_connector db) sd.
Proof. apply restrict_cavallo. Qed.

(** A product first priced on 2 January, base date 1 January. *)
Lemma cavallo_ignores_products_without_base_price_witness :
  calculate_cavallo_index (H:=example_runtime)
    (db_connector (restrict_to_base late_product_db (Some jan1))) None
  = calculate_cavallo_index (H:=example_runtime)
      (db_connector late_product_db) None.
Proof.
  apply (cavallo_ignores_products_without_base_price (H:=example_runtime)
           late_product_db None (bd:=jan1)).
  reflexivity.
Defined.

(** ** Further properties of the Tmall engine *)

Section TmallMore.
Context `{Runtime}.

Lemma tmall_loop_err (ch : Connector) W B bd dates d e :
  In d dates -> q_category_averages ch (Some d) = Err e ->
  exists e', tmall_loop ch W B bd dates = Err e'.
Proof.
  induction dates as [|x dates IH]; simpl; [tauto|].
  intros [->|Hin] Herr; unfold _get_category_averages at 1.
  - rewrite Herr. simpl. eauto.
  - destruct (q_category_averages ch (Some x)) as [avg|e0]; simpl; [|eauto].
    destruct (IH Hin Herr) as [e' He'].
    destruct (is_empty (PyDict.of_list avg)); [eauto|].
    destruct (strftime_obj bd); simpl; [|eauto]. rewrite He'. simpl. eauto.
Qed.

Lemma date_has_averages (db : Database) (d : date) :
  In d (sql_all_dates db) ->
  is_empty (PyDict.of_list (sql_category_averages db (Some d))) = false.
Proof.
  intros Hd. unfold sql_all_dates in Hd. rewrite In_sorted_distinct in Hd.
  apply in_map_iff in Hd.
  destruct Hd as [f [Hfd Hf]]. rewrite PyDictFacts.is_empty_of_list.
  unfold sql_category_averages.
  assert (Hin : In f (filter (on_date (Some d)) (daily_prices db))).
  { apply filter_In. split; [assumption|]. simpl. rewrite Hfd.
    apply (eqb_refl (K:=date)). }
  destruct (filter (on_date (Some d)) (daily_prices db)); [destruct Hin|].
  reflexivity.
Qed.

End TmallMore.

(** X6. On the tables, once the weights and the base averages are there,
    [calculate_tmall_index] emits exactly one record per distinct date of
    [daily_prices], in strictly ascending date order, each carrying the
    resolved base date. *)
Theorem tmall_one_record_per_date `{Runtime} (db : Database)
  (sd : option string) (bd : date) :
  _determine_base_date (db_connector db) sd = Ok (Some bd) ->
  is_empty (PyDict.of_list (categories db)) = false ->
  is_empty (PyDict.of_list (sql_category_averages db (Some bd))) = false ->
  map idx_date (calculate_tmall_index (db_connector db) sd)
  = map strftime (sql_all_dates db)
  /\ StronglySorted date_lt (sql_all_dates db)
  /\ Forall (fun r => idx_base_date r = strftime bd)
            (calculate_tmall_index (db_connector db) sd).
Proof.
  intros Hd HW HB. rewrite (tmall_on_tables db sd Hd HW HB).
  assert (Hall : Forall (fun d => In d (sql_all_dates db)) (sql_all_dates db))
    by (apply Forall_forall; auto).
  split; [|split; [apply sorted_distinct_sorted|]].
  - cbv zeta. revert Hall. generalize (sql_all_dates db) at 2 3 4.
    induction l as [|d l IH]; intros Hall; [reflexivity|].
    inversion Hall as [|? ? Hin Hrest]; subst. cbn [flat_map map].
    rewrite (date_has_averages _ _ Hin). cbn [app map idx_date].
    now rewrite IH.
  - apply Forall_forall. intros r Hr. apply in_flat_map in Hr.
    destruct Hr as [d [_ Hr]]. cbv zeta in Hr.
    destruct (is_empty (PyDict.of_list (sql_category_averages db (Some d))));
      [destruct Hr|]. destruct Hr as [<-|[]].
    reflexivity.
Qed.

Lemma tmall_one_record_per_date_witness :
  map idx_date
    (calculate_tmall_index (H:=example_runtime) (db_connector two_day_db) None)
  = map strftime_ymd (sql_all_dates two_day_db)
  /\ StronglySorted date_lt (sql_all_dates two_day_db)
  /\ Forall (fun r => idx_base_date r = strftime_ymd jan1)
            (calculate_tmall_index (H:=example_runtime)
               (db_connector two_day_db) None).
Proof.
  apply (tmall_one_record_per_date (H:=example_runtime) two_day_db None
           (bd:=jan1)); reflexivity.
Defined.

(** X7. [calculate_tmall_index] returns the empty list when resolving the
    base date raises, when the weights or the base averages are empty or
    their query raises, when the dates query raises, and when the averages
    query of any single date raises: one failing date discards the records
    of all dates. *)
Theorem tmall_fail_soft `{Runtime} (ch : Connector) (sd : option string) :
  (exists e, _determine_base_date ch sd = Err e)
  \/ (exists e, q_category_weights ch = Err e)
  \/ q_category_weights ch = Ok []
  \/ (exists bd,
        _determine_base_date ch sd = Ok bd
        /\ ((exists e, q_category_averages ch bd = Err e)
            \/ q_category_averages ch bd = Ok []))
  \/ (exists e, q_all_dates ch = Err e)
  \/ (exists dates d e,
        q_all_dates ch = Ok dates /\ In d dates
        /\ q_category_averages ch (Some d) = Err e) ->
  calculate_tmall_index ch sd = [].
Proof.
  unfold calculate_tmall_index, tmall_try.
  intros Hcase.
  destruct (_determine_base_date ch sd) as [bd|e0] eqn:Hd; [|reflexivity].
  cbn [bind]. unfold _get_category_weights.
  destruct (q_category_weights ch) as [ws|e1] eqn:Hw; [|reflexivity].
  cbn [bind]. destruct (is_empty (PyDict.of_list ws)) eqn:HeW; [reflexivity|].
  unfold _get_category_averages at 1.
  destruct (q_category_averages ch bd) as [avg|e2] eqn:Ha; [|reflexivity].
  cbn [bind]. destruct (is_empty (PyDict.of_list avg)) eqn:HeB; [reflexivity|].
  unfold _get_all_dates.
  destruct (q_all_dates ch) as [dates|e3] eqn:Hq; [|reflexivity].
  cbn [bind].
  destruct Hcase as [[e He]|[[e He]|[He|[[bd' [Hbd Hb]]|[[e He]|Hloop]]]]];
    try discriminate.
  - injection He as ->. discriminate.
  - injection Hbd as <-. destruct Hb as [[e He]|He]; [congruence|].
    rewrite Ha in He. injection He as ->. discriminate.
  - destruct Hloop as [dates' [d [e [[= <-] [Hin Herr]]]]].
    destruct (tmall_loop_err ch (PyDict.of_list ws) (PyDict.of_list avg) bd
                dates d Hin Herr) as [e' ->].
    reflexivity.
Qed.

Lemma tmall_fail_soft_witness :
  calculate_tmall_index (H:=example_runtime) failing_weights_connector None
  = [].
Proof.
  apply (tmall_fail_soft (H:=example_runtime)).
  right. left. eexists. reflexivity.
Defined.

Section TmallSums.
Import PyDict.
Implicit Types (W B A : PyDict.t (K:=nat) (V:=R)).

(** One iteration of the loop over [current_avg.items()]. *)
Lemma accumulate_app W B A (item : nat * R) :
  accumulate_weights W B (A ++ [item])
  = let acc := accumulate_weights W B A in
    match get (fst item) B with
    | Some b =>
        if Rgtb b 0 then
          (fst acc + snd item / b * get_default (fst item) 0%R W,
           snd acc + get_default (fst item) 0%R W)%R
        else acc
    | None => acc
    end.
Proof. unfold accumulate_weights. now rewrite fold_left_app. Qed.

Lemma get_default_undeclared W (c : nat) :
  contains c W = false -> get_default c 0%R W = 0%R.
Proof.
  unfold contains, get_default. destruct (get c W); [discriminate|reflexivity].
Qed.

Lemma get_default_nonneg W (c : nat) :
  (forall c' w, In (c', w) W -> (0 <= w)%R) -> (0 <= get_default c 0%R W)%R.
Proof.
  intros Hpos. unfold get_default. destruct (get c W) as [w|] eqn:Hg; [|lra].
  apply PyDictFacts.get_Some_In in Hg. eauto.
Qed.

End TmallSums.

(** X8. In the Tmall loop a category that is missing from the base
    averages, has a base average that is not positive, or has no declared
    weight leaves [weighted_sum] and [total_weight] unchanged: the sums are
    those of the contributing categories alone. *)
Theorem tmall_skips_non_contributing
  (W B A : PyDict.t (K:=nat) (V:=R)) :
  accumulate_weights W B A
  = accumulate_weights W B (filter (contributes W B) A).
Proof.
  induction A as [|item A IH] using rev_ind; [reflexivity|].
  rewrite filter_app. cbn [filter]. unfold contributes at 2.
  rewrite accumulate_app. cbv zeta.
  destruct (PyDict.get (fst item) B) as [b|] eqn:Hg.
  - destruct (Rgtb b 0) eqn:Hb; cbn [andb].
    + destruct (PyDict.contains (fst item) W) eqn:Hc.
      * rewrite accumulate_app. cbv zeta. rewrite Hg, Hb, <- IH. reflexivity.
      * rewrite app_nil_r, <- IH, (get_default_undeclared _ _ Hc).
        destruct (accumulate_weights W B A) as [ws tw]. cbn [fst snd].
        f_equal; lra.
    + now rewrite app_nil_r.
  - now rewrite app_nil_r.
Qed.

Lemma accumulate_bounds (W B A : PyDict.t (K:=nat) (V:=R)) (lo hi : R) :
  (forall c w, In (c, w) W -> (0 <= w)%R) ->
  (forall c a b,
     In (c, a) A -> PyDict.get c B = Some b -> (0 < b)%R ->
     (lo <= a / b <= hi)%R) ->
  let sums := accumulate_weights W B A in
  (0 <= snd sums /\ lo * snd sums <= fst sums <= hi * snd sums)%R.
Proof.
  intros HW. induction A as [|item A IH] using rev_ind; intros Hr.
  - simpl. lra.
  - rewrite accumulate_app. cbv zeta.
    assert (IH' : let sums := accumulate_weights W B A in
                  (0 <= snd sums
                   /\ lo * snd sums <= fst sums <= hi * snd sums)%R).
    { apply IH. intros c a b Hin. apply Hr. apply in_or_app. now left. }
    cbv zeta in IH'.
    destruct (PyDict.get (fst item) B) as [b|] eqn:Hg; [|exact IH'].
    destruct (Rgtb_spec b 0) as [Hb|_]; [|exact IH'].
    cbn [fst snd].
    pose proof (get_default_nonneg W (fst item) HW) as Hw.
    assert (Hratio : (lo <= snd item / b <= hi)%R).
    { apply (Hr (fst item) (snd item) b); try assumption.
      apply in_or_app. right. destruct item. now left. }
    set (w := PyDict.get_default (fst item) 0%R W) in *.
    set (r := (snd item / b)%R) in *.
    nra.
Qed.

(** X9. With non-negative weights and a positive total weight, the Tmall
    value of a date, before rounding, lies between 100 times the smallest
    and 100 times the largest price relative [curr_avg / base_avg] of the
    categories with a positive base average. *)
Theorem tmall_index_between_relatives
  (W B A : PyDict.t (K:=nat) (V:=R)) (lo hi : R) :
  (forall c w, In (c, w) W -> (0 <= w)%R) ->
  (forall c a b,
     In (c, a) A -> PyDict.get c B = Some b -> (0 < b)%R ->
     (lo <= a / b <= hi)%R) ->
  (0 < snd (accumulate_weights W B A))%R ->
  (lo * 100 <= tmall_index_value (accumulate_weights W B A) <= hi * 100)%R.
Proof.
  intros HW Hr Hpos. destruct (@accumulate_bounds W B A lo hi HW Hr) as [_ Hb].
  unfold tmall_index_value. rewrite (Rgtb_true Hpos).
  set (ws := fst (accumulate_weights W B A)) in *.
  set (tw := snd (accumulate_weights W B A)) in *.
  assert (Hq : (lo <= ws / tw <= hi)%R).
  { assert (Hi : (0 < / tw)%R) by (apply Rinv_0_lt_compat; lra).
    assert (Hone : (tw * / tw = 1)%R) by (field; lra).
    unfold Rdiv. split.
    - replace lo with (lo * tw * / tw)%R by (rewrite Rmult_assoc, Hone; lra).
      apply Rmult_le_compat_r; lra.
    - replace hi with (hi * tw * / tw)%R by (rewrite Rmult_assoc, Hone; lra).
      apply Rmult_le_compat_r; lra. }
  lra.
Qed.

Lemma example_sums :
  accumulate_weights example_weights example_base_avg example_current_avg
  = (0 + 12 / 10 * 1 + 20 / 20 * 3, 0 + 1 + 3)%R.
Proof.
  unfold accumulate_weights, example_weights, example_base_avg,
    example_current_avg, PyDict.get_default.
  cbn [fold_left PyDict.get fst snd eqb nat_Eqb Nat.eqb].
  rewrite !Rgtb_true by lra. reflexivity.
Qed.

(** The specification's example: relatives 1.2 and 1, index 105. *)
Lemma tmall_index_between_relatives_witness :
  (1 * 100
   <= tmall_index_value
        (accumulate_weights example_weights example_base_avg
           example_current_avg)
   <= 12 / 10 * 100)%R.
Proof.
  apply (tmall_index_between_relatives example_weights example_base_avg
           example_current_avg).
  - intros c w [[= <- <-]|[[= <- <-]|[]]]; lra.
  - intros c a b [[= <- <-]|[[= <- <-]|[]]]; simpl; intros [= <-] _; lra.
  - rewrite example_sums. simpl. lra.
Defined.

(** ** Further properties of the merge *)

Section MergeValues.
Import PyDict PyDictFacts.
Implicit Types (combined : PyDict.t (K:=string) (V:=CombinedRow)).

Lemma first_for_app k l l' :
  first_for k (l ++ l')
  = match first_for k l with Some idx => Some idx | None => first_for k l' end.
Proof.
  unfold first_for. induction l as [|x l IH]; simpl; [reflexivity|].
  destruct (String.eqb (idx_date x) k); [reflexivity | exact IH].
Qed.

Lemma last_for_snoc k l idx :
  last_for k (l ++ [idx])
  = if String.eqb (idx_date idx) k then Some idx else last_for k l.
Proof. unfold last_for, first_for. rewrite rev_app_distr. reflexivity. Qed.

Lemma first_for_single k idx :
  first_for k [idx] = if String.eqb (idx_date idx) k then Some idx else None.
Proof. reflexivity. Qed.

Lemma get_add_cavallo_row combined idx :
  get (idx_date idx) (add_cavallo combined idx)
  = Some (match get (idx_date idx) combined with
          | Some old =>
              {| c_date := c_date old; c_base_date := c_base_date old;
                 c_cavallo_index := Some (value_or_zero idx);
                 c_tmall_index := c_tmall_index old |}
          | None =>
              {| c_date := idx_date idx; c_base_date := idx_base_date idx;
                 c_cavallo_index := Some (value_or_zero idx);
                 c_tmall_index := None |}
          end).
Proof.
  unfold add_cavallo. rewrite get_update_same. unfold contains.
  destruct (get (idx_date idx) combined) as [old|] eqn:Hg; simpl.
  - now rewrite Hg.
  - now rewrite get_set_same.
Qed.

Lemma get_add_tmall_row combined idx :
  get (idx_date idx) (add_tmall combined idx)
  = Some (match get (idx_date idx) combined with
          | Some old =>
              {| c_date := c_date old; c_base_date := c_base_date old;
                 c_cavallo_index := c_cavallo_index old;
                 c_tmall_index := Some (value_or_zero idx) |}
          | None =>
              {| c_date := idx_date idx; c_base_date := idx_base_date idx;
                 c_cavallo_index := None;
                 c_tmall_index := Some (value_or_zero idx) |}
          end).
Proof.
  unfold add_tmall. rewrite get_update_same. unfold contains.
  destruct (get (idx_date idx) combined) as [old|] eqn:Hg; simpl.
  - now rewrite Hg.
  - now rewrite get_set_same.
Qed.

Lemma merge_values_add_cavallo pc combined idx :
  merge_values_inv pc [] combined ->
  merge_values_inv (pc ++ [idx]) [] (add_cavallo combined idx).
Proof.
  intros [Hdom0 Hrows0].
  assert (Hdom : forall k, get k combined = None -> first_for k pc = None).
  { intros k Hk. specialize (Hdom0 k Hk). now rewrite app_nil_r in Hdom0. }
  assert (Hrows : forall k row, get k combined = Some row ->
            c_cavallo_index row = option_map value_or_zero (last_for k pc)
            /\ c_tmall_index row = option_map value_or_zero (last_for k [])
            /\ option_map idx_base_date (first_for k pc)
               = Some (c_base_date row)).
  { intros k row Hg. specialize (Hrows0 k row Hg).
    now rewrite app_nil_r in Hrows0. }
  clear Hdom0 Hrows0. unfold merge_values_inv. rewrite !app_nil_r. split.
  - intros k Hk. destruct (String.eqb_spec (idx_date idx) k) as [<-|Hne].
    + rewrite get_add_cavallo_row in Hk. discriminate.
    + rewrite get_add_cavallo_other in Hk by congruence.
      rewrite first_for_app, (Hdom k Hk), first_for_single.
      now rewrite (proj2 (String.eqb_neq _ _) Hne).
  - intros k row Hg. rewrite last_for_snoc, first_for_app, first_for_single.
    destruct (String.eqb_spec (idx_date idx) k) as [<-|Hne].
    + rewrite get_add_cavallo_row in Hg. injection Hg as <-.
      destruct (get (idx_date idx) combined) as [old|] eqn:Ho; simpl.
      * destruct (Hrows _ _ Ho) as [_ [Ht Hb]].
        repeat split; try assumption.
        destruct (first_for (idx_date idx) pc); [exact Hb | discriminate].
      * rewrite (Hdom _ Ho). simpl. auto.
    + rewrite get_add_cavallo_other in Hg by congruence.
      destruct (Hrows _ _ Hg) as [Hc [Ht Hb]].
      repeat split; try assumption.
      destruct (first_for k pc); [exact Hb | discriminate].
Qed.

Lemma merge_values_add_tmall pc pt combined idx :
  merge_values_inv pc pt combined ->
  merge_values_inv pc (pt ++ [idx]) (add_tmall combined idx).
Proof.
  intros [Hdom Hrows]. split.
  - intros k Hk. rewrite app_assoc. destruct (String.eqb_spec (idx_date idx) k) as [<-|Hne].
    + rewrite get_add_tmall_row in Hk. discriminate.
    + rewrite get_add_tmall_other in Hk by congruence.
      rewrite first_for_app, (Hdom k Hk), first_for_single.
      now rewrite (proj2 (String.eqb_neq _ _) Hne).
  - intros k row Hg.
    rewrite app_assoc, last_for_snoc, first_for_app, first_for_single.
    destruct (String.eqb_spec (idx_date idx) k) as [<-|Hne].
    + rewrite get_add_tmall_row in Hg. injection Hg as <-.
      destruct (get (idx_date idx) combined) as [old|] eqn:Ho; simpl.
      * destruct (Hrows _ _ Ho) as [Hc [_ Hb]].
        repeat split; try assumption.
        destruct (first_for (idx_date idx) (pc ++ pt));
          [exact Hb | discriminate].
      * rewrite (Hdom _ Ho). simpl. repeat split.
        specialize (Hdom _ Ho). rewrite first_for_app in Hdom.
        unfold last_for. 
        destruct (first_for (idx_date idx) pc) eqn:Hf; [discriminate|].
        clear -Hf. unfold first_for in *.
        destruct (find _ (rev pc)) eqn:Hr; [|reflexivity].
        apply find_some in Hr. destruct Hr as [Hin Heq].
        apply in_rev in Hin.
        now rewrite (find_none _ _ Hf _ Hin) in Heq.
    + rewrite get_add_tmall_other in Hg by congruence.
      destruct (Hrows _ _ Hg) as [Hc [Ht Hb]].
      repeat split; try assumption.
      destruct (first_for k (pc ++ pt)); [exact Hb | discriminate].
Qed.

Lemma merge_values_fold_cavallo l pc combined :
  merge_values_inv pc [] combined ->
  merge_values_inv (pc ++ l) [] (fold_left add_cavallo l combined).
Proof.
  revert pc combined. induction l as [|idx l IH]; intros pc combined Hinv;
    simpl.
  - now rewrite app_nil_r.
  - replace (pc ++ idx :: l) with ((pc ++ [idx]) ++ l)
      by now rewrite <- app_assoc.
    apply IH. now apply merge_values_add_cavallo.
Qed.

Lemma merge_values_fold_tmall l pc pt combined :
  merge_values_inv pc pt combined ->
  merge_values_inv pc (pt ++ l) (fold_left add_tmall l combined).
Proof.
  revert pt combined. induction l as [|idx l IH]; intros pt combined Hinv;
    simpl.
  - now rewrite app_nil_r.
  - replace (pt ++ idx :: l) with ((pt ++ [idx]) ++ l)
      by now rewrite <- app_assoc.
    apply IH. now apply merge_values_add_tmall.
Qed.

Lemma merge_values_combine cav tm : merge_values_inv cav tm (combine cav tm).
Proof.
  unfold combine.
  apply (merge_values_fold_tmall tm (pc:=cav) (pt:=[])).
  apply (merge_values_fold_cavallo cav (pc:=[])).
  split; [reflexivity | discriminate].
Qed.

Lemma csv_record_item cav tm (r : CsvRecord) :
  In r (save_indices_to_local_file cav tm) ->
  exists row,
    PyDict.get (csv_date r) (combine cav tm) = Some row
    /\ r = csv_record_of (csv_date r, row).
Proof.
  unfold save_indices_to_local_file. intros Hr. apply in_map_iff in Hr.
  destruct Hr as [[k row] [<- Hin]].
  destruct (combine_item _ _ _ _ Hin) as [Hd _]. exists row. cbn. split.
  - rewrite Hd. apply In_get; [apply NoDup_keys_combine | assumption].
  - reflexivity.
Qed.

End MergeValues.

(** X10. The rows [save_indices_to_local_file] writes are exactly these:
    one per distinct date in order of first occurrence (Cavallo records
    first), holding the last index of each engine for that date, 0.0 where
    the engine has no record for the date or the record lacks the index
    key, and the base date of the first record seen for the date. *)
Theorem merge_is_row_for_each_date (cav tm : list IndexRecord) :
  save_indices_to_local_file cav tm
  = map (row_for cav tm) (distinct (map idx_date cav ++ map idx_date tm)).
Proof.
  rewrite <- keys_combine. unfold save_indices_to_local_file, PyDict.keys.
  rewrite map_map. apply map_ext_in. intros [k row] Hin.
  destruct (combine_item _ _ _ _ Hin) as [Hd _].
  assert (Hg : PyDict.get k (combine cav tm) = Some row).
  { apply PyDictFacts.In_get; [apply NoDup_keys_combine | assumption]. }
  destruct (proj2 (merge_values_combine cav tm) _ _ Hg) as [Hc [Ht Hb]].
  unfold csv_record_of, row_for. cbn [fst snd]. rewrite Hd, Hc, Ht.
  destruct (first_for k (cav ++ tm)); [|discriminate].
  injection Hb as <-.
  destruct (last_for k cav), (last_for k tm); reflexivity.
Qed.

Lemma distinct_app (l l' : list string) :
  distinct (l ++ l')
  = distinct l ++ filter (fun x => negb (mem x (distinct l))) (distinct l').
Proof.
  rewrite <- first_seen_distinct, first_seen_app, first_seen_distinct.
  apply first_seen_filter.
Qed.

(** X11. Merging the Cavallo records with any Tmall records keeps what
    merging them alone gives: the same rows come first, in the same order,
    with the same date, Cavallo index and base date; the Tmall records only
    fill the Tmall index and append rows for new dates. *)
Theorem tmall_records_keep_cavallo_rows (cav tm : list IndexRecord) :
  exists extra,
    map cavallo_part (save_indices_to_local_file cav tm)
    = map cavallo_part (save_indices_to_local_file cav []) ++ extra
    /\ Forall (fun p => ~ In (fst (fst p)) (map idx_date cav)
                        /\ snd (fst p) = 0%R) extra.
Proof.
  rewrite !merge_is_row_for_each_date. cbn [map]. rewrite app_nil_r.
  rewrite distinct_app, map_app, map_app, !map_map.
  eexists. split; [apply (f_equal (fun l => l ++ _))|].
  - apply map_ext_in. intros k Hk. rewrite In_distinct, in_map_iff in Hk.
    destruct Hk as [idx [Hd Hidx]].
    unfold row_for, cavallo_part. cbn. rewrite app_nil_r, first_for_app.
    destruct (first_for k cav) eqn:Hf; [reflexivity|].
    exfalso. unfold first_for in Hf.
    pose proof (find_none _ _ Hf _ Hidx) as Hno. cbn in Hno.
    rewrite Hd, String.eqb_refl in Hno. discriminate.
  - apply Forall_forall. intros p Hp. apply in_map_iff in Hp.
    destruct Hp as [k [<- Hk]]. apply filter_In in Hk.
    destruct Hk as [_ Hk]. apply negb_true_iff in Hk.
    apply mem_not_In in Hk. rewrite In_distinct in Hk.
    cbn. split; [assumption|].
    unfold last_for, first_for. destruct (find _ (rev cav)) eqn:Hf;
      [|reflexivity].
    apply find_some in Hf. destruct Hf as [Hin Heq].
    apply String.eqb_eq in Heq. exfalso. apply Hk. rewrite <- Heq.
    apply in_map. now apply in_rev.
Qed.

(** ** Batches *)

Section BatchShape.
Context {A : Type}.

Lemma range_from_length (n : nat) :
  0 < n ->
  forall fuel i stop, stop <= i + fuel ->
    List.length (range_from fuel i stop n) = (stop - i + n - 1) / n.
Proof.
  intros Hn. induction fuel as [|fuel IH]; intros i stop Hfuel; simpl.
  - replace (stop - i + n - 1) with (n - 1) by lia.
    symmetry. apply Nat.div_small. lia.
  - destruct (Nat.ltb_spec i stop) as [Hlt|Hge]; simpl.
    + rewrite IH by lia.
      destruct (Nat.le_gt_cases n (stop - i)) as [Hbig|Hsmall].
      * replace (stop - i + n - 1) with ((stop - (i + n) + n - 1) + 1 * n)
          by lia.
        rewrite Nat.div_add by lia. lia.
      * replace (stop - (i + n) + n - 1) with (n - 1) by lia.
        rewrite (Nat.div_small (n - 1)) by lia.
        apply (Nat.div_unique _ _ 1 (stop - i - 1)); lia.
    + replace (stop - i + n - 1) with (n - 1) by lia.
      symmetry. apply Nat.div_small. lia.
Qed.

Lemma range_from_bound (n fuel i stop x : nat) :
  In x (range_from fuel i stop n) -> x < stop.
Proof.
  revert i. induction fuel as [|fuel IH]; intros i; simpl; [tauto|].
  destruct (Nat.ltb_spec i stop) as [Hlt|Hge]; simpl; [|tauto].
  intros [<-|Hin]; [assumption | eauto].
Qed.

Lemma slice_length (xs : list A) (i n : nat) :
  i < List.length xs -> 0 < n ->
  1 <= List.length (slice xs i (i + n)) <= n.
Proof.
  intros Hi Hn. unfold slice. rewrite length_firstn, length_skipn. lia.
Qed.

End BatchShape.

(** X12. Batching with a positive batch size splits a list into
    [ceil(len / n)] consecutive batches, none empty and none longer than
    [n], whose concatenation is the list: the Cavallo engine issues one
    price query per 1000 base products and [insert_data] one insert per
    50000 rows. *)
Theorem batches_partition {A} (n : nat) (xs : list A) :
  0 < n ->
  List.concat (batches n xs) = xs
  /\ Forall (fun b => 1 <= List.length b <= n) (batches n xs)
  /\ List.length (batches n xs) = (List.length xs + n - 1) / n.
Proof.
  intros Hn. split; [now apply concat_batches|]. split.
  - unfold batches. apply Forall_forall. intros b Hb.
    apply in_map_iff in Hb. destruct Hb as [i [<- Hi]].
    apply range_from_bound in Hi. now apply slice_length.
  - unfold batches, py_range. rewrite length_map.
    rewrite range_from_length by (assumption || lia). f_equal. lia.
Qed.

Lemma batches_partition_witness :
  List.concat (batches 2 [1; 2; 3; 4; 5]) = [1; 2; 3; 4; 5]
  /\ Forall (fun b => 1 <= List.length b <= 2) (batches 2 [1; 2; 3; 4; 5])
  /\ List.length (batches 2 [1; 2; 3; 4; 5])
     = (List.length [1; 2; 3; 4; 5] + 2 - 1) / 2.
Proof. apply batches_partition. lia. Defined.

(** ** Failures while saving *)

Section SaveFailures.
Context `{Runtime}.



Lemma indices_data_err (items : list (string * CombinedRow)) item e :
  In item items -> index_tuple_of (snd item) = Err e ->
  exists e', indices_data items = Err e'.
Proof.
  induction items as [|[k values] items IH]; simpl; [tauto|].
  intros [<-|Hin] Herr.
  - simpl in Herr. rewrite Herr. simpl. eauto.
  - destruct (index_tuple_of values); simpl; [|eauto].
    destruct (IH Hin Herr) as [e' ->]. simpl. eauto.
Qed.

End SaveFailures.


(** X14. [save_indices] parses every date before it inserts anything: when
    the date of any input record does not parse, the exception reaches the
    caller and the sink is untouched. *)
Theorem save_indices_bad_date_inserts_nothing `{Runtime}
  (cav tm : list IndexRecord) (s : Sink) (idx : IndexRecord) (e : exn) :
  In idx (cav ++ tm) -> strptime (idx_date idx) = Err e ->
  exists e', save_indices cav tm s = (Err e', s).
Proof.
  intros Hin Herr.
  assert (Hk : In (idx_date idx) (PyDict.keys (combine cav tm))).
  { rewrite keys_combine, In_distinct, <- map_app. now apply in_map. }
  unfold PyDict.keys in Hk. apply in_map_iff in Hk.
  destruct Hk as [[k row] [Hkd Hitem]]. simpl in Hkd. subst k.
  destruct (combine_item _ _ _ _ Hitem) as [Hd _].
  assert (Htup : index_tuple_of row = Err e).
  { unfold index_tuple_of. now rewrite Hd, Herr. }
  destruct (indices_data_err _ _ Hitem Htup) as [e' He'].
  exists e'. unfold save_indices. now rewrite He'.
Qed.








(** A Cavallo record dated 2024-13-01. *)
Lemma save_indices_bad_date_inserts_nothing_witness :
  exists e',
    save_indices (H:=example_runtime) [bad_date_record] [tmall_jan1] []
    = (Err e', []).
Proof.
  apply (save_indices_bad_date_inserts_nothing (H:=example_runtime)
           [bad_date_record] [tmall_jan1] [] bad_date_record
           (e:=ValueError "day is out of range for month")).
  - now left.
  - reflexivity.
Defined.

(** ** [_get_current_prices] *)

Section DictUpdate.
Import PyDict PyDictFacts.
Context {K V : Type} {KE : Eqb K} {KO : EqbOk K}.

Lemma get_dict_update (result other : PyDict.t (K:=K) (V:=V)) (k : K) :
  NoDup (keys other) ->
  get k (dict_update result other)
  = match get k other with Some v => Some v | None => get k result end.
Proof.
  unfold dict_update. revert result.
  induction other as [|[k' v'] other IH]; intros result Hnd; [reflexivity|].
  inversion Hnd as [|? ? Hni Hnd']; subst. cbn [fold_left get].
  rewrite IH by assumption. unfold set_pair. cbn [fst snd].
  destruct (eqb_spec k k') as [->|Hne].
  - apply get_None in Hni. rewrite Hni. apply get_set_same.
  - now rewrite get_set_other.
Qed.

End DictUpdate.

Section CurrentPricesOnTables.
Variable db : Database.
Variable d : date.

Hypothesis one_price_per_day :
  NoDup (map (fun f => (pf_date f, pf_product_id f)) (daily_prices db)).

Lemma priced_unique pid p p' : priced db d pid p -> priced db d pid p' -> p = p'.
Proof.
  intros [f [Hf [Hd [Hp Hv]]]] [f' [Hf' [Hd' [Hp' Hv']]]].
  assert (Heq : f = f').
  { apply (NoDup_map_inj _ _ _ _ one_price_per_day Hf Hf'). congruence. }
  congruence.
Qed.

Lemma In_sql_current_prices batch pid p :
  In (pid, p) (sql_current_prices db (Some d) batch)
  <-> In pid batch /\ priced db d pid p.
Proof.
  unfold sql_current_prices, priced. rewrite in_map_iff. split.
  - intros [f [[= <- <-] Hf]]. apply filter_In in Hf.
    destruct Hf as [Hf Hc]. apply andb_true_iff in Hc. destruct Hc as [Hd Hm].
    simpl in Hd. split; [now apply mem_In|]. exists f.
    destruct (date_eqb_spec (pf_date f) d); [auto | discriminate].
  - intros [Hb [f [Hf [Hd [<- <-]]]]]. exists f. split; [reflexivity|].
    apply filter_In. split; [assumption|]. apply andb_true_iff. split.
    + simpl. rewrite Hd. apply (eqb_refl (K:=date)).
    + now apply mem_In.
Qed.

Lemma get_batch_prices batch pid p :
  PyDict.get pid (PyDict.of_list (sql_current_prices db (Some d) batch))
  = Some p
  <-> In pid batch /\ priced db d pid p.
Proof.
  rewrite <- In_sql_current_prices. split.
  - intros Hg. apply PyDictFacts.get_Some_In in Hg.
    now apply PyDictFacts.In_of_list.
  - intros Hin.
    destruct (PyDict.get pid
                (PyDict.of_list (sql_current_prices db (Some d) batch)))
      as [v|] eqn:Hg.
    + f_equal. apply PyDictFacts.get_Some_In, PyDictFacts.In_of_list in Hg.
      apply In_sql_current_prices in Hg, Hin.
      exact (priced_unique (proj2 Hg) (proj2 Hin)).
    + apply PyDictFacts.get_None in Hg. exfalso. apply Hg.
      apply PyDictFacts.In_keys_of_list.
      change pid with (fst (pid, p)). now apply in_map.
Qed.

Lemma current_prices_loop_lookup (bs : list (list string))
  (result : PyDict.t (K:=string) (V:=R)) (seen : list string) :
  (forall pid p,
     PyDict.get pid result = Some p <-> In pid seen /\ priced db d pid p) ->
  exists result',
    current_prices_loop (db_current_prices db) (Some d) bs result = Ok result'
    /\ forall pid p,
         PyDict.get pid result' = Some p
         <-> In pid (seen ++ List.concat bs) /\ priced db d pid p.
Proof.
  revert result seen. induction bs as [|b bs IH]; intros result seen Hinv.
  - exists result. split; [reflexivity|]. simpl. now rewrite app_nil_r.
  - cbn [current_prices_loop db_current_prices bind List.concat].
    unfold db_current_prices at 1. cbn [bind].
    destruct (IH (dict_update result
                    (PyDict.of_list (sql_current_prices db (Some d) b)))
                 (seen ++ b)) as [result' [Hrun Hlook]].
    + intros pid p.
      rewrite get_dict_update by apply PyDictFacts.NoDup_keys_of_list.
      rewrite in_app_iff.
      destruct (PyDict.get pid
                  (PyDict.of_list (sql_current_prices db (Some d) b)))
        as [v|] eqn:Hg.
      * apply get_batch_prices in Hg. destruct Hg as [Hb Hv]. split.
        -- intros [= <-]. tauto.
        -- intros [_ Hp]. f_equal. exact (priced_unique Hv Hp).
      * rewrite Hinv. split; [tauto|]. intros [[Hs|Hb] Hp]; [tauto|].
        exfalso. assert (Hsome : PyDict.get pid
                    (PyDict.of_list (sql_current_prices db (Some d) b))
                  = Some p) by now apply get_batch_prices.
        congruence.
    + exists result'. split; [exact Hrun|]. intros pid p.
      rewrite Hlook, app_assoc. reflexivity.
Qed.

End CurrentPricesOnTables.

(** X15. On tables with at most one price row per (date, product) pair and
    for every positive batch size, [_get_current_prices] returns the dict
    that maps exactly the requested products priced on the date to their
    price of that date; the batch size does not show in the result's
    content. *)
Theorem current_prices_lookup (db : Database) (d : date)
  (product_ids : list string) (batch_size : nat) :
  NoDup (map (fun f => (pf_date f, pf_product_id f)) (daily_prices db)) ->
  0 < batch_size ->
  exists result,
    _get_current_prices (db_current_prices db) (Some d) product_ids batch_size
    = Ok result
    /\ forall pid p,
         PyDict.get pid result = Some p
         <-> In pid product_ids /\ priced db d pid p.
Proof.
  intros Hone Hn. unfold _get_current_prices.
  destruct (Nat.eqb_spec batch_size 0) as [->|_]; [lia|].
  destruct (@current_prices_loop_lookup db d Hone
              (batches batch_size product_ids) [] [])
    as [result [Hrun Hlook]].
  - intros pid p. simpl. split; [discriminate | tauto].
  - exists result. split; [exact Hrun|]. intros pid p.
    rewrite Hlook. simpl. now rewrite concat_batches.
Qed.

(** Two products on 2 January, fetched one product per batch. *)
Lemma current_prices_lookup_witness :
  exists result,
    _get_current_prices (db_current_prices two_day_db) (Some jan2)
      ["P1"%string; "P2"%string] 1
    = Ok result
    /\ forall pid p,
         PyDict.get pid result = Some p
         <-> In pid ["P1"%string; "P2"%string] /\ priced two_day_db jan2 pid p.
Proof.
  apply current_prices_lookup; [|lia].
  simpl. repeat constructor; simpl; intuition discriminate.
Defined.

(** ** A base date without facts; saving twice *)

(** X16. When no fact of [daily_prices] is dated on the resolved base date,
    for instance an explicit base date outside the data, both engines
    return the empty list. *)
Theorem no_facts_on_base_date_no_indices `{Runtime} (db : Database)
  (sd : option string) (bd : date) :
  _determine_base_date (db_connector db) sd = Ok (Some bd) ->
  (forall f, In f (daily_prices db) -> pf_date f <> bd) ->
  calculate_cavallo_index (db_connector db) sd = []
  /\ calculate_tmall_index (db_connector db) sd = [].
Proof.
  intros Hd Hnone.
  assert (Hrows : filter (on_date (Some bd)) (daily_prices db) = []).
  { induction (daily_prices db) as [|f facts IH]; [reflexivity|]. simpl.
    destruct (date_eqb_spec (pf_date f) bd) as [Heq|_].
    - exfalso. apply (Hnone f); [now left | assumption].
    - apply IH. intros f' Hf'. apply Hnone. now right. }
  split.
  - unfold calculate_cavallo_index, cavallo_try. rewrite Hd. cbn [bind].
    unfold _get_base_prices. cbn [db_connector q_base_prices bind].
    unfold sql_base_prices. rewrite Hrows. reflexivity.
  - unfold calculate_tmall_index, tmall_try. rewrite Hd. cbn [bind].
    unfold _get_category_weights, _get_category_averages.
    cbn [db_connector q_category_weights q_category_averages bind].
    destruct (is_empty (PyDict.of_list (categories db))); [reflexivity|].
    unfold sql_category_averages. rewrite Hrows. reflexivity.
Qed.

(** The explicit base date 3 January on tables that end on 2 January. *)
Lemma no_facts_on_base_date_no_indices_witness :
  calculate_cavallo_index (H:=example_runtime) (db_connector two_day_db)
    (Some "2024-01-03"%string) = []
  /\ calculate_tmall_index (H:=example_runtime) (db_connector two_day_db)
       (Some "2024-01-03"%string) = [].
Proof.
  apply (no_facts_on_base_date_no_indices (H:=example_runtime) two_day_db
           (Some "2024-01-03"%string) (bd:=jan3)).
  - reflexivity.
  - simpl. intros f [<-|[<-|[<-|[<-|[]]]]]; discriminate.
Defined.

(** X17. [save_indices] appends and never replaces: when two runs on the
    same records both succeed, the index table holds every merged row
    twice. *)
Theorem save_indices_twice_duplicates `{Runtime}
  (cav tm : list IndexRecord) (s s1 s2 : Sink) :
  save_indices cav tm s = (Ok tt, s1) ->
  save_indices cav tm s1 = (Ok tt, s2) ->
  exists data,
    indices_data (combine cav tm) = Ok data
    /\ List.length data
       = List.length (distinct (map idx_date cav ++ map idx_date tm))
    /\ stored "price_indices" s2
       = (stored "price_indices" s ++ data ++ data)%list.
Proof.
  intros H1 H2.
  destruct (save_indices_ok _ _ _ H1) as [data [Hd Hs1]].
  destruct (save_indices_ok _ _ _ H2) as [data' [Hd' Hs2]].
  assert (data' = data) by congruence. subst data'.
  exists data. split; [exact Hd|]. split.
  - rewrite <- keys_combine. unfold PyDict.keys. rewrite length_map.
    symmetry. eapply Forall2_length. apply indices_data_Forall2. exact Hd.
  - now rewrite Hs2, Hs1, <- app_assoc.
Qed.

Lemma save_indices_twice_duplicates_witness :
  exists data,
    indices_data (H:=example_runtime) (combine [cavallo_jan1] [tmall_jan1])
    = Ok data
    /\ List.length data
       = List.length
           (distinct (map idx_date [cavallo_jan1] ++ map idx_date [tmall_jan1]))
    /\ stored "price_indices"
         [("price_indices"%string, [(jan1, Some 100%R, Some 100%R, jan1)]);
          ("price_indices"%string, [(jan1, Some 100%R, Some 100%R, jan1)])]
       = (stored "price_indices" [] ++ data ++ data)%list.
Proof.
  apply (save_indices_twice_duplicates (H:=example_runtime)
           [cavallo_jan1] [tmall_jan1] []
           (s1:=[("price_indices"%string,
                  [(jan1, Some 100%R, Some 100%R, jan1)])]));
    reflexivity.
Defined.

(** ** The progress tracker *)

Section TrackerFacts.
Import ProgressTracker.

Lemma updates_by_one (n c k : nat) :
  n <> 0 ->
  updates {| total := n; count := c |} (repeat 1 k)
  = Updated {| total := n; count := c + k |}
      (map (fun x => (x, n)) (filter (logs_at n) (seq (c + 1) k))).
Proof.
  intros Hn. revert c. induction k as [|k IH]; intros c.
  - simpl. now rewrite Nat.add_0_r.
  - cbn [repeat updates]. unfold update. cbn [total count].
    replace (c + S k) with (c + 1 + k) by lia.
    cbn [seq filter]. fold (logs_at n (c + 1)).
    replace (S (c + 1)) with (c + 1 + 1) by lia.
    destruct (logs_at n (c + 1)).
    + destruct (Nat.eqb_spec n 0) as [|_]; [contradiction|].
      now rewrite IH.
    + now rewrite IH.
Qed.

Lemma updates_by_batch (n b c k : nat) :
  n <> 0 -> b mod 10 = 0 -> c mod 10 = 0 ->
  exists lines,
    updates {| total := n; count := c |} (repeat b k)
    = Updated {| total := n; count := c + k * b |} lines
    /\ List.length lines = k.
Proof.
  intros Hn Hb. revert c. induction k as [|k IH]; intros c Hc.
  - exists []. simpl. now rewrite Nat.add_0_r.
  - cbn [repeat updates]. unfold update. cbn [total count].
    assert (Hcb : (c + b) mod 10 = 0).
    { rewrite Nat.Div0.add_mod, Hb, Hc. reflexivity. }
    rewrite Hcb. cbn [Nat.eqb orb].
    destruct (Nat.eqb_spec n 0) as [|_]; [contradiction|].
    destruct (IH (c + b) Hcb) as [lines [-> Hlen]].
    eexists. split.
    + f_equal. f_equal. lia.
    + simpl. now rewrite Hlen.
Qed.

Lemma map_const_repeat {A B} (b : B) (l : list A) :
  map (fun _ => b) l = repeat b (List.length l).
Proof. induction l as [|x l IH]; simpl; [reflexivity | now rewrite IH]. Qed.

End TrackerFacts.

(** The batch size of [main] is a positive multiple of 10. *)
Lemma price_import_batch_size_ok :
  0 < price_import_batch_size /\ price_import_batch_size mod 10 = 0.
Proof.
  split.
  - apply Nat.ltb_lt. vm_compute. reflexivity.
  - vm_compute. reflexivity.
Qed.

(** X18. Over the upload loop of [main] the tracker never divides by zero,
    ends with [count = total], and logs exactly at the counts that are
    multiples of 10 and at the last file. *)
Theorem upload_progress_reaches_total (price_files : nat) :
  ProgressTracker.upload_progress price_files
  = ProgressTracker.Updated
      {| ProgressTracker.total := price_files;
         ProgressTracker.count := price_files |}
      (map (fun x => (x, price_files))
           (filter (logs_at price_files) (seq 1 price_files))).
Proof.
  unfold ProgressTracker.upload_progress, ProgressTracker.init.
  destruct price_files as [|n]; [reflexivity|].
  now rewrite updates_by_one.
Qed.

(** X19. Over the import loop of [main], with a batch size that is a
    positive multiple of 10 such as 100000, the tracker never divides by
    zero and logs after every batch, but it counts whole batches: the final
    count is the number of batches times the batch size, at least the total
    and above it whenever the total is not a multiple of the batch size, so
    the last line reports more than 100%. *)
Theorem import_progress_overshoots (total_prices batch_size : nat) :
  0 < batch_size -> batch_size mod 10 = 0 ->
  exists final lines,
    ProgressTracker.import_progress total_prices batch_size
    = ProgressTracker.Updated final lines
    /\ ProgressTracker.count final
       = (total_prices + batch_size - 1) / batch_size * batch_size
    /\ List.length lines = (total_prices + batch_size - 1) / batch_size
    /\ total_prices <= ProgressTracker.count final < total_prices + batch_size
    /\ (total_prices mod batch_size <> 0 ->
        total_prices < ProgressTracker.count final).
Proof.
  intros Hb Hten. unfold ProgressTracker.import_progress, ProgressTracker.init.
  rewrite map_const_repeat.
  assert (Hlen : List.length (py_range total_prices batch_size)
                 = (total_prices + batch_size - 1) / batch_size).
  { unfold py_range. rewrite range_from_length by (assumption || lia).
    f_equal. lia. }
  rewrite Hlen. set (k := (total_prices + batch_size - 1) / batch_size).
  assert (Hk : total_prices <= k * batch_size < total_prices + batch_size).
  { pose proof (Nat.div_mod_eq (total_prices + batch_size - 1) batch_size)
      as Hdm.
    pose proof (Nat.mod_upper_bound (total_prices + batch_size - 1)
                  batch_size) as Hr.
    fold k in Hdm. nia. }
  assert (Hstrict : total_prices mod batch_size <> 0 ->
                    total_prices < k * batch_size).
  { intros Hmod. destruct (Nat.eq_dec total_prices (k * batch_size)) as [E|];
      [|lia].
    exfalso. apply Hmod. rewrite E. apply Nat.Div0.mod_mul. }
  destruct total_prices as [|n].
  - assert (k = 0) by (unfold k; apply Nat.div_small; lia).
    subst k. rewrite H. exists {| ProgressTracker.total := 0;
                                 ProgressTracker.count := 0 |}, [].
    simpl. repeat split; try lia;
      try (intros Hmod; exfalso; apply Hmod; apply Nat.Div0.mod_0_l).
  - destruct (@updates_by_batch (S n) batch_size 0 k) as [lines [Hrun Hl]];
      [lia | assumption | reflexivity |].
    exists {| ProgressTracker.total := S n;
              ProgressTracker.count := 0 + k * batch_size |}, lines.
    cbn [ProgressTracker.count]. repeat split; try assumption; try lia.
Qed.

(** 25 price rows imported in batches of 10: three batches, final count
    30. *)
Lemma import_progress_overshoots_witness :
  exists final lines,
    ProgressTracker.import_progress 25 10 = ProgressTracker.Updated final lines
    /\ ProgressTracker.count final = (25 + 10 - 1) / 10 * 10
    /\ List.length lines = (25 + 10 - 1) / 10
    /\ 25 <= ProgressTracker.count final < 25 + 10
    /\ (25 mod 10 <> 0 -> 25 < ProgressTracker.count final).
Proof. apply import_progress_overshoots; [lia | reflexivity]. Defined.

(** ** Reading a CSV file *)

Section ReadCsvFacts.
Import DataCleaner.
Variable DF : Type.
Variable df_empty : DF -> bool.
Variable df_columns : DF -> nat.
Variable read_csv : string -> read_outcome DF.

Lemma try_encodings_ok (encs : list string) (df : DF) :
  try_encodings df_empty df_columns read_csv encs = Ok df
  <-> exists pre encoding post,
        encs = pre ++ encoding :: post
        /\ forallb (skipped df_empty df_columns read_csv) pre = true
        /\ read_csv encoding = Frame df
        /\ acceptable df_empty df_columns df = true.
Proof.
  induction encs as [|enc encs IH]; simpl.
  - split; [discriminate|]. intros [pre [e [post [Heq _]]]].
    destruct pre; discriminate.
  - split.
    + intros Hrun. destruct (read_csv enc) as [df0| | |e0] eqn:Hr.
      * destruct (acceptable df_empty df_columns df0) eqn:Ha.
        -- injection Hrun as ->. exists [], enc, encs. simpl. auto.
        -- apply IH in Hrun. destruct Hrun as [pre [e [post [-> Hrest]]]].
           exists (enc :: pre), e, post. simpl. unfold skipped at 1.
           rewrite Hr, Ha. simpl. tauto.
      * apply IH in Hrun. destruct Hrun as [pre [e [post [-> Hrest]]]].
        exists (enc :: pre), e, post. simpl. unfold skipped at 1.
        rewrite Hr. simpl. tauto.
      * apply IH in Hrun. destruct Hrun as [pre [e [post [-> Hrest]]]].
        exists (enc :: pre), e, post. simpl. unfold skipped at 1.
        rewrite Hr. simpl. tauto.
      * discriminate.
    + intros [pre [e [post [Heq [Hpre [Hr Ha]]]]]].
      destruct pre as [|p pre]; simpl in Heq; injection Heq as -> ->.
      * now rewrite Hr, Ha.
      * simpl in Hpre. apply andb_true_iff in Hpre. destruct Hpre as [Hp Hpre].
        assert (Hnext : try_encodings df_empty df_columns read_csv
                          (pre ++ e :: post) = Ok df).
        { apply IH. exists pre, e, post. auto. }
        unfold skipped in Hp. destruct (read_csv p) as [df0| | |e0];
          try assumption; [|discriminate].
        apply negb_true_iff in Hp. now rewrite Hp.
Qed.

Lemma try_encodings_none (encs : list string) :
  forallb (skipped df_empty df_columns read_csv) encs = true ->
  try_encodings df_empty df_columns read_csv encs
  = Err (ValueError "cannot read file").
Proof.
  induction encs as [|enc encs IH]; simpl; [reflexivity|].
  intros Hall. apply andb_true_iff in Hall. destruct Hall as [Hp Hrest].
  unfold skipped in Hp. destruct (read_csv enc) as [df0| | |e0]; auto;
    [|discriminate].
  apply negb_true_iff in Hp. rewrite Hp. auto.
Qed.

End ReadCsvFacts.

(** X20. [_read_csv_with_encoding_detection] returns the frame of the first
    candidate encoding that reads into a non-empty frame of more than one
    column, every earlier candidate having raised a decoding or parsing
    error or read into a frame that is empty or has a single column; the
    detected encoding is a candidate, and the first one, only when its
    confidence exceeds 0.9.  When every candidate is passed over the
    function raises [ValueError]. *)
Theorem read_csv_first_acceptable (DF : Type) (df_empty : DF -> bool)
  (df_columns : DF -> nat) (read_csv : string -> DataCleaner.read_outcome DF)
  (detected : string * R) :
  let candidates := DataCleaner.candidate_encodings detected in
  (forall df,
     DataCleaner._read_csv_with_encoding_detection df_empty df_columns
       read_csv detected = Ok df
     <-> exists pre encoding post,
           candidates = pre ++ encoding :: post
           /\ forallb (DataCleaner.skipped df_empty df_columns read_csv) pre
              = true
           /\ read_csv encoding = DataCleaner.Frame df
           /\ DataCleaner.acceptable df_empty df_columns df = true)
  /\ (forallb (DataCleaner.skipped df_empty df_columns read_csv) candidates
      = true ->
      DataCleaner._read_csv_with_encoding_detection df_empty df_columns
        read_csv detected
      = Err (ValueError "cannot read file"))
  /\ (candidates
      = if Rgtb (snd detected) (9 / 10)
        then fst detected :: DataCleaner.encodings
        else DataCleaner.encodings).
Proof.
  intros candidates. split; [|split].
  - intros df. apply try_encodings_ok.
  - apply try_encodings_none.
  - reflexivity.
Qed.

(** gbk reads into a single column, utf-8 into three columns; chardet is
    not confident. *)
Lemma read_csv_first_acceptable_witness :
  DataCleaner._read_csv_with_encoding_detection (fun _ => false) (fun n => n)
    example_read_csv ("ascii"%string, (1 / 2)%R)
  = Ok 3.
Proof.
  apply (proj1 (read_csv_first_acceptable (fun _ => false) (fun n => n)
                  example_read_csv ("ascii"%string, (1 / 2)%R))).
  exists ["gbk"%string], "utf-8"%string,
    ["gb18030"%string; "utf-8-sig"%string; "iso-8859-1"%string].
  repeat split.
  unfold DataCleaner.candidate_encodings. cbn [snd fst].
  now rewrite Rgtb_false by lra.
Defined.
